(** * puffsocial-api: request authentication, device identity keys and the
      telemetry routes

    A shallow embedding of the route handlers of the three revisions of the
    API (the earliest in [src/src/routes.ts], the two later ones in
    [src/unnamed/part_000] and [src/unnamed/part_001]), of the runtime pieces
    they call (Node's Buffer base64 and UTF-8 conversions, byte-data's
    [unpack], [Number] on strings) and of the Prisma calls against the
    leaderboard table, followed by the properties of the specification.
    [./utils] ([verifyRequest], [sanitize], [macAddressToUint8Array], the zod
    schemas) is not among the sources: the first two are modelled and marked
    so, the others are parameters.

    Conventions.
    - A Buffer or Uint8Array is a [list byte]; arithmetic on its elements goes
      through [byteZ], a store into it keeps the low eight bits ([Zbyte]).
    - A JavaScript string is a [string]: the strings whose code units are
      below 256.  Everything the handlers build (MAC text, decimal numerals,
      base64 text, keys) lives there.
    - A database row is a finite map from column names to scalars, as Prisma
      hands it to the handler; the table is the list of its rows.
    - A handler is a computation in a small state-and-exception monad over
      the table and a trace of the effects performed. *)

From stdpp Require Import gmap strings list fin_maps.
From Stdlib Require Import ZArith Lia String Ascii DecimalString Sorted.
From Stdlib.Strings Require Import Byte.

Open Scope Z_scope.

(* ===================================================================== *)
(** ** Bytes and code units *)
(* ===================================================================== *)

Definition byteZ (b : byte) : Z := Z.of_N (Byte.to_N b).

(** Writing a number into a byte cell keeps its low eight bits. *)
Definition Zbyte (z : Z) : byte :=
  match Byte.of_N (Z.to_N (z mod 256)) with
  | Some b => b
  | None => x00
  end.

Definition codeZ (c : ascii) : Z := Z.of_N (N_of_ascii c).

(** The 256 bytes, and boolean checks run over all of them (over all pairs
    of them): facts about bit patterns of one or two bytes are proved by
    evaluation. *)
Definition all_bytes : list byte :=
  List.map (fun n => Zbyte (Z.of_nat n)) (seq 0 256).

Definition for_bytes (P : byte -> bool) : bool := forallb P all_bytes.

Definition for_bytes2 (P : byte -> byte -> bool) : bool :=
  forallb (fun a => forallb (P a) all_bytes) all_bytes.

Definition Z_eq_opt (o : option Z) (z : Z) : bool :=
  match o with
  | Some v => Z.eqb v z
  | None => false
  end.

(* ===================================================================== *)
(** ** Node's Buffer: base64 and UTF-8 *)
(* ===================================================================== *)

Module Buffer.

(** The base64 alphabet of [buf.toString('base64')] (RFC 4648, padded). *)
Definition alphabet : list ascii :=
  list_ascii_of_string
    "ABCDEFGHIJKLMNOPQRSTUVWXYZabcdefghijklmnopqrstuvwxyz0123456789+/".

Definition b64_char (i : Z) : ascii := List.nth (Z.to_nat i) alphabet "="%char.

(** The four sextets of a group of three bytes, and those of the one- and
    two-byte tails. *)
Definition sextet0 (a : byte) : Z := Z.shiftr (byteZ a) 2.
Definition sextet1 (a b : byte) : Z :=
  Z.lor (Z.shiftl (Z.land (byteZ a) 3) 4) (Z.shiftr (byteZ b) 4).
Definition sextet2 (b c : byte) : Z :=
  Z.lor (Z.shiftl (Z.land (byteZ b) 15) 2) (Z.shiftr (byteZ c) 6).
Definition sextet3 (c : byte) : Z := Z.land (byteZ c) 63.

(** [buf.toString('base64')]. *)
Fixpoint toString_base64 (buf : list byte) : string :=
  match buf with
  | [] => ""
  | [a] =>
      String (b64_char (sextet0 a))
        (String (b64_char (sextet1 a x00)) "==")
  | [a; b] =>
      String (b64_char (sextet0 a))
        (String (b64_char (sextet1 a b))
           (String (b64_char (sextet2 b x00)) "="))
  | a :: b :: c :: rest =>
      String (b64_char (sextet0 a))
        (String (b64_char (sextet1 a b))
           (String (b64_char (sextet2 b c))
              (String (b64_char (sextet3 c)) (toString_base64 rest))))
  end.

(** Node's decoding table: both the standard and the URL-safe alphabet are
    legal; every other character has no value. *)
Definition unbase64 (c : ascii) : option Z :=
  let n := codeZ c in
  if (65 <=? n) && (n <=? 90) then Some (n - 65)
  else if (97 <=? n) && (n <=? 122) then Some (n - 71)
  else if (48 <=? n) && (n <=? 57) then Some (n + 4)
  else if (n =? 43) || (n =? 45) then Some 62
  else if (n =? 47) || (n =? 95) then Some 63
  else None.

(** The decoder reads the text left to right, skips characters without a
    value and stops at the first padding character. *)
Fixpoint sextets (s : string) : list Z :=
  match s with
  | EmptyString => []
  | String c rest =>
      match unbase64 c with
      | Some v => v :: sextets rest
      | None => if Ascii.eqb c "=" then [] else sextets rest
      end
  end.

Definition octet1 (s0 s1 : Z) : byte :=
  Zbyte (Z.lor (Z.shiftl (Z.land s0 63) 2) (Z.shiftr (Z.land s1 48) 4)).
Definition octet2 (s1 s2 : Z) : byte :=
  Zbyte (Z.lor (Z.shiftl (Z.land s1 15) 4) (Z.shiftr (Z.land s2 60) 2)).
Definition octet3 (s2 s3 : Z) : byte :=
  Zbyte (Z.lor (Z.shiftl (Z.land s2 3) 6) (Z.land s3 63)).

(** Each sextet after the first of its group completes one byte; a trailing
    lone sextet yields nothing. *)
Fixpoint decode_groups (ss : list Z) : list byte :=
  match ss with
  | s0 :: s1 :: s2 :: s3 :: rest =>
      octet1 s0 s1 :: octet2 s1 s2 :: octet3 s2 s3 :: decode_groups rest
  | [s0; s1; s2] => [octet1 s0 s1; octet2 s1 s2]
  | [s0; s1] => [octet1 s0 s1]
  | _ => []
  end.

(** [Buffer.from(text, 'base64')]. *)
Definition from_base64 (s : string) : list byte := decode_groups (sextets s).

(** [Buffer.from(text)]: UTF-8.  A code unit below 128 is one byte, one from
    128 to 255 is the two-byte form. *)
Definition utf8_char (c : ascii) : list byte :=
  let n := codeZ c in
  if n <? 128 then [Zbyte n]
  else [Zbyte (Z.lor 192 (Z.shiftr n 6)); Zbyte (Z.lor 128 (Z.land n 63))].

Definition from_utf8 (s : string) : list byte :=
  flat_map utf8_char (list_ascii_of_string s).

(** Two code units have different encodings, and neither encoding starts
    the other: the first bytes differ, or both are two bytes long and the
    second bytes differ. *)
Definition utf8_apart (a b : byte) : bool :=
  let u := utf8_char (ascii_of_byte a) in
  let v := utf8_char (ascii_of_byte b) in
  Byte.eqb a b
  || negb (Byte.eqb (List.hd x00 u) (List.hd x00 v))
  || (Nat.eqb (List.length u) 2 && Nat.eqb (List.length v) 2
      && negb (Byte.eqb (List.nth 1 u x00) (List.nth 1 v x00))).

End Buffer.

(* ===================================================================== *)
(** ** byte-data's [unpack] and the number-to-text conversion *)
(* ===================================================================== *)

Module ByteData.

(** The unsigned reader of byte-data: [num += buffer[index + x] * 256 ** x]
    for [x] from 0 to the byte width, that is, the byte at the lowest index
    is the least significant one.  The type [{ bits: 32 }] sets neither [be]
    nor [signed], so nothing is swapped and nothing is sign-extended. *)
Fixpoint unpackUnsafe (buffer : list byte) (x : Z) (width : nat) {struct width} : Z :=
  match width with
  | O => 0
  | S w =>
      match buffer with
      | [] => 0
      | b :: rest => byteZ b * 256 ^ x + unpackUnsafe rest (x + 1) w
      end
  end.

(** [unpack(buffer, { bits: 32 })]: in safe mode a buffer shorter than the
    four bytes of the type raises "Bad buffer length". *)
Definition unpack32 (buffer : list byte) : option Z :=
  if (Z.of_nat (List.length buffer) <? 4) then None
  else Some (unpackUnsafe buffer 0 4).

End ByteData.

(** [n.toString()] of an integer. *)
Definition Number_toString (n : Z) : string :=
  NilZero.string_of_int (Z.to_int n).

(** [s.substring(n)]. *)
Fixpoint substring_from (n : nat) (s : string) : string :=
  match n, s with
  | O, _ => s
  | S _, EmptyString => EmptyString
  | S m, String _ rest => substring_from m rest
  end.

(** The two readings of four bytes as one unsigned 32-bit number that the
    specification's wording is compared with. *)
Definition uint32_le (b0 b1 b2 b3 : byte) : Z :=
  Z.lor (byteZ b0)
    (Z.lor (Z.shiftl (byteZ b1) 8)
       (Z.lor (Z.shiftl (byteZ b2) 16) (Z.shiftl (byteZ b3) 24))).

Definition uint32_be (b0 b1 b2 b3 : byte) : Z :=
  Z.lor (Z.shiftl (byteZ b0) 24)
    (Z.lor (Z.shiftl (byteZ b1) 16)
       (Z.lor (Z.shiftl (byteZ b2) 8) (byteZ b3))).

(* ===================================================================== *)
(** ** Device identity keys (second revision, POST /track) *)
(* ===================================================================== *)

Section DeviceKeys.

(** [macAddressToUint8Array] of [./utils] is not among the sources: the
    keys are stated for whatever bytes it yields. *)
Variable macAddressToUint8Array : string -> list byte.

(** [oldGeneratedDeviceId]; [None] when [unpack] throws. *)
Definition oldGeneratedDeviceId (mac : string) : option string :=
  let oldMac := macAddressToUint8Array (substring_from 3 mac) in
  match ByteData.unpack32 oldMac with
  | None => None
  | Some oldInt =>
      Some ("device_" +:+
            Buffer.toString_base64 (Buffer.from_utf8 (Number_toString oldInt)))
  end.

(** [generatedDeviceId]. *)
Definition generatedDeviceId (mac : string) : string :=
  "device_" +:+ Buffer.toString_base64 (Buffer.from_utf8 mac).

End DeviceKeys.


(** A helper of the expected kind, used on concrete MACs: the text is cut at
    the colons and every part is read as a hexadecimal byte. *)
Definition hex_digit (c : ascii) : Z :=
  let n := codeZ c in
  if (48 <=? n) && (n <=? 57) then n - 48
  else if (65 <=? n) && (n <=? 70) then n - 55
  else if (97 <=? n) && (n <=? 102) then n - 87
  else 0.

Fixpoint hex_bytes (acc : Z) (s : string) : list byte :=
  match s with
  | EmptyString => [Zbyte acc]
  | String c rest =>
      if Ascii.eqb c ":" then Zbyte acc :: hex_bytes 0 rest
      else hex_bytes (acc * 16 + hex_digit c) rest
  end.

Definition colon_hex_bytes (s : string) : list byte := hex_bytes 0 s.

(** [s.split("_")[1]]: the text between the first and the second underscore
    (the third revision's GET /device/:device_mac reads its parameter so). *)
Fixpoint until_underscore (s : string) : string :=
  match s with
  | EmptyString => EmptyString
  | String c rest =>
      if Ascii.eqb c "_" then EmptyString else String c (until_underscore rest)
  end.

Fixpoint split_underscore_1 (s : string) : option string :=
  match s with
  | EmptyString => None
  | String c rest =>
      if Ascii.eqb c "_" then Some (until_underscore rest)
      else split_underscore_1 rest
  end.

(** Decoding the text after the prefix of a key. *)
Definition key_payload (key : string) : list byte :=
  match split_underscore_1 key with
  | Some text => Buffer.from_base64 text
  | None => []
  end.


(* ===================================================================== *)
(** ** Request authentication *)
(* ===================================================================== *)

Inductive error :=
  | Rejected            (* the signature does not match *)
  | ZodError            (* schema validation failed *)
  | BadBufferLength     (* byte-data, safe mode *)
  | RangeError          (* toISOString of an invalid date *)
  | UniqueConstraint    (* Prisma P2002 *)
  | RecordNotFound      (* Prisma P2025 *)
  | PrismaValidation.   (* a [where] without a value *)

Inductive result (A : Type) :=
  | Ok (a : A)
  | Throw (e : error).
Arguments Ok {A} a.
Arguments Throw {A} e.

#[global] Instance error_eq_dec : EqDecision error.
Proof. solve_decision. Defined.

(** Modelled from the spec: the constant-time comparison of the computed
    digest with the supplied signature (it belongs to [verifyRequest], which
    is not among the sources).  The lengths are compared, then every pair of
    code units is folded into one accumulator, which is inspected once at
    the end. *)
Fixpoint accumulate_xor (a b : string) : Z :=
  match a, b with
  | String x a', String y b' =>
      Z.lor (Z.lxor (codeZ x) (codeZ y)) (accumulate_xor a' b')
  | _, _ => 0
  end.

Definition timingSafeEqual (a b : string) : bool :=
  (Z.of_nat (String.length a) =? Z.of_nat (String.length b))
  && (accumulate_xor a b =? 0).

Section Authenticator.

(** The keyed digest (its algorithm is not named by the specification) and
    the shared secret of the process configuration. *)
Variable digest : list byte -> list byte -> string.
Variable secret : list byte.

(** Modelled from the spec: [verifyRequest] of [./utils] is not among the
    sources.  It computes the keyed digest of the payload with the shared
    secret, compares it with the supplied signature in constant time,
    returns the payload bytes unchanged on a match and signals [Rejected]
    otherwise; it has no state of its own. *)
Definition verifyRequest (payload : list byte) (signature : string)
  : result (list byte) :=
  if timingSafeEqual (digest secret payload) signature
  then Ok payload
  else Throw Rejected.

End Authenticator.

(* ===================================================================== *)
(** ** The leaderboard table and the handler monad *)
(* ===================================================================== *)

Inductive scalar :=
  | Null
  | Num (n : Z)
  | Str (s : string)
  | Date (ms : Z).

#[global] Instance scalar_eq_dec : EqDecision scalar.
Proof. solve_decision. Defined.

Abbreviation row := (gmap string scalar).

Inductive event :=
  | EvVerify                 (* verifyRequest was called *)
  | EvRead (table : string)  (* a Prisma read *)
  | EvWrite (table : string) (* a Prisma write *)
  | EvConsoleError (e : error).

Record world := World {
  leaderboard : list row;
  feedback : list row;
  trace : list event
}.

Definition M (A : Type) : Type := world -> world * result A.

#[global] Instance M_ret : MRet M := fun A a w => (w, Ok a).

#[global] Instance M_bind : MBind M := fun A B f m w =>
  match m w with
  | (w', Ok a) => f a w'
  | (w', Throw e) => (w', Throw e)
  end.

Definition throw {A} (e : error) : M A := fun w => (w, Throw e).

Definition lift {A} (r : result A) : M A := fun w => (w, r).

(** [try { body } catch (error) { handler }]. *)
Definition try_catch {A} (body : M A) (handler : error -> M A) : M A :=
  fun w =>
    match body w with
    | (w', Ok a) => (w', Ok a)
    | (w', Throw e) => handler e w'
    end.

Definition log (e : event) : M unit := fun w =>
  (World (leaderboard w) (feedback w) (trace w ++ [e]), Ok tt).

Definition console_error (e : error) : M unit := log (EvConsoleError e).

(** *** Prisma on one table *)

Definition has (col : string) (v : scalar) (r : row) : bool :=
  bool_decide (r !! col = Some v).

(** [id] and [device_id] are the columns the handlers address single rows
    by ([update] takes a unique [where]); the table refuses a second row
    with the same value in one of them (a missing value counts as a value:
    the handlers always write both columns). *)
Definition unique_columns : list string := ["id"; "device_id"].

Definition same_key (a b : row) (col : string) : bool :=
  bool_decide (a !! col = b !! col).

Definition conflicts (r : row) (others : list row) : bool :=
  existsb (fun o => existsb (same_key o r) unique_columns) others.

Fixpoint split_first (p : row -> bool) (s : list row)
  : option (list row * row * list row) :=
  match s with
  | [] => None
  | r :: s' =>
      if p r then Some ([], r, s')
      else match split_first p s' with
           | Some (b, x, a) => Some (r :: b, x, a)
           | None => None
           end
  end.

Definition db_findFirst (col : string) (v : scalar) (s : list row) : option row :=
  List.find (has col v) s.

(** [update({ data, where: { col: v } })]: the columns of [data] overwrite
    those of the row, every other column stays. *)
Definition db_update (col : string) (v : scalar) (data : row) (s : list row)
  : result (list row) :=
  match split_first (has col v) s with
  | None => Throw RecordNotFound
  | Some (b, r, a) =>
      let r' := data ∪ r in
      if conflicts r' (b ++ a) then Throw UniqueConstraint
      else Ok (b ++ r' :: a)
  end.

Definition db_create (data : row) (s : list row) : result (list row) :=
  if conflicts data s then Throw UniqueConstraint else Ok (s ++ [data]).

Definition total_dabs_of (r : row) : Z :=
  match r !! "total_dabs" with
  | Some (Num n) => n
  | _ => 0
  end.

Fixpoint insert_desc (r : row) (l : list row) : list row :=
  match l with
  | [] => [r]
  | x :: l' =>
      if total_dabs_of x <=? total_dabs_of r then r :: l
      else x :: insert_desc r l'
  end.

(** [findMany({ orderBy: { total_dabs: 'desc' } })]; rows with equal totals
    keep their table order. *)
Definition orderBy_total_dabs_desc (s : list row) : list row :=
  foldr insert_desc [] s.

(** *** The same calls as effects on the leaderboard table *)

Definition findFirst (col : string) (v : scalar) : M (option row) := fun w =>
  (World (leaderboard w) (feedback w) (trace w ++ [EvRead "leaderboard"]),
   Ok (db_findFirst col v (leaderboard w))).

Definition findMany_desc : M (list row) := fun w =>
  (World (leaderboard w) (feedback w) (trace w ++ [EvRead "leaderboard"]),
   Ok (orderBy_total_dabs_desc (leaderboard w))).

Definition update (col : string) (v : scalar) (data : row) : M unit := fun w =>
  let w' := World (leaderboard w) (feedback w) (trace w ++ [EvWrite "leaderboard"]) in
  match db_update col v data (leaderboard w) with
  | Ok s => (World s (feedback w) (trace w'), Ok tt)
  | Throw e => (w', Throw e)
  end.

Definition create (data : row) : M unit := fun w =>
  let w' := World (leaderboard w) (feedback w) (trace w ++ [EvWrite "leaderboard"]) in
  match db_create data (leaderboard w) with
  | Ok s => (World s (feedback w) (trace w'), Ok tt)
  | Throw e => (w', Throw e)
  end.

Definition create_feedback (data : row) : M unit := fun w =>
  (World (leaderboard w) (feedback w ++ [data]) (trace w ++ [EvWrite "feedback"]),
   Ok tt).

(* ===================================================================== *)
(** ** Requests and replies *)
(* ===================================================================== *)

Record request := Request {
  x_signature : option string;      (* req.headers["x-signature"] *)
  rawBody : string;                 (* req.rawBody *)
  cf_connecting_ip : option string; (* req.headers["cf-connecting-ip"] *)
  remoteAddress : option string;    (* req.socket.remoteAddress *)
  user : option string              (* req.user?.id, set by the middleware *)
}.

(** What the environment supplies during one call: the identifier
    [pika.gen] returns and the clock read by [new Date()]. *)
Record env := Env {
  pika_gen : string;
  now : Z
}.

Inductive body :=
  | Empty
  | Code (code : string)                       (* { code } *)
  | TrackData (device : option row) (position : Z)
      (* { success: true, data: { device, position } } *)
  | Failure (code : string).                   (* { success: false, error: { code } } *)

(** A handler either sends a reply or returns without sending one. *)
Inductive reply :=
  | Sent (status : Z) (b : body)
  | Unsent.

(** The handler answered 200. *)
Definition replied_200 (r : result reply) : Prop :=
  exists sent, r = Ok (Sent 200 sent).

(** The reply is a client error: a status from 400 to 499. *)
Definition client_error (r : result reply) : bool :=
  match r with
  | Ok (Sent status _) => (400 <=? status) && (status <? 500)
  | _ => false
  end.


(** The world after one more effect was recorded. *)
Definition logged (w : world) (es : list event) : world :=
  World (leaderboard w) (feedback w) (trace w ++ es).

(** JavaScript truthiness of an optional string. *)
Definition truthy (o : option string) : bool :=
  match o with
  | Some (String _ _) => true
  | _ => false
  end.

Definition or_else (o : option string) (d : string) : string :=
  match o with
  | Some (String c s) => String c s
  | _ => d
  end.

(** [(req.headers["cf-connecting-ip"] || req.socket.remoteAddress || "0.0.0.0")]. *)
Definition client_ip (req : request) : string :=
  or_else (cf_connecting_ip req) (or_else (remoteAddress req) "0.0.0.0").

(** [new Date(seconds * 1000)] and [isNaN(date.getTime())]: a time value is
    kept when it lies within 8.64e15 milliseconds of the epoch. *)
Definition Date_of_seconds (seconds : Z) : option Z :=
  let ms := seconds * 1000 in
  if (Z.abs ms <=? 8640000000000000) then Some ms else None.

Definition opt_column (col : string) (o : option string) : row :=
  match o with
  | Some v => {[ col := Str v ]}
  | None => ∅
  end.

(** The columns an update of a known device writes. *)
Definition written_columns : list string :=
  ["device_name"; "device_dob"; "device_model"; "owner_name"; "total_dabs";
   "last_active"; "last_ip"; "user_id"].

(** [array.findIndex(p)], counting from [i]. *)
Fixpoint findIndex (p : row -> bool) (l : list row) (i : Z) : Z :=
  match l with
  | [] => -1
  | x :: l' => if p x then i else findIndex p l' (i + 1)
  end.

(* ===================================================================== *)
(** ** What the three revisions share *)
(* ===================================================================== *)

Section Shared.

Variable digest : list byte -> list byte -> string.
Variable secret : list byte.

(** [verifyRequest(Buffer.from(req.rawBody, "base64"),
    req.headers["x-signature"])]. *)
Definition verify (req : request) : M (list byte) :=
  log EvVerify;;
  lift (verifyRequest digest secret (Buffer.from_base64 (rawBody req))
          (default EmptyString (x_signature req))).

(** [schema.parseAsync(body)]; a schema answers [None] where zod throws. *)
Definition parse {A} (schema : list byte -> option A) (b : list byte) : M A :=
  match schema b with
  | Some v => mret v
  | None => throw ZodError
  end.

End Shared.

(* ===================================================================== *)
(** ** Second revision: POST /track and POST /feedback *)
(* ===================================================================== *)

Module Rev2.

(** The validated body of POST /track ([trackingValidation] is a schema of
    [./utils]; the handler reads these fields of its result). *)
Record tracking := Tracking {
  name : scalar;          (* validate.name *)
  device_mac : string;    (* validate.device.mac *)
  device_dob : Z;         (* validate.device.dob, in seconds *)
  device_name : scalar;   (* validate.device.name *)
  device_model : scalar;  (* validate.device.model *)
  totalDabs : scalar      (* validate.device.totalDabs *)
}.

Section Routes.

Variable digest : list byte -> list byte -> string.
Variable secret : list byte.
(** The schemas and the MAC helper of [./utils], not among the sources;
    [None] stands for a thrown ZodError. *)
Variable trackingValidation : list byte -> option tracking.
Variable feedbackValidation : list byte -> option scalar.
Variable macAddressToUint8Array : string -> list byte.

(** The [data] of the update (lines 137-145). *)
Definition update_data (validate : tracking) (date : Z) (ip : string)
    (ev : env) (req : request) : row :=
  opt_column "user_id" (user req) ∪
  <["device_name" := device_name validate]>
  (<["device_dob" := Date date]>
  (<["device_model" := device_model validate]>
  (<["owner_name" := name validate]>
  (<["total_dabs" := totalDabs validate]>
  (<["last_active" := Date (now ev)]>
  (<["last_ip" := Str ip]> ∅)))))).

(** The [data] of the create (lines 153-163). *)
Definition create_data (validate : tracking) (date : Z) (ip : string)
    (ev : env) (req : request) (generatedDeviceId : string) : row :=
  opt_column "user_id" (user req) ∪
  <["id" := Str (pika_gen ev)]>
  (<["device_id" := Str generatedDeviceId]>
  (<["device_name" := device_name validate]>
  (<["device_dob" := Date date]>
  (<["device_model" := device_model validate]>
  (<["owner_name" := name validate]>
  (<["total_dabs" := totalDabs validate]>
  (<["last_ip" := Str ip]> ∅))))))).

(** Lines 123-130: the record found under the old key is given the new
    one, addressed by its [id]. *)
Definition migrate (oldGeneratedDeviceId generatedDeviceId : string) : M unit :=
  oldDevice ← findFirst "device_id" (Str oldGeneratedDeviceId);
  match oldDevice with
  | Some od =>
      match od !! "id" with
      | Some i => update "id" i {[ "device_id" := Str generatedDeviceId ]}
      | None => throw PrismaValidation
      end
  | None => mret tt
  end.

(** Lines 132-165. *)
Definition upsert (generatedDeviceId : string) (upd crt : row) : M unit :=
  existing ← findFirst "device_id" (Str generatedDeviceId);
  match existing with
  | Some _ => update "device_id" (Str generatedDeviceId) upd
  | None => create crt
  end.

Definition store_phase (old new : string) (upd crt : row) : M unit :=
  migrate old new;; upsert new upd crt.

(** Lines 167-178. *)
Definition respond (generatedDeviceId : string) : M reply :=
  leaderboard ← findMany_desc;
  let p := has "device_id" (Str generatedDeviceId) in
  mret (Sent 200 (TrackData (List.find p leaderboard)
                    (findIndex p leaderboard 0 + 1))).

(** [server.post("/track", ...)]. *)
Definition track (req : request) (ev : env) : M reply :=
  if negb (truthy (x_signature req))
  then mret (Sent 400 (Code "invalid_tracking_data"))
  else
    body ← verify digest secret req;
    try_catch
      (validate ← parse trackingValidation body;
       let ip := client_ip req in
       match oldGeneratedDeviceId macAddressToUint8Array (device_mac validate) with
       | None => throw BadBufferLength
       | Some old =>
           match Date_of_seconds (device_dob validate) with
           | None => mret (Sent 400 (Code "invalid_tracking_data"))
           | Some date =>
               let new := generatedDeviceId (device_mac validate) in
               store_phase old new
                 (update_data validate date ip ev req)
                 (create_data validate date ip ev req new);;
               respond new
           end
       end)
      (fun error => console_error error;; mret Unsent).

(** [server.post("/feedback", ...)]. *)
Definition feedback_route (req : request) (ev : env) : M reply :=
  try_catch
    (if negb (truthy (x_signature req))
     then mret (Sent 400 (Code "invalid_feedback_request"))
     else
       body ← verify digest secret req;
       message ← parse feedbackValidation body;
       create_feedback
         (<["id" := Str (pika_gen ev)]>
          (<["message" := message]>
          (<["ip" := Str (client_ip req)]> ∅)));;
       mret (Sent 204 Empty))
    (fun error =>
       match error with
       | ZodError => mret (Sent 400 (Failure "validation_error"))
       | _ => console_error error;; mret (Sent 500 (Failure "internal_error"))
       end).

(** The request carries the signature of its body, and the body
    validates to [t]. *)
Definition accepted (req : request) (t : tracking) : Prop :=
  truthy (x_signature req) = true
  /\ x_signature req = Some (digest secret (Buffer.from_base64 (rawBody req)))
  /\ trackingValidation (Buffer.from_base64 (rawBody req)) = Some t.

(** A submission of the device with this MAC that passes every check
    before the table is touched. *)
Definition valid_submission (mac : string) (req : request) : Prop :=
  exists t date,
    accepted req t /\ device_mac t = mac
    /\ Date_of_seconds (device_dob t) = Some date.

(** Successive submissions, each with its own request and environment:
    the table after the last one and the outcome of each. *)
Fixpoint submissions (l : list (request * env)) (w : world)
  : world * list (result reply) :=
  match l with
  | [] => (w, [])
  | (req, ev) :: l' =>
      let '(w1, r) := track req ev w in
      let '(w2, rs) := submissions l' w1 in
      (w2, r :: rs)
  end.

End Routes.

End Rev2.

(* ===================================================================== *)
(** ** First revision: POST /track *)
(* ===================================================================== *)

(** *** [isNaN(Number(text))]

    [Number] applied to a string is NaN exactly when the text, white space
    at both ends removed, is neither empty nor a numeric literal: a signed
    decimal literal (digits with an optional fraction and exponent, or
    [Infinity]) or an unsigned binary, octal or hexadecimal integer. *)

Definition is_white_space (c : ascii) : bool :=
  let n := codeZ c in
  ((9 <=? n) && (n <=? 13)) || (n =? 32) || (n =? 160).

Definition in_range (lo hi : Z) (c : ascii) : bool :=
  (lo <=? codeZ c) && (codeZ c <=? hi).

Definition is_digit : ascii -> bool := in_range 48 57.

Definition is_hex_digit (c : ascii) : bool :=
  is_digit c || in_range 65 70 c || in_range 97 102 c.

Definition is_char (a b : ascii) : bool := Ascii.eqb a b.

Fixpoint skip (p : ascii -> bool) (l : list ascii) : list ascii :=
  match l with
  | c :: r => if p c then skip p r else l
  | [] => []
  end.

Definition trim (l : list ascii) : list ascii :=
  rev (skip is_white_space (rev (skip is_white_space l))).

Definition some_of (p : ascii -> bool) (l : list ascii) : bool :=
  match l with
  | [] => false
  | _ => forallb p l
  end.

Definition exponent_part (l : list ascii) : bool :=
  match l with
  | [] => true
  | c :: r =>
      (is_char c "e" || is_char c "E")
      && match r with
         | s :: r' =>
             if is_char s "+" || is_char s "-" then some_of is_digit r'
             else some_of is_digit r
         | [] => false
         end
  end.

Definition unsigned_decimal (l : list ascii) : bool :=
  if bool_decide (l = list_ascii_of_string "Infinity") then true
  else
    let after_int := skip is_digit l in
    let has_int := negb (Nat.eqb (List.length after_int) (List.length l)) in
    match after_int with
    | c :: r =>
        if is_char c "." then
          let after_frac := skip is_digit r in
          let has_frac := negb (Nat.eqb (List.length after_frac) (List.length r)) in
          (has_int || has_frac) && exponent_part after_frac
        else has_int && exponent_part after_int
    | [] => has_int
    end.

Definition non_decimal (l : list ascii) : bool :=
  match l with
  | z :: p :: r =>
      is_char z "0"
      && (((is_char p "x" || is_char p "X") && some_of is_hex_digit r)
          || ((is_char p "o" || is_char p "O") && some_of (in_range 48 55) r)
          || ((is_char p "b" || is_char p "B") && some_of (in_range 48 49) r))
  | _ => false
  end.

Definition numeric_literal (l : list ascii) : bool :=
  non_decimal l
  || match l with
     | s :: r =>
         if is_char s "+" || is_char s "-" then unsigned_decimal r
         else unsigned_decimal l
     | [] => false
     end.

Definition Number_isNaN (text : string) : bool :=
  match trim (list_ascii_of_string text) with
  | [] => false
  | l => negb (numeric_literal l)
  end.

Module Rev1.

Record tracking := Tracking {
  name : scalar;          (* validate.name *)
  device_id : string;     (* validate.device.id, base64 *)
  device_uid : string;    (* validate.device.uid, base64 *)
  device_name : scalar;   (* validate.device.name *)
  device_model : scalar;  (* validate.device.model *)
  totalDabs : scalar      (* validate.device.totalDabs *)
}.

Section Routes.

Variable digest : list byte -> list byte -> string.
Variable secret : list byte.
Variable trackingValidation : list byte -> option tracking.

(** Runtime conversions that leave the modelled fragment (arbitrary
    UTF-8, floating point, calendar dates):
    [buf.toString('utf8')];
    the time value of [new Date(Number(text) * 1000)], [None] for an
    invalid date;
    [date.toISOString()] of a valid date. *)
Variable toString_utf8 : list byte -> string.
Variable Date_of_Number : string -> option Z.
Variable toISOString : Z -> string.

Definition update_data (validate : tracking) (deviceBirthday : Z)
    (ip : string) (ev : env) : row :=
  <["device_name" := device_name validate]>
  (<["device_dob" := Date deviceBirthday]>
  (<["device_model" := device_model validate]>
  (<["owner_name" := name validate]>
  (<["total_dabs" := totalDabs validate]>
  (<["last_active" := Date (now ev)]>
  (<["last_ip" := Str ip]> ∅)))))).

Definition create_data (validate : tracking) (deviceBirthday : Z)
    (ip : string) (ev : env) (generatedDeviceId : string) : row :=
  <["id" := Str (pika_gen ev)]>
  (<["device_id" := Str generatedDeviceId]>
  (<["device_name" := device_name validate]>
  (<["device_dob" := Date deviceBirthday]>
  (<["device_model" := device_model validate]>
  (<["owner_name" := name validate]>
  (<["total_dabs" := totalDabs validate]>
  (<["last_ip" := Str ip]> ∅))))))).

Definition accepted (req : request) (t : tracking) : Prop :=
  truthy (x_signature req) = true
  /\ x_signature req = Some (digest secret (Buffer.from_base64 (rawBody req)))
  /\ trackingValidation (Buffer.from_base64 (rawBody req)) = Some t.

(** [server.post('/track', ...)]: nothing is caught here. *)
Definition track (req : request) (ev : env) : M reply :=
  if negb (truthy (x_signature req))
  then mret (Sent 400 (Code "invalid_tracking_data"))
  else
    body ← verify digest secret req;
    validate ← parse trackingValidation body;
    let ip := client_ip req in
    let deviceId := toString_utf8 (Buffer.from_base64 (device_id validate)) in
    let deviceUid := toString_utf8 (Buffer.from_base64 (device_uid validate)) in
    if Number_isNaN deviceId || Number_isNaN deviceUid
    then mret (Sent 400 (Code "invalid_tracking_data"))
    else
      match Date_of_Number deviceId with
      | None => throw RangeError
      | Some deviceBirthday =>
          let generatedDeviceId :=
            "device_" +:+
            Buffer.toString_base64
              (Buffer.from_utf8 (deviceUid +:+ "-" +:+ toISOString deviceBirthday)) in
          existing ← findFirst "device_id" (Str generatedDeviceId);
          match existing with
          | Some _ =>
              update "device_id" (Str generatedDeviceId)
                (update_data validate deviceBirthday ip ev)
          | None =>
              create (create_data validate deviceBirthday ip ev generatedDeviceId)
          end;;
          mret (Sent 204 Empty)
      end.

End Routes.

End Rev1.

(* ===================================================================== *)
(** ** Concurrent migrations (second revision, lines 123-130) *)
(* ===================================================================== *)

Module Concurrent.

(** One request inside the migration: before its read, between the read
    that found the old record and the write, or past it.  Requests are
    interleaved at their [await]s; each Prisma call is one step. *)
Inductive attempt :=
  | Start
  | Found (oldDevice : row)
  | Finished (renamed : bool)
  | Crashed (e : error).

Definition attempt_step (old new : string) (s : list row) (a : attempt)
  : option (list row * attempt) :=
  match a with
  | Start =>
      match db_findFirst "device_id" (Str old) s with
      | Some od => Some (s, Found od)
      | None => Some (s, Finished false)
      end
  | Found od =>
      match od !! "id" with
      | None => Some (s, Crashed PrismaValidation)
      | Some i =>
          match db_update "id" i {[ "device_id" := Str new ]} s with
          | Ok s' => Some (s', Finished true)
          | Throw e => Some (s, Crashed e)
          end
      end
  | Finished _ | Crashed _ => None
  end.

Definition config : Type := list row * list attempt.

Inductive step (old new : string) : config -> config -> Prop :=
  | step_attempt s ats i a s' a' :
      ats !! i = Some a ->
      attempt_step old new s a = Some (s', a') ->
      step old new (s, ats) (s', <[i := a']> ats).

(** Running the requests in the order a schedule names them. *)
Fixpoint run_schedule (old new : string) (sched : list nat) (c : config) : config :=
  match sched with
  | [] => c
  | i :: sched' =>
      match snd c !! i with
      | Some a =>
          match attempt_step old new (fst c) a with
          | Some (s', a') => run_schedule old new sched' (s', <[i := a']> (snd c))
          | None => run_schedule old new sched' c
          end
      | None => run_schedule old new sched' c
      end
  end.

Definition is_finished (a : attempt) : bool :=
  match a with
  | Finished _ | Crashed _ => true
  | _ => false
  end.

Definition renames (ats : list attempt) : nat :=
  List.length (List.filter (fun a => match a with Finished true => true | _ => false end) ats).

Definition crashes (ats : list attempt) : nat :=
  List.length (List.filter (fun a => match a with Crashed _ => true | _ => false end) ats).

(** The table once the old record carries the new key. *)
Definition migrated (old new : string) (s : list row) : list row :=
  match split_first (has "device_id" (Str old)) s with
  | Some (b, r, a) => b ++ ({[ "device_id" := Str new ]} ∪ r) :: a
  | None => s
  end.

(** What holds of every configuration the requests can reach, when the
    table was [b ++ od :: a] with [od] the legacy record: either nothing was
    written yet and every request is before its read or holds [od], or the
    record was renamed, at least one request has renamed it, and the others
    are before their read, hold [od] or are done. *)
Definition waiting (od : row) (x : attempt) : Prop := x = Start \/ x = Found od.

Definition settled (od : row) (x : attempt) : Prop :=
  x = Start \/ x = Found od \/ exists r, x = Finished r.

Definition invariant (new : string) (b a : list row) (od : row) (c : config) : Prop :=
  (c.1 = b ++ od :: a /\ Forall (waiting od) c.2)
  \/ (c.1 = b ++ <["device_id" := Str new]> od :: a
      /\ Forall (settled od) c.2
      /\ Exists (fun x => x = Finished true) c.2).

End Concurrent.

(** The rows of a table stored under a key. *)
Definition count_key (k : string) (s : list row) : nat :=
  List.length (List.filter (has "device_id" (Str k)) s).

Definition column (col : string) (s : list row) : list (option scalar) :=
  (fun r => r !! col) <$> s.

(** A key is in use in the table. *)
Definition present (k : string) (s : list row) : Prop :=
  Some (Str k) ∈ column "device_id" s.

#[global] Instance present_dec k s : Decision (present k s).
Proof. unfold present. apply _. Defined.

(** The table honours its schema as far as the handlers rely on it: [id] is
    the primary key, present in every row and never repeated, and no
    [device_id] is repeated. *)
Definition table_ok (s : list row) : Prop :=
  NoDup (column "id" s) /\ NoDup (column "device_id" s)
  /\ Forall (fun r => is_Some (r !! "id")) s.

(** The identity of every row, in table order. *)
Definition identities (s : list row) : list (option scalar * option scalar) :=
  (fun r => (r !! "id", r !! "device_id")) <$> s.

(* ===================================================================== *)
(** ** The public read endpoints *)
(* ===================================================================== *)

(** What Prisma returns for a row with an included relation: the columns
    and, under the relation's name, the related record or null. *)
Inductive field :=
  | Scalar (s : scalar)
  | Relation (o : option row).

Abbreviation object := (gmap string field).

Definition of_row (r : row) : object := Scalar <$> r.

(** [select: { ... }]: only the named columns of the related record. *)
Definition select (cols : list string) (r : row) : row :=
  filter (fun kv => kv.1 ∈ cols) r.

Definition user_columns : list string :=
  ["name"; "image"; "flags"; "platform"; "platform_id"].

(** Objects are handed around by reference: the heap holds them, a value of
    object type is an index into it. *)
Definition H (A : Type) : Type := list object -> list object * A.

#[global] Instance H_ret : MRet H := fun A a h => (h, a).

#[global] Instance H_bind : MBind H := fun A B f m h =>
  let '(h', a) := m h in f a h'.

Definition alloc (o : object) : H nat := fun h => (h ++ [o], List.length h).

Definition deref (l : nat) : H (option object) := fun h => (h, h !! l).

Fixpoint alloc_all (os : list object) : H (list nat) :=
  match os with
  | [] => mret []
  | o :: os' => l ← alloc o; ls ← alloc_all os'; mret (l :: ls)
  end.

Fixpoint deref_all (ls : list nat) : H (list object) :=
  match ls with
  | [] => mret []
  | l :: ls' =>
      o ← deref l; os ← deref_all ls';
      mret (match o with Some x => x :: os | None => os end)
  end.

(** [for (const x of xs) f(x)]. *)
Fixpoint for_of {A} (xs : list A) (f : A -> H unit) : H unit :=
  match xs with
  | [] => mret tt
  | x :: xs' => f x;; for_of xs' f
  end.

(** An object without the listed properties. *)
Definition strip (keys : list string) (o : object) : object :=
  foldr delete o keys.

(** Modelled from the spec: [sanitize] of [./utils] is not among the sources
    and the specification does not describe it.  Its call sites fix what it
    must do: the leaderboard loops discard its result and send the objects
    they passed to it, the device routes send its result; so it removes the
    listed properties from the object it is given, in place, and returns
    that same object. *)
Definition sanitize (o : nat) (keys : list string) : H nat := fun h =>
  (alter (strip keys) o h, o).

Inductive read_reply :=
  | Leaderboards (entries : list object)
      (* 200 { success: true, data: { leaderboards } } *)
  | Device (device : option object) (position : option scalar)
      (* 200 { success: true, data: { device, position } } *)
  | ReadFailure (status : Z) (code : string).

(** The first revision's GET /leaderboard. *)
Definition leaderboard_v1 (table : list row) : H read_reply :=
  leaderboards ← alloc_all (of_row <$> take 10 (orderBy_total_dabs_desc table));
  for_of leaderboards (fun lb => sanitize lb ["last_ip"];; mret tt);;
  sent ← deref_all leaderboards;
  mret (Leaderboards sent).

Section Reads.

(** The relations of the schema, which is not among the sources: the user
    a leaderboard or device row belongs to, the device of a row of the
    [device_leaderboard] view, the position Prisma finds for a device. *)
Variable related_user : row -> option row.
Variable related_device : row -> row.
Variable position_of : row -> option scalar.
Variable toString_utf8 : list byte -> string.

(** [include: { users: { select: { ... } } }]. *)
Definition with_users (r : row) : object :=
  <["users" := Relation (select user_columns <$> related_user r)]> (of_row r).

(** The second revision's GET /leaderboard. *)
Definition leaderboard_v2 (table : list row) : H read_reply :=
  leaderboards ←
    alloc_all (with_users <$> take 10 (orderBy_total_dabs_desc table));
  for_of leaderboards (fun lb => sanitize lb ["last_ip"];; mret tt);;
  sent ← deref_all leaderboards;
  mret (Leaderboards sent).

(** The second revision's GET /device/:device_id. *)
Definition device_v2 (table : list row) (device_id : string) : H read_reply :=
  match db_findFirst "device_id" (Str device_id) table with
  | None => mret (ReadFailure 404 "device_not_found")
  | Some r =>
      device ← alloc (with_users r);
      let position := position_of r in
      d ← sanitize device ["last_ip"];
      o ← deref d;
      mret (Device o position)
  end.

Definition hidden_columns : list string :=
  ["mac"; "git_hash"; "profiles"; "last_ip"; "serial_number"].

(** The third revision's GET /leaderboard: [view] is what the
    [device_leaderboard] query returns, already filtered, ordered and cut;
    every entry refers to its device object. *)
Definition leaderboard_v3 (view : list row) : H (list (row * object)) :=
  devices ← alloc_all ((fun lb => with_users (related_device lb)) <$> view);
  for_of devices (fun d => sanitize d hidden_columns;; mret tt);;
  sent ← deref_all devices;
  mret (zip view sent).

(** The third revision's GET /device/:device_mac. *)
Definition device_v3 (devices : list row) (device_mac : string) : H read_reply :=
  match split_underscore_1 device_mac with
  | None => mret (ReadFailure 500 "internal_error")
  | Some text =>
      let mac := toString_utf8 (Buffer.from_base64 text) in
      match db_findFirst "mac" (Str mac) devices with
      | None => mret (ReadFailure 404 "device_not_found")
      | Some r =>
          device ← alloc (with_users r);
          let position := position_of r in
          d ← sanitize device hidden_columns;
          o ← deref d;
          mret (Device o position)
      end
  end.

End Reads.

(** What a handler sends, started on an empty heap. *)
Definition sends {A} (m : H A) : A := snd (m []).

(* ===================================================================== *)
(** ** Requests served one after the other *)
(* ===================================================================== *)

(** Handlers run in sequence, each on the world the previous one left: the
    world after the last one and the outcome of each. *)
Fixpoint in_sequence (hs : list (M reply)) (w : world)
  : world * list (result reply) :=
  match hs with
  | [] => (w, [])
  | h :: hs' =>
      let '(w1, r) := h w in
      let '(w2, rs) := in_sequence hs' w1 in
      (w2, r :: rs)
  end.

(** Rows in the order of [orderBy: { total_dabs: 'desc' }]: no row has more
    than a row before it. *)
Definition ranked (l : list row) : Prop :=
  StronglySorted (fun a b => total_dabs_of b <= total_dabs_of a) l.

(* ===================================================================== *)
(** ** The authentication hook (third revision, [AuthMiddleware]) *)
(* ===================================================================== *)

Module Middleware.

(** [AuthOptions]: an option that is left out is falsy. *)
Record options := Options {
  admin : bool;
  required : bool
}.

(** What one run of the hook leaves behind: the reply it sent, if it sent
    one (the status and the code of [{ error: true, code }]), and the two
    properties it sets on the request. *)
Record outcome := Outcome {
  sent : option (Z * string);
  req_user : option row;             (* req.user *)
  req_linkedConnection : option row  (* req.linkedConnection *)
}.

(** [`sessions/${authorization}`]: a header that is absent is written
    [undefined]. *)
Definition session_key (authorization : option string) : string :=
  "sessions/" +:+ default "undefined" authorization.

(** [prisma.<table>.findFirst({ where: { id } })].  Prisma leaves out of the
    filter a condition whose value is [undefined]: the first row of the
    table is returned then. *)
Definition findFirst_id (id : option string) (table : list row) : option row :=
  match id with
  | Some v => db_findFirst "id" (Str v) table
  | None => head table
  end.

(** The operands of [&] are brought into the signed 32-bit range. *)
Definition ToInt32 (z : Z) : Z := (z + 2 ^ 31) mod 2 ^ 32 - 2 ^ 31.

(** [(user?.flags || 0)], [flags] being an integer column. *)
Definition flags_of (user : option row) : Z :=
  match user with
  | Some u =>
      match u !! "flags" with
      | Some (Num n) => n
      | _ => 0
      end
  | None => 0
  end.

Section Hook.

(** [keydb.hgetall] of [./connectivity/redis] and [UserFlags.admin] of
    [./constants] are not among the sources.  [hgetall] answers [None] where
    the client answers a falsy value, and otherwise the fields of the
    hash. *)
Variable hgetall : string -> option (gmap string string).
Variable UserFlags_admin : Z.

(** [!((user?.flags || 0) & UserFlags.admin)]. *)
Definition lacks_admin (user : option row) : bool :=
  Z.land (ToInt32 (flags_of user)) (ToInt32 UserFlags_admin) =? 0.

(** The [preParsing] hook (lines 824-864 of the third revision). *)
Definition preParsing (opts : options) (authorization : option string)
    (users connections : list row) : outcome :=
  if negb (truthy authorization) && required opts
  then Outcome (Some (403, "missing_authorization")) None None
  else
    match hgetall (session_key authorization) with
    | None =>
        if required opts
        then Outcome (Some (403, "invalid_authentication")) None None
        else Outcome None None None
    | Some session =>
        let user := findFirst_id (session !! "user_id") users in
        if negb (bool_decide (is_Some user)) && required opts
        then Outcome (Some (403, "invalid_authentication")) None None
        else
          let connnection :=
            findFirst_id (session !! "connection_id") connections in
          if negb (bool_decide (is_Some user)) && required opts
          then Outcome (Some (403, "invalid_authentication")) user None
          else
            if admin opts && lacks_admin user
            then Outcome (Some (401, "invalid_permissions")) user connnection
            else Outcome None user connnection
    end.

End Hook.

End Middleware.

(* ===================================================================== *)
(** ** Handlers over other stores *)
(* ===================================================================== *)

(** The later handlers work on tables the leaderboard world does not hold.
    A handler over a store [S] is a computation in the same
    state-and-exception monad, with [S] for the state. *)
Module Handler.

Definition St (S A : Type) : Type := S -> S * result A.

#[export] Instance St_ret {S} : MRet (St S) := fun A a s => (s, Ok a).

#[export] Instance St_bind {S} : MBind (St S) := fun A B f m s =>
  match m s with
  | (s', Ok a) => f a s'
  | (s', Throw e) => (s', Throw e)
  end.

Definition raise {S A} (e : error) : St S A := fun s => (s, Throw e).

Definition of_result {S A} (r : result A) : St S A := fun s => (s, r).

(** [try { body } catch (error) { handler }]. *)
Definition catching {S A} (body : St S A) (handler : error -> St S A) : St S A :=
  fun s =>
    match body s with
    | (s', Ok a) => (s', Ok a)
    | (s', Throw e) => handler e s'
    end.

(** [schema.parseAsync(body)]. *)
Definition parsed {S A B} (schema : B -> option A) (b : B) : St S A :=
  match schema b with
  | Some v => mret v
  | None => raise ZodError
  end.

End Handler.

(** *** Prisma on a table with given unique columns *)

Definition conflicts_on (cols : list string) (r : row) (others : list row) : bool :=
  existsb (fun o => existsb (same_key o r) cols) others.

(** [findFirst({ where: { col: v } })]; a condition whose value is
    [undefined] is left out of the filter, and the first row is returned. *)
Definition table_findFirst (col : string) (v : option scalar) (s : list row)
  : option row :=
  match v with
  | Some v => db_findFirst col v s
  | None => head s
  end.

(** [update({ data, where: { col: v } })]; the [where] of an update must
    name a value. *)
Definition table_update (cols : list string) (col : string) (v : option scalar)
    (data : row) (s : list row) : result (list row) :=
  match v with
  | None => Throw PrismaValidation
  | Some v =>
      match split_first (has col v) s with
      | None => Throw RecordNotFound
      | Some (b, r, a) =>
          let r' := data ∪ r in
          if conflicts_on cols r' (b ++ a) then Throw UniqueConstraint
          else Ok (b ++ r' :: a)
      end
  end.

Definition table_create (cols : list string) (data : row) (s : list row)
  : result (list row) :=
  if conflicts_on cols data s then Throw UniqueConstraint else Ok (s ++ [data]).

(** A row of an object literal: a property whose value is [undefined] is
    not set. *)
Definition set_column (col : string) (v : option scalar) (r : row) : row :=
  match v with
  | Some x => <[col := x]> r
  | None => r
  end.

(** [sanitize(row, keys)] as the handlers use its result. *)
Definition sanitized (keys : list string) (r : row) : option object :=
  sends (o ← alloc (of_row r); d ← sanitize o keys; deref d).

(* ===================================================================== *)
(** ** Third revision: POST /track and POST /diag *)
(* ===================================================================== *)

Module Rev3.
Import Handler.

(** The tables the two handlers touch, and what [console.error] was given. *)
Record store := Store {
  devices : list row;
  diagnostics : list row;
  console : list error
}.

(** [mac] is the column the handlers address a device by; [id] is the
    primary key of both tables. *)
Definition device_keys : list string := ["id"; "mac"].
Definition diagnostic_keys : list string := ["id"].

Definition findFirst_device (col : string) (v : option scalar)
  : St store (option row) := fun s =>
  (s, Ok (table_findFirst col v (devices s))).

Definition update_device (col : string) (v : option scalar) (data : row)
  : St store unit := fun s =>
  match table_update device_keys col v data (devices s) with
  | Ok d => (Store d (diagnostics s) (console s), Ok tt)
  | Throw e => (s, Throw e)
  end.

Definition create_device (data : row) : St store unit := fun s =>
  match table_create device_keys data (devices s) with
  | Ok d => (Store d (diagnostics s) (console s), Ok tt)
  | Throw e => (s, Throw e)
  end.

Definition create_diagnostic (data : row) : St store unit := fun s =>
  match table_create diagnostic_keys data (diagnostics s) with
  | Ok d => (Store (devices s) d (console s), Ok tt)
  | Throw e => (s, Throw e)
  end.

Definition console_error (e : error) : St store unit := fun s =>
  (Store (devices s) (diagnostics s) (console s ++ [e]), Ok tt).

(** What a handler sends. *)
Inductive answer :=
  | Status (status : Z)                    (* res.status(status).send() *)
  | Coded (status : Z) (code : string)     (* res.status(status).send({ code }) *)
  | Tracked (device : option object) (position : option scalar)
      (* 200 { success: true, data: { device, position } } *)
  | Silent.                                (* the handler returns without a reply *)

(** The validated body of POST /track, as far as the handler reads it. *)
Record tracking := Tracking {
  device_mac : string;      (* validate.device.mac *)
  device_dob : Z;           (* validate.device.dob, in seconds *)
  device_name : scalar;     (* validate.device.name *)
  totalDabs : scalar;       (* validate.device.totalDabs *)
  dabsPerDay : scalar;      (* validate.device.dabsPerDay *)
  device_model : scalar;    (* validate.device.model *)
  firmware : scalar;        (* validate.device.firmware *)
  hardware : scalar;        (* validate.device.hardware *)
  gitHash : scalar          (* validate.device.gitHash *)
}.

(** The validated body of POST /diag: the properties of
    [validate.device_parameters] that are set ([mac], [dob] and
    [hardwareVersion] apart, which the handler inspects), and the three
    properties beside it.  A JSON or boolean value is carried as the scalar
    Prisma stores. *)
Record diag := Diag {
  device_parameters : gmap string scalar;
  mac : option string;               (* device_parameters.mac *)
  dob : option Z;                    (* device_parameters.dob *)
  hardwareVersion : option Z;        (* device_parameters.hardwareVersion *)
  device_profiles : option scalar;
  device_services : option scalar;
  session_id : option scalar
}.

(** The columns of a diagnostics row that are copied from a property of
    [device_parameters], with the name of that property. *)
Definition copied_parameters : list (string * string) :=
  [("device_name", "name"); ("device_model", "model");
   ("device_firmware", "firmware"); ("device_git_hash", "hash");
   ("device_uptime", "uptime"); ("device_utc_time", "utc");
   ("device_battery_capacity", "batteryCapacity");
   ("device_serial_number", "serialNumber");
   ("authenticated", "authenticated"); ("pup", "pupService");
   ("lorax", "loraxService"); ("device_chamber_type", "chamberType")].

(** [dob != 1000 ? new Date(dob * 1000) : null]: [None] where the date is
    invalid (no [dob], or one out of range), which Prisma refuses. *)
Definition diag_dob (dob : option Z) : option scalar :=
  match dob with
  | Some n => if n =? 1000 then Some Null else Date <$> Date_of_seconds n
  | None => None
  end.

Section Routes.

Variable digest : list byte -> list byte -> string.
Variable secret : list byte.
(** The schemas of [./utils], the user-agent header of the request and the
    [device_leaderboard] view of the schema are not among the sources. *)
Variable trackingValidation : list byte -> option tracking.
Variable diagValidation : list byte -> option diag.
Variable user_agent : request -> option string.
Variable device_leaderboard : list row -> list row.

(** [verifyRequest(Buffer.from(req.rawBody, "base64"),
    req.headers["x-signature"])]. *)
Definition verified (req : request) : St store (list byte) :=
  of_result (verifyRequest digest secret (Buffer.from_base64 (rawBody req))
               (default EmptyString (x_signature req))).

(** The [data] of the update (lines 213-225). *)
Definition update_data (validate : tracking) (date : Z) (ip : string)
    (ev : env) (req : request) : row :=
  opt_column "user_id" (user req) ∪
  <["name" := device_name validate]>
  (<["dabs" := totalDabs validate]>
  (<["avg_dabs" := dabsPerDay validate]>
  (<["model" := device_model validate]>
  (<["firmware" := firmware validate]>
  (<["hardware" := hardware validate]>
  (<["git_hash" := gitHash validate]>
  (<["dob" := Date date]>
  (<["last_active" := Date (now ev)]>
  (<["last_ip" := Str ip]> ∅))))))))).

(** The [data] of the create (lines 233-247). *)
Definition create_data (validate : tracking) (date : Z) (ip : string)
    (ev : env) (req : request) : row :=
  opt_column "user_id" (user req) ∪
  <["id" := Str (pika_gen ev)]>
  (<["name" := device_name validate]>
  (<["mac" := Str (device_mac validate)]>
  (<["dabs" := totalDabs validate]>
  (<["avg_dabs" := dabsPerDay validate]>
  (<["model" := device_model validate]>
  (<["firmware" := firmware validate]>
  (<["hardware" := hardware validate]>
  (<["git_hash" := gitHash validate]>
  (<["dob" := Date date]>
  (<["last_active" := Date (now ev)]>
  (<["last_ip" := Str ip]> ∅))))))))))).

(** The properties [sanitize] removes from the device of the reply. *)
Definition private_columns : list string :=
  ["mac"; "model"; "hardware"; "serial_number"; "dob"; "last_ip"; "user_id"].

(** Lines 255-273: the position is looked up in the view by the [id] of
    the device, and the device is sent sanitized.  The device read back
    after the write is the row just written, never null; [sanitize] is
    applied to it when it is there. *)
Definition respond (device : option row) : St store answer := fun s =>
  let pos := table_findFirst "id" (device ≫= (.!! "id"))
               (device_leaderboard (devices s)) in
  (s, Ok (Tracked (device ≫= sanitized private_columns)
            (pos ≫= (.!! "position")))).

(** [server.post("/track", ...)] (lines 190-277). *)
Definition track (req : request) (ev : env) : St store answer :=
  if negb (truthy (x_signature req))
  then mret (Coded 400 "invalid_tracking_data")
  else
    body ← verified req;
    catching
      (validate ← parsed trackingValidation body;
       let ip := client_ip req in
       match Date_of_seconds (device_dob validate) with
       | None => mret (Coded 400 "invalid_tracking_data")
       | Some date =>
           let mac := Some (Str (device_mac validate)) in
           existing ← findFirst_device "mac" mac;
           match existing with
           | Some _ => update_device "mac" mac (update_data validate date ip ev req)
           | None => create_device (create_data validate date ip ev req)
           end;;
           device ← findFirst_device "mac" mac;
           respond device
       end)
      (fun error => console_error error;; mret Silent).

(** The [data] of the diagnostics row (lines 312-338). *)
Definition diag_data (validate : diag) (date : scalar) (ip : string)
    (ev : env) (req : request) : row :=
  let params := device_parameters validate in
  <["id" := Str (pika_gen ev)]>
  (<["device_dob" := date]>
  (<["user_agent" := Str (or_else (user_agent req) "unknown")]>
  (<["ip" := Str ip]>
  (set_column "device_mac" (Str <$> mac validate)
  (set_column "device_hardware_version"
     ((fun n => Str (Number_toString n)) <$> hardwareVersion validate)
  (set_column "device_profiles" (device_profiles validate)
  (set_column "device_services" (device_services validate)
  (set_column "session_id" (session_id validate)
  (foldr (fun cf r => set_column cf.1 (params !! cf.2) r) ∅
     copied_parameters))))))))).

(** The write of the diagnostics row; an invalid date is refused before
    anything is stored. *)
Definition store_diag (validate : diag) (ip : string) (ev : env) (req : request)
  : St store unit :=
  match diag_dob (dob validate) with
  | None => raise PrismaValidation
  | Some date => create_diagnostic (diag_data validate date ip ev req)
  end.

(** [server.post("/diag", ...)] (lines 279-346). *)
Definition diag_route (req : request) (ev : env) : St store answer :=
  if negb (truthy (x_signature req))
  then mret (Coded 400 "invalid_diag_data")
  else
    body ← verified req;
    validate ← parsed diagValidation body;
    let ip := client_ip req in
    catching
      (device ← findFirst_device "mac" (Str <$> mac validate);
       match device with
       | Some _ =>
           update_device "mac" (Str <$> mac validate)
             (set_column "profiles" (device_profiles validate)
                (set_column "serial_number"
                   (device_parameters validate !! "serialNumber") ∅))
       | None => mret tt
       end;;
       store_diag validate ip ev req;;
       mret (Status 204))
      (fun error =>
         console_error error;; mret (Coded 400 "invalid_tracking_data")).

(** The second revision's POST /diag (lines 184-235 there): the same row,
    no device is looked up. *)
Definition diag_route_v2 (req : request) (ev : env) : St store answer :=
  if negb (truthy (x_signature req))
  then mret (Coded 400 "invalid_diag_data")
  else
    body ← verified req;
    validate ← parsed diagValidation body;
    let ip := client_ip req in
    catching
      (store_diag validate ip ev req;; mret (Status 204))
      (fun error =>
         console_error error;; mret (Coded 400 "invalid_tracking_data")).

(** The request carries the signature of its body. *)
Definition signed (req : request) : Prop :=
  truthy (x_signature req) = true
  /\ x_signature req = Some (digest secret (Buffer.from_base64 (rawBody req))).

End Routes.

(** The devices table honours its schema as far as the handlers rely on
    it: no [id] and no [mac] is repeated, and every row has both. *)
Definition devices_ok (s : list row) : Prop :=
  NoDup (column "id" s) /\ NoDup (column "mac" s)
  /\ Forall (fun r => is_Some (r !! "id") /\ is_Some (r !! "mac")) s.

(** A device row apart from the two columns POST /diag writes. *)
Definition without_diag_columns (r : row) : row :=
  delete "profiles" (delete "serial_number" r).

(** The rows of the devices table with a given MAC. *)
Definition count_mac (mac : string) (s : list row) : nat :=
  List.length (List.filter (has "mac" (Str mac)) s).

(** Handlers run one after the other on the store. *)
Fixpoint served (hs : list (St store answer)) (s : store)
  : store * list (result answer) :=
  match hs with
  | [] => (s, [])
  | h :: hs' =>
      let '(s1, r) := h s in
      let '(s2, rs) := served hs' s1 in
      (s2, r :: rs)
  end.

End Rev3.

(* ===================================================================== *)
(** ** Third revision: signing in with Discord *)
(* ===================================================================== *)

Module Accounts.

(** The expiry given to [keydb.set]: none, ["EX", seconds] or
    ["EXAT", timestamp]. *)
Inductive expiry :=
  | Never
  | EX (seconds : Z)
  | EXAT (timestamp : Z).

(** A key of the key-value store holds a text or a hash.  The expiry of a
    text is kept as it was given; there is no clock, so no key expires
    between two requests. *)
Inductive entry :=
  | Text (value : string) (expires : expiry)
  | Hash (fields : gmap string string).

Inductive failure :=
  | Database (e : error)  (* Prisma refuses a write *)
  | Upstream              (* a helper of [./helpers/discord] rejects *)
  | TypeError             (* a property of null is read *)
  | WrongType.            (* the key holds a value of another kind *)

Inductive outcome (A : Type) :=
  | Done (a : A)
  | Failed (f : failure).
Arguments Done {A} a.
Arguments Failed {A} f.

(** The requests that leave the process, in the order they are made. *)
Inductive call :=
  | ExchangeCode (code : option string) (redirect_uri : string)
  | FetchUser (access_token : string)
  | FetchAvatar (url : string).

Record state := State {
  users : list row;
  connections : list row;
  sessions : list row;
  keydb : gmap string entry;
  bucket : gmap string (list byte);  (* the objects of [env.MINIO_BUCKET] *)
  calls : list call
}.

Definition Act (A : Type) : Type := state -> state * outcome A.

#[export] Instance Act_ret : MRet Act := fun A a s => (s, Done a).

#[export] Instance Act_bind : MBind Act := fun A B f m s =>
  match m s with
  | (s', Done a) => f a s'
  | (s', Failed e) => (s', Failed e)
  end.

Definition fail {A} (f : failure) : Act A := fun s => (s, Failed f).

(** *** The key-value store *)

Definition keydb_exists (key : string) : Act bool := fun s =>
  (s, Done (bool_decide (is_Some (keydb s !! key)))).

Definition keydb_set (key value : string) (expires : expiry) : Act unit := fun s =>
  (State (users s) (connections s) (sessions s)
     (<[key := Text value expires]> (keydb s)) (bucket s) (calls s), Done tt).

Definition keydb_del (key : string) : Act unit := fun s =>
  (State (users s) (connections s) (sessions s)
     (delete key (keydb s)) (bucket s) (calls s), Done tt).

(** [hset] sets the given fields of the hash and keeps its other fields; a
    key that holds a text is refused. *)
Definition keydb_hset (key : string) (fields : gmap string string) : Act unit :=
  fun s =>
    match keydb s !! key with
    | Some (Text _ _) => (s, Failed WrongType)
    | Some (Hash old) =>
        (State (users s) (connections s) (sessions s)
           (<[key := Hash (fields ∪ old)]> (keydb s)) (bucket s) (calls s), Done tt)
    | None =>
        (State (users s) (connections s) (sessions s)
           (<[key := Hash fields]> (keydb s)) (bucket s) (calls s), Done tt)
    end.

(** *** The object store *)

Definition put_object (key : string) (content : list byte) : Act unit := fun s =>
  (State (users s) (connections s) (sessions s) (keydb s)
     (<[key := content]> (bucket s)) (calls s), Done tt).

Definition delete_object (key : string) : Act unit := fun s =>
  (State (users s) (connections s) (sessions s) (keydb s)
     (delete key (bucket s)) (calls s), Done tt).

(** *** The tables *)

(** [id] is the primary key of [users] and of [connections]; to [sessions]
    the handlers give no key of their own. *)
Definition create_user (data : row) : Act unit := fun s =>
  match table_create ["id"] data (users s) with
  | Ok t => (State t (connections s) (sessions s) (keydb s) (bucket s) (calls s),
             Done tt)
  | Throw e => (s, Failed (Database e))
  end.

Definition update_user (id : string) (data : row) : Act unit := fun s =>
  match table_update ["id"] "id" (Some (Str id)) data (users s) with
  | Ok t => (State t (connections s) (sessions s) (keydb s) (bucket s) (calls s),
             Done tt)
  | Throw e => (s, Failed (Database e))
  end.

Definition create_connection (data : row) : Act unit := fun s =>
  match table_create ["id"] data (connections s) with
  | Ok t => (State (users s) t (sessions s) (keydb s) (bucket s) (calls s),
             Done tt)
  | Throw e => (s, Failed (Database e))
  end.

Definition create_session (data : row) : Act unit := fun s =>
  (State (users s) (connections s) (sessions s ++ [data]) (keydb s) (bucket s)
     (calls s), Done tt).

(** The text of a string column that is never null. *)
Definition text_column (col : string) (r : row) : string :=
  match r !! col with
  | Some (Str text) => text
  | _ => EmptyString
  end.

(** [connections.findFirst({ where: { platform, platform_id },
    include: { users: true } })]: the connection and the user it belongs
    to. *)
Definition find_connection (platform platform_id : string)
  : Act (option (row * option row)) := fun s =>
  (s, Done
        (c ← List.find (fun c => has "platform" (Str platform) c
                                 && has "platform_id" (Str platform_id) c)
               (connections s);
         Some (c, u ← c !! "user_id"; db_findFirst "id" u (users s)))).

(** *** The world outside *)

Record tokens := Tokens {
  access_token : string;
  refresh_token : string;
  expires_in : Z
}.

(** What [fetchDiscordUser] answers, as far as the handler reads it.  The
    profile has an avatar: for an account without one the handler would call
    [startsWith] on null. *)
Record profile := Profile {
  id : string;
  username : string;
  avatar : string
}.

(** The helpers of [./helpers/discord], [pika.gen] and [fetch] are not among
    the sources.  A helper answers [None] where it rejects. *)
Record outside := Outside {
  gen : string -> string;  (* pika.gen(prefix) *)
  exchangeDiscordCode : option string -> string -> option tokens;
  fetchDiscordUser : string -> option profile;
  fetch : string -> list byte  (* the body of the response, as a Buffer *)
}.

Record config := Config {
  DISCORD_CLIENT_ID : string;
  APPLICATION_HOST : string
}.

(** The parts of the request the two handlers read. *)
Record visit := Visit {
  platform : string;                 (* req.params.platform *)
  query_state : option string;       (* req.query.state *)
  query_code : option string;        (* req.query.code *)
  origin : option string;            (* req.headers.origin *)
  user_agent : option string;        (* req.headers["user-agent"] *)
  connecting_ip : option string;     (* req.headers["cf-connecting-ip"] *)
  remote_address : option string     (* req.socket.remoteAddress *)
}.

Inductive reply :=
  | Url (url : string)
      (* 200 { success: true, data: { url } } *)
  | Refused (status : Z) (error : string)
      (* { success: false, error } *)
  | SignedIn (user : row) (connection : object) (token : string).
      (* 200 { success: true, data: { user, connection, token } } *)

Section Handlers.

Variable cfg : config.
Variable out : outside.
(** [stringify] of Node's [querystring]. *)
Variable stringify : list (string * string) -> string.

Definition exchange (code : option string) (redirect_uri : string) : Act tokens :=
  fun s =>
    let s' := State (users s) (connections s) (sessions s) (keydb s) (bucket s)
                (calls s ++ [ExchangeCode code redirect_uri]) in
    match exchangeDiscordCode out code redirect_uri with
    | Some t => (s', Done t)
    | None => (s', Failed Upstream)
    end.

Definition fetch_user (token : string) : Act profile := fun s =>
  let s' := State (users s) (connections s) (sessions s) (keydb s) (bucket s)
              (calls s ++ [FetchUser token]) in
  match fetchDiscordUser out token with
  | Some p => (s', Done p)
  | None => (s', Failed Upstream)
  end.

Definition fetch_avatar (url : string) : Act (list byte) := fun s =>
  (State (users s) (connections s) (sessions s) (keydb s) (bucket s)
     (calls s ++ [FetchAvatar url]), Done (fetch out url)).

(** [`${req.headers.origin || env.APPLICATION_HOST}/callback/discord`]. *)
Definition redirect_uri (v : visit) : string :=
  or_else (origin v) (APPLICATION_HOST cfg) +:+ "/callback/discord".

(** [`oauth_state/${state}`]; a parameter that is absent is written
    [undefined]. *)
Definition state_key (state : option string) : string :=
  "oauth_state/" +:+ default "undefined" state.

(** [name.startsWith("a_") ? "gif" : "png"]. *)
Definition extension (name : string) : string :=
  if String.prefix "a_" name then "gif" else "png".

(** The object key of an avatar. *)
Definition avatar_key (user_id hash : string) : string :=
  "avatars/" +:+ user_id +:+ "/" +:+ hash +:+ "." +:+ extension hash.

(** The address the avatar is fetched from. *)
Definition avatar_url (p : profile) : string :=
  "https://cdn.discordapp.com/avatars/" +:+ id p +:+ "/" +:+ avatar p +:+ "."
  +:+ extension (avatar p) +:+ "?size=512".

(** The address of the caller, as the telemetry handlers compute it. *)
Definition visitor_ip (v : visit) : string :=
  or_else (connecting_ip v) (or_else (remote_address v) "0.0.0.0").

(** The row of [prisma.sessions.create]. *)
Definition session_row (v : visit) (token user_id connection_id : string) : row :=
  <["ip" := Str (visitor_ip v)]>
  (<["token" := Str token]>
  (<["user_agent" := Str (or_else (user_agent v) "N/A")]>
  (<["user_id" := Str user_id]>
  (<["connection_id" := Str connection_id]> ∅)))).

(** [server.get("/oauth/:platform", ...)] (lines 440-468). *)
Definition authorize (v : visit) : Act reply :=
  if String.eqb (platform v) "discord" then
    let state := gen out "oauth" in
    keydb_set ("oauth_state/" +:+ state) state (EX 500);;
    let params :=
      stringify [("client_id", DISCORD_CLIENT_ID cfg);
                 ("response_type", "code");
                 ("scope", "identify");
                 ("state", state);
                 ("redirect_uri", redirect_uri v)] in
    mret (Url ("https://discord.com/oauth2/authorize?" +:+ params))
  else mret (Refused 400 "invalid_platform").

(** Lines 513-581: the Discord account is linked already. *)
Definition sign_in_known (v : visit) (p : profile)
    (existingConnection : row) (linked : option row) : Act reply :=
  match linked with
  | None => fail TypeError
  | Some user =>
      let user_id := text_column "id" user in
      let connection_id := text_column "id" existingConnection in
      let session := gen out "session" in
      keydb_hset ("sessions/" +:+ session)
        {[ "user_id" := user_id; "connection_id" := connection_id ]};;
      create_session (session_row v session user_id connection_id);;
      user' ←
        (if bool_decide (user !! "image" = Some (Str (avatar p)))
         then mret user
         else
           (if truthy (Some (text_column "image" user))
            then delete_object (avatar_key user_id (text_column "image" user))
            else mret tt);;
           img ← fetch_avatar (avatar_url p);
           let hash := avatar p in
           put_object (avatar_key user_id hash) img;;
           update_user user_id {[ "image" := Str hash ]};;
           mret (<["image" := Str hash]> user));
      mret (SignedIn user'
              (<["users" := Relation (Some user')]> (of_row existingConnection))
              session)
  end.

(** Lines 583-654: a new account. *)
Definition sign_up (v : visit) (p : profile) : Act reply :=
  let id_ := gen out "user" in
  let connection_id := gen out "connection" in
  img ← fetch_avatar (avatar_url p);
  let hash := avatar p in
  put_object (avatar_key id_ hash) img;;
  create_user
    (<["id" := Str id_]>
     (<["name" := Str (username p)]>
     (<["display_name" := Str (username p)]>
     (<["image" := Str hash]> ∅))));;
  let connection : row :=
    <["id" := Str connection_id]>
    (<["platform" := Str "discord"]>
    (<["platform_id" := Str (id p)]>
    (<["user_id" := Str id_]>
    (<["verified" := Num 1]> ∅)))) in
  create_connection connection;;
  let session := gen out "session" in
  keydb_hset ("sessions/" +:+ session)
    {[ "user_id" := id_; "connection_id" := connection_id ]};;
  create_session (session_row v session id_ connection_id);;
  mret (SignedIn
          (<["id" := Str id_]>
           (<["name" := Str (username p)]>
           (<["image" := Str hash]> ∅)))
          (of_row connection) session).

(** [server.post("/oauth/:platform", ...)] (lines 470-663).  The boolean
    [verified: true] is written 1. *)
Definition callback (v : visit) : Act reply :=
  if String.eqb (platform v) "discord" then
    validState ← keydb_exists (state_key (query_state v));
    if negb validState then mret (Refused 400 "invalid_state")
    else
      tokens ← exchange (query_code v) (redirect_uri v);
      user ← fetch_user (access_token tokens);
      keydb_set ("oauth/discord/" +:+ id user) (access_token tokens)
        (EX (expires_in tokens));;
      keydb_del (state_key (query_state v));;
      keydb_set ("oauth/discord/" +:+ id user +:+ "/refresh")
        (refresh_token tokens) Never;;
      existingConnection ← find_connection "discord" (id user);
      match existingConnection with
      | Some (connection, linked) => sign_in_known v user connection linked
      | None => sign_up v user
      end
  else mret (Refused 400 "invalid_platform").

(** The state after the two requests and the three writes to the key-value
    store that precede the lookup of the connection. *)
Definition exchanged (v : visit) (t : tokens) (p : profile) (s : state) : state :=
  State (users s) (connections s) (sessions s)
    (<["oauth/discord/" +:+ id p +:+ "/refresh" := Text (refresh_token t) Never]>
       (delete (state_key (query_state v))
          (<["oauth/discord/" +:+ id p
             := Text (access_token t) (EX (expires_in t))]> (keydb s))))
    (bucket s)
    ((calls s ++ [ExchangeCode (query_code v) (redirect_uri v)])
     ++ [FetchUser (access_token t)]).

End Handlers.

(** The Discord account is linked to a connection of the table. *)
Definition linked (platform_id : string) (s : state) : Prop :=
  is_Some (List.find (fun c => has "platform" (Str "discord") c
                               && has "platform_id" (Str platform_id) c)
             (connections s)).

#[global] Instance linked_dec platform_id s : Decision (linked platform_id s).
Proof. unfold linked. apply _. Defined.

(** The [user_id] of every connection is a text, as the schema has it. *)
Definition text_user_ids (s : state) : Prop :=
  Forall (fun c => exists t, c !! "user_id" = Some (Str t)) (connections s).

(** [keydb.hgetall] on this store, for a client that answers an empty
    object for a key that holds no hash. *)
Definition hgetall (db : gmap string entry) (key : string)
  : option (gmap string string) :=
  match db !! key with
  | Some (Hash fields) => Some fields
  | _ => Some ∅
  end.

End Accounts.

(* ===================================================================== *)
(** ** Concrete requests and tables for the examples *)
(* ===================================================================== *)

Module Sample.

(** A stand-in for the keyed digest and for the schemas, which are not among
    the sources: the digest is the base64 text of the secret followed by the
    payload; the tracking schema accepts a body that is a MAC of seventeen
    characters and nothing else; the feedback schema accepts every body. *)
Definition digest (secret payload : list byte) : string :=
  Buffer.toString_base64 (secret ++ payload).

Definition secret : list byte := [x73; x33; x63; x72; x33; x74].

Definition text_of (b : list byte) : string :=
  string_of_list_ascii (List.map ascii_of_byte b).

Definition trackingValidation (b : list byte) : option Rev2.tracking :=
  if Nat.eqb (List.length b) 17
  then Some (Rev2.Tracking (Str "ada") (text_of b) 1700000000
               (Str "Peak Pro") (Str "21") (Num 420))
  else None.

(** The same schema for a device that reports a birthday beyond the range
    of time values. *)
Definition trackingValidation_far (b : list byte) : option Rev2.tracking :=
  Some (Rev2.Tracking (Str "ada") (text_of b) 9000000000000000
          (Str "Peak Pro") (Str "21") (Num 420)).

Definition feedbackValidation (b : list byte) : option scalar :=
  Some (Str (text_of b)).

Definition mac : string := "AA:BB:CC:DD:EE:FF".
Definition legacyKey : string := "device_NDAwNzUxMzI3NQ==".
Definition currentKey : string := "device_QUE6QkI6Q0M6REQ6RUU6RkY=".

(** The body is the MAC text, sent base64-encoded. *)
Definition body64 : string := Buffer.toString_base64 (Buffer.from_utf8 mac).

Definition signed (ip : string) : request :=
  Request (Some (digest secret (Buffer.from_utf8 mac))) body64 (Some ip) None None.

Definition forged : request :=
  Request (Some "bm90IHRoZSBzaWduYXR1cmU=") body64 None (Some "203.0.113.9") None.

Definition unsigned : request :=
  Request None body64 None (Some "203.0.113.9") None.


(** First revision: the body is the base64 text of the device id; the
    birthday is read from decimal digits; any rendering of a time value
    serves as its ISO text here. *)
Definition trackingValidation1 (b : list byte) : option Rev1.tracking :=
  Some (Rev1.Tracking (Str "ada") (text_of b) "NDI=" (Str "Peak") (Str "0") (Num 3)).

Definition Date_of_Number (text : string) : option Z :=
  if Number_isNaN text then None
  else Some (1000 * List.fold_left (fun acc c => acc * 10 + (codeZ c - 48))
                      (list_ascii_of_string text) 0).

Definition toISOString (ms : Z) : string := Number_toString ms.


(** [device.id] is the base64 text of "1700000000". *)
Definition numbered : request :=
  Request (Some (digest secret (Buffer.from_utf8 "MTcwMDAwMDAwMA==")))
    (Buffer.toString_base64 (Buffer.from_utf8 "MTcwMDAwMDAwMA=="))
    None (Some "203.0.113.5") None.

Definition key1 : string := "device_NDItMTcwMDAwMDAwMDAwMA==".

Definition row1 : row :=
  <["id" := Str "leaderboard_9"]>
  (<["device_id" := Str key1]>
  (<["total_dabs" := Num 1]>
  (<["last_ip" := Str "198.51.100.1"]> ∅))).

Definition world1 : world := World [row1] [] [].

Definition legacy_row : row :=
  <["id" := Str "leaderboard_1"]>
  (<["device_id" := Str legacyKey]>
  (<["device_name" := Str "Peak"]>
  (<["total_dabs" := Num 7]>
  (<["last_ip" := Str "198.51.100.7"]>
  (<["created_at" := Date 1600000000000]> ∅))))).

Definition current_row : row := <["device_id" := Str currentKey]> legacy_row.

Definition other_row : row :=
  <["id" := Str "leaderboard_0"]>
  (<["device_id" := Str "device_MTIzNA=="]>
  (<["total_dabs" := Num 9000]>
  (<["last_ip" := Str "192.0.2.44"]> ∅))).

Definition legacy_world : world := World [other_row; legacy_row] [] [].

(** A table that holds the device under both keys. *)
Definition both_row : row :=
  <["id" := Str "leaderboard_5"]> (<["device_id" := Str currentKey]> ∅).
Definition both_world : world := World [legacy_row; both_row] [] [].

Definition env1 : env := Env "leaderboard_2" 1700000001000.
Definition env2 : env := Env "leaderboard_3" 1700000002000.
Definition env3 : env := Env "leaderboard_4" 1700000003000.

Definition three_submissions : list (request * env) :=
  [(signed "203.0.113.1", env1); (signed "203.0.113.2", env2);
   (signed "203.0.113.3", env3)].

End Sample.

(** Stand-ins for the third revision's schemas and view, which are not
    among the sources: the tracking schema accepts a body that is a MAC of
    seventeen characters, the diagnostics schema accepts every body and
    reads it as the MAC of a device that reports the birthday 1000. *)
Module Sample3.

Definition trackingValidation (b : list byte) : option Rev3.tracking :=
  if Nat.eqb (List.length b) 17
  then Some (Rev3.Tracking (Sample.text_of b) 1700000000 (Str "Peak Pro")
               (Num 420) (Num 12) (Str "21") (Str "X") (Str "4") (Str "abc123"))
  else None.

Definition diagValidation (b : list byte) : option Rev3.diag :=
  Some (Rev3.Diag {[ "name" := Str "Peak Pro"; "serialNumber" := Str "SN1" ]}
          (Some (Sample.text_of b)) (Some 1000) (Some 4) (Some (Str "[]"))
          None None).

Definition user_agent (req : request) : option string := None.

(** A view that ranks the devices in table order. *)
Definition device_leaderboard (devices : list row) : list row :=
  imap (fun i d => <["position" := Num (Z.of_nat i + 1)]> (select ["id"] d)) devices.

Definition device_row : row :=
  <["id" := Str "device_1"]>
  (<["mac" := Str Sample.mac]>
  (<["dabs" := Num 7]>
  (<["serial_number" := Str "SN0"]>
  (<["last_ip" := Str "198.51.100.7"]> ∅)))).

Definition empty_store : Rev3.store := Rev3.Store [] [] [].
Definition known_store : Rev3.store := Rev3.Store [device_row] [] [].

End Sample3.

(** A Discord account, first unknown and then linked. *)
Module SampleAccounts.

Definition cfg : Accounts.config :=
  Accounts.Config "1000000000000000000" "https://puff.social".

Definition tokens : Accounts.tokens := Accounts.Tokens "access_1" "refresh_1" 604800.

Definition profile : Accounts.profile :=
  Accounts.Profile "80351110224678912" "nelly" "a_8342729096ea3675442027381ff50dfe".

Definition out : Accounts.outside :=
  Accounts.Outside (fun prefix => prefix +:+ "_1")
    (fun _ _ => Some tokens) (fun _ => Some profile) (fun _ => []).

(** The pairs joined without escaping. *)
Definition stringify (params : list (string * string)) : string :=
  String.concat "&" (List.map (fun p => p.1 +:+ "=" +:+ p.2) params).

Definition asks : Accounts.visit :=
  Accounts.Visit "discord" None None None None None None.

Definition returns : Accounts.visit :=
  Accounts.Visit "discord" (Some "oauth_1") (Some "code_1") None None
    (Some "203.0.113.1") None.

Definition nothing : Accounts.state := Accounts.State [] [] [] ∅ ∅ [].

(** The state was issued and nobody has an account. *)
Definition fresh : Accounts.state :=
  Accounts.State [] [] []
    {[ "oauth_state/oauth_1" := Accounts.Text "oauth_1" (Accounts.EX 500) ]} ∅ [].

Definition user_7 : row :=
  {[ "id" := Str "user_7"; "name" := Str "nelly"; "display_name" := Str "nelly";
     "image" := Str "1f0bfc0865d324c2587920a7d80c609b" ]}.

Definition connection_7 : row :=
  {[ "id" := Str "connection_7"; "platform" := Str "discord";
     "platform_id" := Str "80351110224678912"; "user_id" := Str "user_7";
     "verified" := Num 1 ]}.

(** The state was issued and the Discord account is linked to a user. *)
Definition known : Accounts.state :=
  Accounts.State [user_7] [connection_7] []
    {[ "oauth_state/oauth_1" := Accounts.Text "oauth_1" (Accounts.EX 500) ]} ∅ [].

(** What the handler answers to the two of them. *)
Definition new_user : row :=
  {[ "id" := Str "user_1"; "name" := Str "nelly";
     "image" := Str "a_8342729096ea3675442027381ff50dfe" ]}.

Definition new_connection : row :=
  {[ "id" := Str "connection_1"; "platform" := Str "discord";
     "platform_id" := Str "80351110224678912"; "user_id" := Str "user_1";
     "verified" := Num 1 ]}.

Definition user_7' : row :=
  <["image" := Str "a_8342729096ea3675442027381ff50dfe"]> user_7.

End SampleAccounts.

(* ===================================================================== *)
(** * Properties *)
(* ===================================================================== *)

(** ** The model on concrete inputs *)

Example key_AABB :
  generatedDeviceId "AA:BB:CC:DD:EE:FF" = "device_QUE6QkI6Q0M6REQ6RUU6RkY=".
Proof. reflexivity. Qed.

Example old_key_AABB :
  oldGeneratedDeviceId colon_hex_bytes "AA:BB:CC:DD:EE:FF"
  = Some "device_NDAwNzUxMzI3NQ==".
Proof. vm_compute. reflexivity. Qed.

Example base64_vectors :
  List.map Buffer.toString_base64
    [[]; [x4d]; [x4d; x61]; [x4d; x61; x6e]; [xfb; xff; xfe]]
  = [""; "TQ=="; "TWE="; "TWFu"; "+//+"].
Proof. vm_compute. reflexivity. Qed.

(** The decoder is lenient: blanks are skipped, the URL-safe characters are
    accepted and everything after the first padding character is ignored. *)
Example base64_lenient :
  List.map Buffer.from_base64 ["TWFu"; "TW Fu"; "-__-"; "TQ==TWFu"; "TWF"]
  = [[x4d; x61; x6e]; [x4d; x61; x6e]; [xfb; xff; xfe]; [x4d]; [x4d; x61]].
Proof. vm_compute. reflexivity. Qed.

Example unpack32_examples :
  ByteData.unpack32 [x01; x00; x00; x00] = Some 1
  /\ ByteData.unpack32 [x00; x00; x00; x01; xff] = Some 16777216
  /\ ByteData.unpack32 [x01; x02; x03] = None.
Proof. vm_compute. repeat split. Qed.

(** ** Bytes *)

Lemma byteZ_range (b : byte) : 0 <= byteZ b < 256.
Proof.
  unfold byteZ. pose proof (Byte.to_N_bounded b). lia.
Qed.

Lemma Zbyte_byteZ (b : byte) : Zbyte (byteZ b) = b.
Proof.
  unfold Zbyte. rewrite Z.mod_small by apply byteZ_range.
  unfold byteZ. rewrite N2Z.id, Byte.of_to_N. reflexivity.
Qed.

Lemma In_all_bytes (b : byte) : In b all_bytes.
Proof.
  unfold all_bytes. apply in_map_iff.
  exists (Z.to_nat (byteZ b)). pose proof (byteZ_range b). split.
  - rewrite Z2Nat.id by lia. apply Zbyte_byteZ.
  - apply in_seq. lia.
Qed.

Lemma for_bytes_spec (P : byte -> bool) :
  for_bytes P = true -> forall b, P b = true.
Proof.
  unfold for_bytes. intros Hall b.
  apply (proj1 (forallb_forall P all_bytes) Hall b (In_all_bytes b)).
Qed.

Lemma for_bytes2_spec (P : byte -> byte -> bool) :
  for_bytes2 P = true -> forall a b, P a b = true.
Proof.
  unfold for_bytes2. intros Hall a b.
  pose proof (proj1 (forallb_forall _ all_bytes) Hall a (In_all_bytes a)) as Ha.
  apply (proj1 (forallb_forall _ all_bytes) Ha b (In_all_bytes b)).
Qed.

Lemma Z_eq_opt_true (o : option Z) (z : Z) : Z_eq_opt o z = true -> o = Some z.
Proof.
  destruct o as [v|]; simpl; [|discriminate].
  intros H. apply Z.eqb_eq in H. now subst.
Qed.

(** Proves a statement about one or two bytes by running its boolean
    check on all of them. *)
Ltac by_all_bytes :=
  lazymatch goal with
  | |- forall a b : byte, @?P a b = true =>
      apply (for_bytes2_spec P); vm_compute; reflexivity
  | |- forall a : byte, @?P a = true =>
      apply (for_bytes_spec P); vm_compute; reflexivity
  end.

(** ** base64 *)

Module Base64Facts.
Import Buffer.

Lemma value_sextet0 : forall a, Z_eq_opt (unbase64 (b64_char (sextet0 a))) (sextet0 a) = true.
Proof. by_all_bytes. Qed.

Lemma value_sextet1 : forall a b, Z_eq_opt (unbase64 (b64_char (sextet1 a b))) (sextet1 a b) = true.
Proof. by_all_bytes. Qed.

Lemma value_sextet2 : forall b c, Z_eq_opt (unbase64 (b64_char (sextet2 b c))) (sextet2 b c) = true.
Proof. by_all_bytes. Qed.

Lemma value_sextet3 : forall c, Z_eq_opt (unbase64 (b64_char (sextet3 c))) (sextet3 c) = true.
Proof. by_all_bytes. Qed.

Lemma octet1_sextets : forall a b, Byte.eqb (octet1 (sextet0 a) (sextet1 a b)) a = true.
Proof. by_all_bytes. Qed.

Lemma octet3_sextets : forall b c, Byte.eqb (octet3 (sextet2 b c) (sextet3 c)) c = true.
Proof. by_all_bytes. Qed.

Lemma low_of_sextet1 : forall a b,
  Z.eqb (Z.land (sextet1 a b) 15) (Z.shiftr (byteZ b) 4) = true.
Proof. by_all_bytes. Qed.

Lemma high_of_sextet2 : forall b c,
  Z.eqb (Z.shiftr (Z.land (sextet2 b c) 60) 2) (Z.land (byteZ b) 15) = true.
Proof. by_all_bytes. Qed.

Lemma nibbles : forall b,
  Byte.eqb (Zbyte (Z.lor (Z.shiftl (Z.shiftr (byteZ b) 4) 4) (Z.land (byteZ b) 15))) b = true.
Proof. by_all_bytes. Qed.

Lemma octet1_ok a b : octet1 (sextet0 a) (sextet1 a b) = a.
Proof. apply Byte.byte_dec_bl, octet1_sextets. Qed.

Lemma octet2_ok a b c : octet2 (sextet1 a b) (sextet2 b c) = b.
Proof.
  unfold octet2.
  rewrite (proj1 (Z.eqb_eq _ _) (low_of_sextet1 a b)).
  rewrite (proj1 (Z.eqb_eq _ _) (high_of_sextet2 b c)).
  apply Byte.byte_dec_bl, nibbles.
Qed.

Lemma octet3_ok b c : octet3 (sextet2 b c) (sextet3 c) = c.
Proof. apply Byte.byte_dec_bl, octet3_sextets. Qed.

Lemma sextets_cons c v s : unbase64 c = Some v -> sextets (String c s) = v :: sextets s.
Proof. intros H. simpl. now rewrite H. Qed.

(** Lists are taken apart three elements at a time, as the encoder does. *)
Lemma by_threes {A} (P : list A -> Prop) :
  P [] -> (forall a, P [a]) -> (forall a b, P [a; b]) ->
  (forall a b c l, P l -> P (a :: b :: c :: l)) ->
  forall l, P l.
Proof.
  intros H0 H1 H2 H3. fix IH 1.
  intros [|a [|b [|c l]]]; [exact H0 | apply H1 | apply H2 | apply H3, IH].
Qed.

Lemma sextets_group a b c s :
  sextets
    (String (b64_char (sextet0 a)) (String (b64_char (sextet1 a b))
      (String (b64_char (sextet2 b c)) (String (b64_char (sextet3 c)) s))))
  = sextet0 a :: sextet1 a b :: sextet2 b c :: sextet3 c :: sextets s.
Proof.
  rewrite (sextets_cons _ _ _ (Z_eq_opt_true _ _ (value_sextet0 a))).
  rewrite (sextets_cons _ _ _ (Z_eq_opt_true _ _ (value_sextet1 a b))).
  rewrite (sextets_cons _ _ _ (Z_eq_opt_true _ _ (value_sextet2 b c))).
  rewrite (sextets_cons _ _ _ (Z_eq_opt_true _ _ (value_sextet3 c))).
  reflexivity.
Qed.

(** Decoding what the encoder wrote gives the bytes back. *)
Lemma from_base64_toString (buf : list byte) :
  from_base64 (toString_base64 buf) = buf.
Proof.
  unfold from_base64. induction buf as [|a|a b|a b c l IH] using by_threes.
  - reflexivity.
  - cbn [toString_base64].
    rewrite (sextets_cons _ _ _ (Z_eq_opt_true _ _ (value_sextet0 a))).
    rewrite (sextets_cons _ _ _ (Z_eq_opt_true _ _ (value_sextet1 a x00))).
    cbn [sextets decode_groups]. simpl. now rewrite octet1_ok.
  - cbn [toString_base64].
    rewrite (sextets_cons _ _ _ (Z_eq_opt_true _ _ (value_sextet0 a))).
    rewrite (sextets_cons _ _ _ (Z_eq_opt_true _ _ (value_sextet1 a b))).
    rewrite (sextets_cons _ _ _ (Z_eq_opt_true _ _ (value_sextet2 b x00))).
    simpl. now rewrite octet1_ok, octet2_ok.
  - cbn [toString_base64]. rewrite sextets_group.
    cbn [decode_groups]. now rewrite octet1_ok, octet2_ok, octet3_ok, IH.
Qed.

Lemma toString_base64_inj (b1 b2 : list byte) :
  toString_base64 b1 = toString_base64 b2 -> b1 = b2.
Proof.
  intros H. rewrite <- (from_base64_toString b1), <- (from_base64_toString b2).
  now rewrite H.
Qed.

End Base64Facts.

(** ** Device identity keys *)

Module KeyFacts.
Import Buffer Base64Facts.

Lemma plain_sextet0 : forall a, negb (Ascii.eqb (b64_char (sextet0 a)) "_") = true.
Proof. by_all_bytes. Qed.

Lemma plain_sextet1 : forall a b, negb (Ascii.eqb (b64_char (sextet1 a b)) "_") = true.
Proof. by_all_bytes. Qed.

Lemma plain_sextet2 : forall b c, negb (Ascii.eqb (b64_char (sextet2 b c)) "_") = true.
Proof. by_all_bytes. Qed.

Lemma plain_sextet3 : forall c, negb (Ascii.eqb (b64_char (sextet3 c)) "_") = true.
Proof. by_all_bytes. Qed.

Lemma until_underscore_plain c s :
  negb (Ascii.eqb c "_") = true ->
  until_underscore (String c s) = String c (until_underscore s).
Proof.
  intros H. apply negb_true_iff in H. cbn [until_underscore]. now rewrite H.
Qed.

(** The base64 text of a buffer has no underscore: [split("_")[1]] of a
    key is the whole text after the tag. *)
Lemma until_underscore_base64 (buf : list byte) :
  until_underscore (toString_base64 buf) = toString_base64 buf.
Proof.
  induction buf as [|a|a b|a b c l IH] using by_threes; cbn [toString_base64].
  - reflexivity.
  - rewrite (until_underscore_plain _ _ (plain_sextet0 a)).
    rewrite (until_underscore_plain _ _ (plain_sextet1 a x00)).
    reflexivity.
  - rewrite (until_underscore_plain _ _ (plain_sextet0 a)).
    rewrite (until_underscore_plain _ _ (plain_sextet1 a b)).
    rewrite (until_underscore_plain _ _ (plain_sextet2 b x00)).
    reflexivity.
  - rewrite (until_underscore_plain _ _ (plain_sextet0 a)).
    rewrite (until_underscore_plain _ _ (plain_sextet1 a b)).
    rewrite (until_underscore_plain _ _ (plain_sextet2 b c)).
    rewrite (until_underscore_plain _ _ (plain_sextet3 c)).
    now rewrite IH.
Qed.

Lemma split_device_key (buf : list byte) :
  split_underscore_1 ("device_" +:+ toString_base64 buf) = Some (toString_base64 buf).
Proof.
  rewrite <- (until_underscore_base64 buf) at 2.
  generalize (toString_base64 buf) as text. intros text. reflexivity.
Qed.

Lemma key_payload_device (buf : list byte) :
  key_payload ("device_" +:+ toString_base64 buf) = buf.
Proof.
  unfold key_payload. rewrite split_device_key. apply from_base64_toString.
Qed.

Lemma utf8_apart_all : forall a b, utf8_apart a b = true.
Proof. by_all_bytes. Qed.

Lemma utf8_char_shape c :
  (exists x, utf8_char c = [x]) \/ (exists x y, utf8_char c = [x; y]).
Proof. unfold utf8_char. destruct (codeZ c <? 128); eauto. Qed.

Lemma byte_eqb_refl (x : byte) : Byte.eqb x x = true.
Proof. now apply Byte.byte_dec_lb. Qed.

(** The encodings of the code units form a prefix code. *)
Lemma utf8_char_prefix c1 c2 l1 l2 :
  utf8_char c1 ++ l1 = utf8_char c2 ++ l2 -> c1 = c2 /\ l1 = l2.
Proof.
  intros Heq.
  pose proof (utf8_apart_all (byte_of_ascii c1) (byte_of_ascii c2)) as Hapart.
  unfold utf8_apart in Hapart. rewrite !ascii_of_byte_of_ascii in Hapart.
  cbn zeta in Hapart.
  destruct (Byte.eqb (byte_of_ascii c1) (byte_of_ascii c2)) eqn:Hc.
  - apply Byte.byte_dec_bl in Hc.
    assert (c1 = c2) as ->.
    { rewrite <- (ascii_of_byte_of_ascii c1), <- (ascii_of_byte_of_ascii c2).
      now rewrite Hc. }
    split; [reflexivity|]. now apply app_inv_head in Heq.
  - exfalso. cbn [orb] in Hapart.
    destruct (utf8_char_shape c1) as [[x1 H1]|[x1 [y1 H1]]];
      destruct (utf8_char_shape c2) as [[x2 H2]|[x2 [y2 H2]]];
      rewrite H1, H2 in *; cbn in Heq, Hapart.
    + injection Heq as -> _. rewrite byte_eqb_refl in Hapart. discriminate Hapart.
    + injection Heq as -> _. rewrite byte_eqb_refl in Hapart. discriminate Hapart.
    + injection Heq as -> _. rewrite byte_eqb_refl in Hapart. discriminate Hapart.
    + injection Heq as -> -> _. rewrite !byte_eqb_refl in Hapart. discriminate Hapart.
Qed.

Lemma from_utf8_inj (s1 s2 : string) : from_utf8 s1 = from_utf8 s2 -> s1 = s2.
Proof.
  unfold from_utf8. revert s2.
  induction s1 as [|c1 s1 IH]; intros [|c2 s2]; cbn [list_ascii_of_string flat_map].
  - reflexivity.
  - destruct (utf8_char_shape c2) as [[x H]|[x [y H]]]; rewrite H; discriminate.
  - destruct (utf8_char_shape c1) as [[x H]|[x [y H]]]; rewrite H; discriminate.
  - intros Heq. apply utf8_char_prefix in Heq as [-> Hrest].
    f_equal. now apply IH.
Qed.

(** Bits that do not overlap add up. *)
Lemma lor_add_disjoint (lo hi k : Z) :
  0 <= k -> 0 <= lo < 2 ^ k ->
  Z.lor lo (hi * 2 ^ k) = lo + hi * 2 ^ k.
Proof.
  intros Hk Hlo. symmetry. apply Z.add_nocarry_lor.
  apply Z.bits_inj'. intros n Hn.
  rewrite Z.land_spec, Z.bits_0.
  destruct (Z.lt_ge_cases n k) as [Hlt|Hge].
  - rewrite Z.mul_pow2_bits_low by lia. apply andb_false_r.
  - assert (Z.testbit lo n = false) as ->; [|reflexivity].
    destruct (Z.eq_dec lo 0) as [->|Hnz]; [apply Z.bits_0|].
    apply Z.bits_above_log2; [lia|].
    apply Z.lt_le_trans with k; [|lia].
    apply Z.log2_lt_pow2; lia.
Qed.

Lemma uint32_le_sum (b0 b1 b2 b3 : byte) :
  uint32_le b0 b1 b2 b3
  = byteZ b0 + byteZ b1 * 256 + byteZ b2 * 65536 + byteZ b3 * 16777216.
Proof.
  pose proof (byteZ_range b0). pose proof (byteZ_range b1).
  pose proof (byteZ_range b2). pose proof (byteZ_range b3).
  unfold uint32_le. rewrite !Z.shiftl_mul_pow2 by lia.
  rewrite (lor_add_disjoint (byteZ b2 * 2 ^ 16) (byteZ b3) 24) by lia.
  replace (byteZ b2 * 2 ^ 16 + byteZ b3 * 2 ^ 24)
    with ((byteZ b2 + byteZ b3 * 2 ^ 8) * 2 ^ 16) by lia.
  rewrite (lor_add_disjoint (byteZ b1 * 2 ^ 8) _ 16) by lia.
  replace (byteZ b1 * 2 ^ 8 + (byteZ b2 + byteZ b3 * 2 ^ 8) * 2 ^ 16)
    with ((byteZ b1 + (byteZ b2 + byteZ b3 * 2 ^ 8) * 2 ^ 8) * 2 ^ 8) by lia.
  rewrite (lor_add_disjoint (byteZ b0) _ 8) by lia.
  lia.
Qed.

Lemma uint32_be_sum (b0 b1 b2 b3 : byte) :
  uint32_be b0 b1 b2 b3
  = byteZ b0 * 16777216 + byteZ b1 * 65536 + byteZ b2 * 256 + byteZ b3.
Proof.
  unfold uint32_be. rewrite !(Z.lor_comm (Z.shiftl _ _)).
  rewrite <- !Z.lor_assoc.
  pose proof (uint32_le_sum b3 b2 b1 b0) as H. unfold uint32_le in H.
  rewrite H. lia.
Qed.



Lemma unpack32_short (buffer : list byte) :
  (List.length buffer < 4)%nat -> ByteData.unpack32 buffer = None.
Proof.
  intros H. unfold ByteData.unpack32.
  assert ((Z.of_nat (List.length buffer) <? 4) = true) as ->; [|reflexivity].
  apply Z.ltb_lt. lia.
Qed.

Lemma numeral_digits (d : Decimal.uint) :
  Forall (fun c => is_digit c = true)
    (list_ascii_of_string (NilEmpty.string_of_uint d)).
Proof.
  induction d; cbn [NilEmpty.string_of_uint list_ascii_of_string];
    constructor; try assumption; reflexivity.
Qed.

(** The decimal text of a number has no colon in it. *)
Lemma numeral_without_colon (n : Z) :
  ~ In ":"%char (list_ascii_of_string (Number_toString n)).
Proof.
  assert (forall d, ~ In ":"%char (list_ascii_of_string (NilZero.string_of_uint d)))
    as Huint.
  { intros d Hin.
    assert (In ":"%char (list_ascii_of_string (NilEmpty.string_of_uint d))
            \/ In ":"%char (list_ascii_of_string "0")) as [H|H].
    { destruct d; cbn [NilZero.string_of_uint] in Hin; auto. }
    - pose proof (numeral_digits d) as Hall. rewrite List.Forall_forall in Hall.
      specialize (Hall _ H). discriminate Hall.
    - cbn in H. destruct H as [H|[]]. discriminate H. }
  unfold Number_toString. destruct (Z.to_int n) as [d|d];
    cbn [NilZero.string_of_int list_ascii_of_string].
  - apply Huint.
  - intros [H|H]; [discriminate H|]. now apply (Huint d).
Qed.

(** A MAC written with a colon never has the same legacy and current key. *)
Lemma keys_differ (toBytes : string -> list byte) (mac old : string) :
  In ":"%char (list_ascii_of_string mac) ->
  oldGeneratedDeviceId toBytes mac = Some old ->
  old <> generatedDeviceId mac.
Proof.
  intros Hcolon Hold Heq. unfold oldGeneratedDeviceId in Hold.
  destruct (ByteData.unpack32 _) as [n|]; [|discriminate].
  injection Hold as <-. unfold generatedDeviceId in Heq.
  apply (f_equal key_payload) in Heq. rewrite !key_payload_device in Heq.
  apply from_utf8_inj in Heq. rewrite <- Heq in Hcolon.
  now apply (numeral_without_colon n).
Qed.

End KeyFacts.




(** C4 (as amended).  The current key is the tag [device_] followed by the
    base64 text of the UTF-8 bytes of the MAC as it is written in the
    payload; the text after the tag is what [split("_")[1]] returns,
    decoding it gives exactly those bytes back, and two MAC texts with the
    same key are the same text. *)
Theorem current_key_round_trip (mac : string) :
  split_underscore_1 (generatedDeviceId mac)
  = Some (Buffer.toString_base64 (Buffer.from_utf8 mac))
  /\ key_payload (generatedDeviceId mac) = Buffer.from_utf8 mac
  /\ (forall mac', generatedDeviceId mac' = generatedDeviceId mac -> mac' = mac).
Proof.
  unfold generatedDeviceId. split; [apply KeyFacts.split_device_key|].
  split; [apply KeyFacts.key_payload_device|].
  intros mac' H. apply KeyFacts.from_utf8_inj.
  rewrite <- (KeyFacts.key_payload_device (Buffer.from_utf8 mac')), H.
  apply KeyFacts.key_payload_device.
Qed.

(** C4, counterexample: for AA:BB:CC:DD:EE:FF the text after the tag
    decodes to the seventeen characters of the MAC text, not to the six
    bytes AA BB CC DD EE FF. *)
Lemma current_key_not_six_bytes :
  key_payload (generatedDeviceId "AA:BB:CC:DD:EE:FF")
  <> [xaa; xbb; xcc; xdd; xee; xff]
  /\ List.length (key_payload (generatedDeviceId "AA:BB:CC:DD:EE:FF")) = 17%nat.
Proof.
  split; [|vm_compute; reflexivity].
  vm_compute. intros H. discriminate H.
Qed.

(** ** Request authentication *)

Lemma codeZ_inj (x y : ascii) : codeZ x = codeZ y -> x = y.
Proof.
  unfold codeZ. intros H. apply N2Z.inj in H.
  rewrite <- (ascii_N_embedding x), <- (ascii_N_embedding y). now rewrite H.
Qed.

Lemma accumulate_xor_refl (a : string) : accumulate_xor a a = 0.
Proof.
  induction a as [|x a IH]; [reflexivity|].
  cbn [accumulate_xor]. now rewrite Z.lxor_nilpotent, IH.
Qed.

Lemma accumulate_xor_eq (a b : string) :
  String.length a = String.length b -> accumulate_xor a b = 0 -> a = b.
Proof.
  revert b. induction a as [|x a IH]; intros [|y b] Hlen Hacc;
    try reflexivity; try discriminate.
  cbn [accumulate_xor] in Hacc. apply Z.lor_eq_0_iff in Hacc as [Hxy Hrest].
  apply Z.lxor_eq, codeZ_inj in Hxy. subst y.
  f_equal. apply IH; [now injection Hlen|exact Hrest].
Qed.

(** The accumulating comparison decides equality of the two texts. *)
Lemma timingSafeEqual_iff (a b : string) : timingSafeEqual a b = true <-> a = b.
Proof.
  unfold timingSafeEqual. rewrite andb_true_iff, !Z.eqb_eq. split.
  - intros [Hlen Hacc]. apply accumulate_xor_eq; [lia|exact Hacc].
  - intros ->. split; [reflexivity|apply accumulate_xor_refl].
Qed.

Lemma verifyRequest_accepts digest secret payload :
  verifyRequest digest secret payload (digest secret payload) = Ok payload.
Proof.
  unfold verifyRequest.
  now rewrite (proj2 (timingSafeEqual_iff _ _) eq_refl).
Qed.

Lemma verifyRequest_rejects digest secret payload signature :
  signature <> digest secret payload ->
  verifyRequest digest secret payload signature = Throw Rejected.
Proof.
  intros Hne. unfold verifyRequest.
  destruct (timingSafeEqual (digest secret payload) signature) eqn:E; [|reflexivity].
  apply timingSafeEqual_iff in E. congruence.
Qed.

(** C1.  With the signature computed over the payload under the configured
    secret, verification succeeds and hands back the very payload bytes;
    whatever it answers, a successful answer is the payload it was given, and
    calling it from a handler leaves both tables as they were. *)
Theorem verify_accepts_correct_signature
    (digest : list byte -> list byte -> string) (secret payload : list byte) :
  verifyRequest digest secret payload (digest secret payload) = Ok payload
  /\ (forall signature returned,
        verifyRequest digest secret payload signature = Ok returned ->
        returned = payload /\ signature = digest secret payload)
  /\ (forall req w,
        leaderboard (fst (verify digest secret req w)) = leaderboard w
        /\ feedback (fst (verify digest secret req w)) = feedback w).
Proof.
  split; [apply verifyRequest_accepts|]. split.
  - intros signature returned. unfold verifyRequest.
    destruct (timingSafeEqual (digest secret payload) signature) eqn:E;
      [|discriminate].
    apply timingSafeEqual_iff in E. intros [= <-]. now split.
  - intros req w. unfold verify, mbind, M_bind, log, lift. cbn. now split.
Qed.

(** ** The table *)

Module StoreFacts.

Lemma has_true col v (r : row) : has col v r = true <-> r !! col = Some v.
Proof. unfold has. apply bool_decide_eq_true. Qed.

Lemma has_false col v (r : row) : has col v r = false <-> r !! col <> Some v.
Proof. unfold has. apply bool_decide_eq_false. Qed.

Lemma split_first_Some p s b r a :
  split_first p s = Some (b, r, a) ->
  s = b ++ r :: a /\ p r = true /\ Forall (fun x => p x = false) b.
Proof.
  revert b. induction s as [|x s IH]; intros b; cbn [split_first]; [discriminate|].
  destruct (p x) eqn:Hpx.
  - intros [= <- <- <-]. repeat split; [exact Hpx|constructor].
  - destruct (split_first p s) as [[[b' r'] a']|]; [|discriminate].
    intros [= <- <- <-]. destruct (IH b' eq_refl) as (-> & Hr & Hb).
    repeat split; [exact Hr|]. constructor; assumption.
Qed.

Lemma split_first_None p s :
  split_first p s = None -> Forall (fun x => p x = false) s.
Proof.
  induction s as [|x s IH]; cbn [split_first]; [constructor|].
  destruct (p x) eqn:Hpx; [discriminate|].
  destruct (split_first p s) as [[[b r] a]|]; [discriminate|].
  intros _. constructor; [exact Hpx|now apply IH].
Qed.

Lemma split_first_at p b r a :
  Forall (fun x => p x = false) b -> p r = true ->
  split_first p (b ++ r :: a) = Some (b, r, a).
Proof.
  intros Hb Hr. induction Hb as [|x b Hx Hb IH]; cbn [split_first app].
  - now rewrite Hr.
  - now rewrite Hx, IH.
Qed.

Lemma split_first_absent p s :
  Forall (fun x => p x = false) s -> split_first p s = None.
Proof.
  induction 1 as [|x s Hx Hs IH]; cbn [split_first]; [reflexivity|].
  now rewrite Hx, IH.
Qed.

Lemma find_split_first p s :
  List.find p s = match split_first p s with
                  | Some (_, r, _) => Some r
                  | None => None
                  end.
Proof.
  induction s as [|x s IH]; cbn [List.find split_first]; [reflexivity|].
  destruct (p x); [reflexivity|]. rewrite IH.
  now destruct (split_first p s) as [[[b r] a]|].
Qed.

Lemma column_middle col b (r : row) a :
  column col (b ++ r :: a) ≡ₚ (r !! col) :: column col (b ++ a).
Proof.
  unfold column. rewrite !fmap_app, fmap_cons. symmetry. apply Permutation_middle.
Qed.

Lemma NoDup_column_middle col b (r : row) a :
  NoDup (column col (b ++ r :: a))
  <-> ((r !! col ∉ column col (b ++ a)) /\ NoDup (column col (b ++ a))).
Proof. rewrite column_middle. apply NoDup_cons. Qed.

Lemma elem_of_column_middle col b (r : row) a x :
  x ∈ column col (b ++ r :: a) <-> x = r !! col \/ x ∈ column col (b ++ a).
Proof. rewrite column_middle. apply elem_of_cons. Qed.

Lemma column_replace col b (r r' : row) a :
  r' !! col = r !! col -> column col (b ++ r' :: a) = column col (b ++ r :: a).
Proof.
  intros H. unfold column. rewrite !fmap_app, !fmap_cons. now rewrite H.
Qed.

Lemma absent_has col v s :
  Some v ∉ column col s -> Forall (fun x => has col v x = false) s.
Proof.
  intros Hnot. apply Forall_forall. intros x Hx. apply has_false. intros Heq.
  apply Hnot. unfold column. apply list_elem_of_fmap. exists x. split; [now symmetry|].
  exact Hx.
Qed.

Lemma has_absent col v s :
  Forall (fun x => has col v x = false) s -> Some v ∉ column col s.
Proof.
  intros Hall Hin. unfold column in Hin.
  apply list_elem_of_fmap in Hin as (x & Heq & Hx).
  rewrite Forall_forall in Hall. specialize (Hall x Hx).
  apply has_false in Hall. congruence.
Qed.

Lemma conflicts_iff (r : row) others :
  conflicts r others = false
  <-> ((r !! "id" ∉ column "id" others) /\ (r !! "device_id" ∉ column "device_id" others)).
Proof.
  unfold conflicts, unique_columns, column. rewrite <- not_true_iff_false.
  rewrite existsb_exists. split.
  - intros Hnone. split; intros Hin;
      apply list_elem_of_fmap in Hin as (o & Heq & Ho); apply Hnone;
      exists o; (split; [now apply list_elem_of_In|]);
      cbn [existsb]; unfold same_key;
      rewrite (bool_decide_eq_true_2 _ (eq_sym Heq)).
    + reflexivity.
    + apply orb_true_r.
  - intros [Hid Hkey] (o & Ho & Hsame). apply list_elem_of_In in Ho.
    cbn [existsb] in Hsame. unfold same_key in Hsame.
    rewrite orb_false_r in Hsame. apply orb_true_iff in Hsame as [H|H];
      apply bool_decide_eq_true in H.
    + apply Hid, list_elem_of_fmap. now exists o.
    + apply Hkey, list_elem_of_fmap. now exists o.
Qed.

Lemma conflicts_false (r : row) others :
  r !! "id" ∉ column "id" others ->
  r !! "device_id" ∉ column "device_id" others ->
  conflicts r others = false.
Proof. intros. now apply conflicts_iff. Qed.

(** An update addressed by a unique column changes the one row that
    carries the value, where it stands. *)
Lemma update_unique col v data b (r : row) a :
  r !! col = Some v ->
  NoDup (column col (b ++ r :: a)) ->
  conflicts (data ∪ r) (b ++ a) = false ->
  db_update col v data (b ++ r :: a) = Ok (b ++ (data ∪ r) :: a).
Proof.
  intros Hr Hnd Hfree. unfold db_update.
  apply NoDup_column_middle in Hnd as [Hnot _]. rewrite Hr in Hnot.
  apply absent_has in Hnot. apply Forall_app in Hnot as [Hb _].
  rewrite (split_first_at _ b r a Hb (proj2 (has_true col v r) Hr)).
  cbn zeta. now rewrite Hfree.
Qed.

Lemma count_key_absent k s : ~ present k s -> count_key k s = 0%nat.
Proof.
  intros Hnot. unfold count_key. apply absent_has in Hnot.
  induction Hnot as [|x s Hx Hs IH]; [reflexivity|].
  cbn [List.filter]. now rewrite Hx.
Qed.

Lemma count_key_present k s :
  NoDup (column "device_id" s) -> present k s -> count_key k s = 1%nat.
Proof.
  intros Hnd Hin. unfold present, column in Hin.
  apply list_elem_of_fmap in Hin as (r & Hr & Hrs).
  apply list_elem_of_split in Hrs as (b & a & ->).
  apply NoDup_column_middle in Hnd as [Hnot _]. rewrite <- Hr in Hnot.
  apply absent_has in Hnot. apply Forall_app in Hnot as [Hb Ha].
  unfold count_key. rewrite List.filter_app. cbn [List.filter].
  rewrite (proj2 (has_true "device_id" (Str k) r)) by now symmetry.
  rewrite length_app. cbn [List.length].
  assert (forall l, Forall (fun x => has "device_id" (Str k) x = false) l ->
                    List.filter (has "device_id" (Str k)) l = []) as Hnone.
  { induction 1 as [|x l Hx Hl IH]; [reflexivity|]. cbn. now rewrite Hx. }
  now rewrite (Hnone b Hb), (Hnone a Ha).
Qed.

Lemma present_split k s :
  present k s ->
  exists b r a, s = b ++ r :: a /\ r !! "device_id" = Some (Str k).
Proof.
  unfold present, column. intros Hin.
  apply list_elem_of_fmap in Hin as (r & Hr & Hrs).
  apply list_elem_of_split in Hrs as (b & a & ->). now exists b, r, a.
Qed.

Lemma findFirst_unique col v b (r : row) a :
  r !! col = Some v -> NoDup (column col (b ++ r :: a)) ->
  split_first (has col v) (b ++ r :: a) = Some (b, r, a)
  /\ db_findFirst col v (b ++ r :: a) = Some r.
Proof.
  intros Hr Hnd. apply NoDup_column_middle in Hnd as [Hnot _]. rewrite Hr in Hnot.
  apply absent_has in Hnot. apply Forall_app in Hnot as [Hb _].
  assert (split_first (has col v) (b ++ r :: a) = Some (b, r, a)) as Hsplit
    by (apply split_first_at; [exact Hb|now apply has_true]).
  split; [exact Hsplit|]. unfold db_findFirst. now rewrite find_split_first, Hsplit.
Qed.

Lemma findFirst_absent col v s :
  Some v ∉ column col s ->
  split_first (has col v) s = None /\ db_findFirst col v s = None.
Proof.
  intros Hnot. apply absent_has in Hnot.
  assert (split_first (has col v) s = None) as Hsplit by now apply split_first_absent.
  split; [exact Hsplit|]. unfold db_findFirst. now rewrite find_split_first, Hsplit.
Qed.

Lemma table_ok_middle b (r : row) a :
  table_ok (b ++ r :: a) <->
  ((r !! "id" ∉ column "id" (b ++ a)) /\ (r !! "device_id" ∉ column "device_id" (b ++ a))
   /\ is_Some (r !! "id") /\ table_ok (b ++ a)).
Proof.
  unfold table_ok. rewrite !NoDup_column_middle, !Forall_app, Forall_cons. tauto.
Qed.

(** Renaming the record found under the old key, when the new key is free. *)
Lemma rename_record old new b (od : row) a :
  table_ok (b ++ od :: a) ->
  od !! "device_id" = Some (Str old) ->
  ~ present new (b ++ a) ->
  exists i,
    od !! "id" = Some i
    /\ db_update "id" i {[ "device_id" := Str new ]} (b ++ od :: a)
       = Ok (b ++ <["device_id" := Str new]> od :: a)
    /\ table_ok (b ++ <["device_id" := Str new]> od :: a).
Proof.
  intros Hok Hold Hfree. pose proof Hok as Hok'.
  apply table_ok_middle in Hok' as (Hid & Hkey & [i Hi] & Hrest).
  exists i. split; [exact Hi|].
  assert (<["device_id" := Str new]> od !! "id" = od !! "id") as Hsame
    by (now rewrite lookup_insert_ne).
  split.
  - rewrite insert_union_singleton_l. apply update_unique; [exact Hi|apply Hok|].
    rewrite <- insert_union_singleton_l. apply conflicts_false.
    + now rewrite Hsame.
    + now rewrite lookup_insert_eq.
  - apply table_ok_middle. rewrite Hsame, lookup_insert_eq.
    split; [exact Hid|]. split; [exact Hfree|]. split; [now exists i|exact Hrest].
Qed.

End StoreFacts.

(** ** The second revision's writes *)

Module Rev2Facts.
Import StoreFacts Rev2.

(** Unfolds the monadic glue of a handler applied to a world. *)
Ltac run_monad :=
  unfold mbind, M_bind, mret, M_ret, throw, lift, log, console_error,
    findFirst, update, create, findMany_desc, try_catch;
  cbn [leaderboard feedback trace fst snd].

Lemma migrate_run old new w :
  table_ok (leaderboard w) -> old <> new ->
  ~ (present old (leaderboard w) /\ present new (leaderboard w)) ->
  exists w1,
    migrate old new w = (w1, Ok tt)
    /\ feedback w1 = feedback w
    /\ leaderboard w1 = Concurrent.migrated old new (leaderboard w)
    /\ table_ok (leaderboard w1)
    /\ ~ present old (leaderboard w1)
    /\ (present new (leaderboard w1)
        <-> present old (leaderboard w) \/ present new (leaderboard w))
    /\ column "id" (leaderboard w1) = column "id" (leaderboard w)
    /\ (~ present old (leaderboard w) -> leaderboard w1 = leaderboard w).
Proof.
  destruct w as [s fb tr]. cbn [leaderboard]. intros Hok Hne Hboth.
  destruct (decide (present old s)) as [Hold|Hold].
  - assert (~ present new s) as Hnew by tauto.
    destruct (present_split _ _ Hold) as (b & od & a & -> & Hod).
    destruct (findFirst_unique "device_id" (Str old) b od a Hod (proj1 (proj2 Hok)))
      as [Hsplit Hfind].
    assert (~ present new (b ++ a)) as Hfree.
    { intros Hin. apply Hnew. unfold present in *.
      apply elem_of_column_middle. now right. }
    destruct (rename_record old new b od a Hok Hod Hfree) as (i & Hi & Hupd & Hok').
    eexists. unfold migrate. run_monad. rewrite Hfind, Hi. run_monad. rewrite Hupd.
    split; [reflexivity|]. cbn [leaderboard feedback].
    unfold Concurrent.migrated. rewrite Hsplit, <- insert_union_singleton_l.
    split; [reflexivity|]. split; [reflexivity|]. split; [exact Hok'|].
    apply table_ok_middle in Hok as (_ & Hkey & _ & _). rewrite Hod in Hkey.
    split; [|split; [|split]].
    + unfold present. rewrite elem_of_column_middle, lookup_insert_eq.
      intros [[= Heq]|Hin]; [now apply Hne|now apply Hkey].
    + split; [tauto|]. intros _. unfold present.
      apply elem_of_column_middle. left. now rewrite lookup_insert_eq.
    + apply column_replace. now rewrite lookup_insert_ne.
    + intros Habs. now destruct Habs.
  - destruct (findFirst_absent "device_id" (Str old) s Hold) as [Hsplit Hfind].
    eexists. unfold migrate. run_monad. rewrite Hfind.
    split; [reflexivity|]. cbn [leaderboard feedback].
    unfold Concurrent.migrated. rewrite Hsplit.
    split; [reflexivity|]. split; [reflexivity|]. split; [exact Hok|].
    split; [exact Hold|]. split; [tauto|]. split; reflexivity.
Qed.

Lemma union_keeps (upd r : row) col : upd !! col = None -> (upd ∪ r) !! col = r !! col.
Proof. intros H. now apply lookup_union_r. Qed.

Lemma identities_replace b (r r' : row) a :
  r' !! "id" = r !! "id" -> r' !! "device_id" = r !! "device_id" ->
  identities (b ++ r' :: a) = identities (b ++ r :: a).
Proof.
  intros Hid Hkey. unfold identities. rewrite !fmap_app, !fmap_cons.
  now rewrite Hid, Hkey.
Qed.

Lemma upsert_run new upd crt w :
  table_ok (leaderboard w) ->
  upd !! "id" = None -> upd !! "device_id" = None ->
  crt !! "device_id" = Some (Str new) -> is_Some (crt !! "id") ->
  (~ present new (leaderboard w) -> crt !! "id" ∉ column "id" (leaderboard w)) ->
  exists w1,
    upsert new upd crt w = (w1, Ok tt)
    /\ feedback w1 = feedback w
    /\ table_ok (leaderboard w1)
    /\ present new (leaderboard w1)
    /\ (forall k, k <> new ->
         (present k (leaderboard w1) <-> present k (leaderboard w)))
    /\ (present new (leaderboard w) ->
        exists b r a,
          leaderboard w = b ++ r :: a /\ r !! "device_id" = Some (Str new)
          /\ leaderboard w1 = b ++ (upd ∪ r) :: a)
    /\ (~ present new (leaderboard w) -> leaderboard w1 = leaderboard w ++ [crt]).
Proof.
  destruct w as [s fb tr]. cbn [leaderboard].
  intros Hok Hupd_id Hupd_key Hcrt_key Hcrt_id Hfresh.
  destruct (decide (present new s)) as [Hnew|Hnew].
  - destruct (present_split _ _ Hnew) as (b & r & a & -> & Hr).
    destruct (findFirst_unique "device_id" (Str new) b r a Hr (proj1 (proj2 Hok)))
      as [_ Hfind].
    pose proof (union_keeps upd r "id" Hupd_id) as Hid.
    pose proof (union_keeps upd r "device_id" Hupd_key) as Hkey.
    pose proof Hok as Hok'. apply table_ok_middle in Hok' as (H1 & H2 & H3 & H4).
    assert (db_update "device_id" (Str new) upd (b ++ r :: a)
            = Ok (b ++ (upd ∪ r) :: a)) as Hdb.
    { apply update_unique; [exact Hr|apply Hok|].
      apply conflicts_false; [now rewrite Hid|now rewrite Hkey]. }
    eexists. unfold upsert. run_monad. rewrite Hfind. run_monad. rewrite Hdb.
    split; [reflexivity|]. cbn [leaderboard feedback]. split; [reflexivity|].
    split; [|split; [|split; [|split]]].
    + apply table_ok_middle. rewrite Hid, Hkey.
      split; [exact H1|]. split; [exact H2|]. split; [exact H3|exact H4].
    + unfold present. now rewrite (column_replace _ _ r) by exact Hkey.
    + intros k _. unfold present. now rewrite (column_replace _ _ r) by exact Hkey.
    + intros _. now exists b, r, a.
    + intros Habs. now destruct Habs.
  - destruct (findFirst_absent "device_id" (Str new) s Hnew) as [_ Hfind].
    assert (db_create crt s = Ok (s ++ [crt])) as Hdb.
    { unfold db_create. rewrite conflicts_false; [reflexivity|now apply Hfresh|].
      now rewrite Hcrt_key. }
    eexists. unfold upsert. run_monad. rewrite Hfind. run_monad. rewrite Hdb.
    split; [reflexivity|]. cbn [leaderboard feedback]. split; [reflexivity|].
    assert (forall col, column col (s ++ [crt]) = column col s ++ [crt !! col]) as Hcol
      by (intros col; unfold column; now rewrite fmap_app).
    split; [|split; [|split; [|split]]].
    + destruct Hok as (Hids & Hkeys & Hall). unfold table_ok. rewrite !Hcol.
      split; [|split].
      * apply NoDup_app. split; [exact Hids|]. split; [|apply NoDup_singleton].
        intros x Hx Hin. apply list_elem_of_singleton in Hin. subst x.
        now apply (Hfresh Hnew).
      * apply NoDup_app. split; [exact Hkeys|]. split; [|apply NoDup_singleton].
        intros x Hx Hin. apply list_elem_of_singleton in Hin. subst x.
        rewrite Hcrt_key in Hx. now apply Hnew.
      * apply Forall_app. split; [exact Hall|]. now constructor.
    + unfold present. rewrite Hcol, Hcrt_key. apply elem_of_app. right.
      now apply list_elem_of_singleton.
    + intros k Hk. unfold present. rewrite Hcol, Hcrt_key, elem_of_app.
      rewrite list_elem_of_singleton. split; [|tauto].
      intros [H|[= H]]; [exact H|now destruct Hk].
    + intros Habs. now destruct Hnew.
    + reflexivity.
Qed.

Section Handler.

Variable digest : list byte -> list byte -> string.
Variable secret : list byte.
Variable trackingValidation : list byte -> option tracking.
Variable macAddressToUint8Array : string -> list byte.

Local Abbreviation track :=
  (Rev2.track digest secret trackingValidation macAddressToUint8Array).
Local Abbreviation accepted := (Rev2.accepted digest secret trackingValidation).

Lemma verify_accepted req w payload :
  x_signature req = Some (digest secret payload) ->
  payload = Buffer.from_base64 (rawBody req) ->
  verify digest secret req w
  = (World (leaderboard w) (feedback w) (trace w ++ [EvVerify]), Ok payload).
Proof.
  intros Hsig ->. unfold verify. run_monad. rewrite Hsig. cbn [default].
  now rewrite verifyRequest_accepts.
Qed.

Lemma verify_rejected req w signature :
  x_signature req = Some signature ->
  signature <> digest secret (Buffer.from_base64 (rawBody req)) ->
  verify digest secret req w
  = (World (leaderboard w) (feedback w) (trace w ++ [EvVerify]), Throw Rejected).
Proof.
  intros Hsig Hne. unfold verify. run_monad. rewrite Hsig. cbn [default].
  now rewrite verifyRequest_rejects.
Qed.

Lemma update_data_id t date ip ev req : update_data t date ip ev req !! "id" = None.
Proof. unfold update_data, opt_column. now destruct (user req). Qed.

Lemma update_data_key t date ip ev req :
  update_data t date ip ev req !! "device_id" = None.
Proof. unfold update_data, opt_column. now destruct (user req). Qed.

Lemma create_data_id t date ip ev req new :
  create_data t date ip ev req new !! "id" = Some (Str (pika_gen ev)).
Proof. unfold create_data, opt_column. now destruct (user req). Qed.

Lemma create_data_key t date ip ev req new :
  create_data t date ip ev req new !! "device_id" = Some (Str new).
Proof. unfold create_data, opt_column. now destruct (user req). Qed.

(** An accepted submission reaches the table, and the two writes leave it
    with the device under its current key only. *)
Lemma track_accepted req ev w t old date :
  accepted req t ->
  oldGeneratedDeviceId macAddressToUint8Array (device_mac t) = Some old ->
  Date_of_seconds (device_dob t) = Some date ->
  let new := generatedDeviceId (device_mac t) in
  let upd := update_data t date (client_ip req) ev req in
  let crt := create_data t date (client_ip req) ev req new in
  old <> new ->
  table_ok (leaderboard w) ->
  ~ (present old (leaderboard w) /\ present new (leaderboard w)) ->
  (~ present old (leaderboard w) -> ~ present new (leaderboard w) ->
   Some (Str (pika_gen ev)) ∉ column "id" (leaderboard w)) ->
  exists w1 sent,
    track req ev w = (w1, Ok (Sent 200 sent))
    /\ feedback w1 = feedback w
    /\ table_ok (leaderboard w1)
    /\ present new (leaderboard w1)
    /\ ~ present old (leaderboard w1)
    /\ (present new (Concurrent.migrated old new (leaderboard w)) ->
        exists b r a,
          Concurrent.migrated old new (leaderboard w) = b ++ r :: a
          /\ r !! "device_id" = Some (Str new)
          /\ leaderboard w1 = b ++ (upd ∪ r) :: a)
    /\ (~ present old (leaderboard w) -> ~ present new (leaderboard w) ->
        leaderboard w1 = leaderboard w ++ [crt]).
Proof.
  intros (Htruthy & Hsig & Hvalid) Hold Hdate new upd crt Hne Hok Hboth Hfresh.
  unfold Rev2.track. rewrite Htruthy. cbn [negb].
  unfold mbind at 1, M_bind at 1. rewrite (verify_accepted req w _ Hsig eq_refl).
  set (w0 := World (leaderboard w) (feedback w) (trace w ++ [EvVerify])).
  unfold try_catch, parse. rewrite Hvalid.
  unfold mbind at 1, M_bind at 1, mret at 1, M_ret at 1.
  rewrite Hold, Hdate. fold new upd crt.
  unfold store_phase.
  destruct (migrate_run old new w0 Hok Hne Hboth)
    as (w1 & Hmig & Hfb1 & Hs1 & Hok1 & Hold1 & Hnew1 & Hids1 & Hsame1).
  destruct (upsert_run new upd crt w1 Hok1
              (update_data_id _ _ _ _ _) (update_data_key _ _ _ _ _)
              (create_data_key _ _ _ _ _ _)
              (ex_intro _ _ (create_data_id _ _ _ _ _ _)))
    as (w2 & Hups & Hfb2 & Hok2 & Hnew2 & Hother2 & Hupd2 & Hcrt2).
  { intros Hno. unfold crt. rewrite create_data_id, Hids1. cbn [leaderboard].
    rewrite Hnew1 in Hno. cbn [leaderboard] in Hno. apply Hfresh; tauto. }
  unfold mbind, M_bind. rewrite Hmig, Hups.
  unfold respond, findMany_desc, mbind, M_bind, mret, M_ret.
  eexists _, _. split; [reflexivity|]. cbn [leaderboard feedback].
  split; [now rewrite Hfb2, Hfb1|]. split; [exact Hok2|]. split; [exact Hnew2|].
  split; [|split].
  - rewrite (Hother2 old Hne). exact Hold1.
  - change (leaderboard w) with (leaderboard w0). rewrite <- Hs1. exact Hupd2.
  - intros Hno_old Hno_new. rewrite Hcrt2, (Hsame1 Hno_old); [reflexivity|].
    rewrite Hnew1. cbn [leaderboard]. tauto.
Qed.

Lemma migrated_absent old new s :
  ~ present old s -> Concurrent.migrated old new s = s.
Proof.
  intros Hno. unfold Concurrent.migrated.
  now rewrite (proj1 (findFirst_absent "device_id" (Str old) s Hno)).
Qed.

(** Once the device is stored under its current key only, every further
    submission keeps the identities of all rows. *)
Lemma later_submissions mac old l :
  oldGeneratedDeviceId macAddressToUint8Array mac = Some old ->
  old <> generatedDeviceId mac ->
  Forall (fun p => Rev2.valid_submission digest secret trackingValidation mac p.1) l ->
  forall w,
    table_ok (leaderboard w) ->
    present (generatedDeviceId mac) (leaderboard w) ->
    ~ present old (leaderboard w) ->
    let r := Rev2.submissions digest secret trackingValidation
               macAddressToUint8Array l w in
    table_ok (leaderboard r.1)
    /\ present (generatedDeviceId mac) (leaderboard r.1)
    /\ ~ present old (leaderboard r.1)
    /\ identities (leaderboard r.1) = identities (leaderboard w)
    /\ Forall replied_200 r.2.
Proof.
  intros Hold Hne Hall. induction Hall as [|[req ev] l Hv Hall IH];
    intros w Hok Hnew Hno_old.
  - cbn. split; [exact Hok|]. split; [exact Hnew|]. split; [exact Hno_old|].
    split; [reflexivity|constructor].
  - destruct Hv as (t & date & Hacc & Hmac & Hdate). cbn [fst] in Hacc.
    rewrite <- Hmac in Hold, Hne, Hnew.
    destruct (track_accepted req ev w t old date Hacc Hold Hdate Hne Hok)
      as (w1 & sent & Htrack & _ & Hok1 & Hnew1 & Hold1 & Hupd & _);
      [tauto|tauto|].
    rewrite migrated_absent in Hupd by exact Hno_old.
    destruct (Hupd Hnew) as (b & r & a & Hs & Hr & Hs1).
    rewrite Hmac in *.
    cbn [Rev2.submissions]. rewrite Htrack.
    specialize (IH w1 Hok1 Hnew1 Hold1). cbn zeta in IH.
    destruct (Rev2.submissions _ _ _ _ l w1) as [w2 rs] eqn:Hrest.
    cbn [fst snd] in *. destruct IH as (H1 & H2 & H3 & H4 & H5).
    split; [exact H1|]. split; [exact H2|]. split; [exact H3|]. split.
    + rewrite H4, Hs1, Hs. apply identities_replace; apply union_keeps.
      * apply update_data_id.
      * apply update_data_key.
    + constructor; [now exists sent|exact H5].
Qed.

End Handler.

End Rev2Facts.

(** C5.  Take a device whose MAC is written with a colon and yields a
    legacy key, and a table that honours its unique columns and does not
    hold the device under both keys at once.  After any number (at least
    one) of accepted submissions from that device, run one after the other,
    the table holds exactly one row under the current key and none under the
    legacy key; the identities of its rows are those left by the first
    submission (later ones add, remove and re-key nothing), and every
    submission is answered 200. *)
Theorem migration_idempotent
    (digest : list byte -> list byte -> string) (secret : list byte)
    (trackingValidation : list byte -> option Rev2.tracking)
    (macAddressToUint8Array : string -> list byte)
    (mac old : string) (first : request * env) (rest : list (request * env))
    (w : world) :
  let new := generatedDeviceId mac in
  let submit := Rev2.submissions digest secret trackingValidation
                  macAddressToUint8Array in
  oldGeneratedDeviceId macAddressToUint8Array mac = Some old ->
  In ":"%char (list_ascii_of_string mac) ->
  table_ok (leaderboard w) ->
  ~ (present old (leaderboard w) /\ present new (leaderboard w)) ->
  Forall (fun p => Rev2.valid_submission digest secret trackingValidation mac p.1)
    (first :: rest) ->
  Some (Str (pika_gen first.2)) ∉ column "id" (leaderboard w) ->
  count_key new (leaderboard (submit (first :: rest) w).1) = 1%nat
  /\ count_key old (leaderboard (submit (first :: rest) w).1) = 0%nat
  /\ identities (leaderboard (submit (first :: rest) w).1)
     = identities (leaderboard (submit [first] w).1)
  /\ Forall replied_200 (submit (first :: rest) w).2.
Proof.
  intros new submit Hold Hcolon Hok Hboth Hall Hfresh.
  pose proof (KeyFacts.keys_differ _ _ _ Hcolon Hold) as Hne. fold new in Hne.
  apply Forall_cons in Hall as [Hfirst Hrest]. destruct first as [req ev].
  destruct Hfirst as (t & date & Hacc & Hmac & Hdate). cbn [fst snd] in *.
  pose proof Hold as Hold'. pose proof Hne as Hne'. pose proof Hboth as Hboth'.
  unfold new in Hne', Hboth'. rewrite <- Hmac in Hold', Hne', Hboth'.
  destruct (Rev2Facts.track_accepted digest secret trackingValidation
              macAddressToUint8Array req ev w t old date Hacc Hold' Hdate Hne' Hok Hboth')
    as (w1 & sent & Htrack & _ & Hok1 & Hnew1 & Hold1 & _); [auto|].
  rewrite Hmac in Hnew1.
  pose proof (Rev2Facts.later_submissions digest secret trackingValidation
                macAddressToUint8Array mac old rest Hold Hne Hrest w1 Hok1 Hnew1 Hold1)
    as Hlater. cbn zeta in Hlater.
  unfold submit. cbn [Rev2.submissions]. rewrite Htrack.
  destruct (Rev2.submissions _ _ _ _ rest w1) as [w2 rs]. cbn [fst snd] in *.
  destruct Hlater as (Hok2 & Hnew2 & Hold2 & Hident & Hreplies).
  split; [apply StoreFacts.count_key_present; [apply Hok2|exact Hnew2]|].
  split; [now apply StoreFacts.count_key_absent|].
  split; [exact Hident|]. constructor; [now exists sent|exact Hreplies].
Qed.

Lemma sample_table_ok : table_ok (leaderboard Sample.legacy_world).
Proof.
  unfold table_ok, column. cbn.
  split; [|split]; [apply NoDup_ListNoDup .. |];
    repeat constructor; cbn; try (intros H; intuition discriminate); eauto.
Qed.

Lemma sample_valid ip :
  Rev2.valid_submission Sample.digest Sample.secret Sample.trackingValidation
    Sample.mac (Sample.signed ip).
Proof.
  eexists _, _. split; [|split].
  - unfold Rev2.accepted. cbn [Sample.signed x_signature rawBody].
    unfold Sample.body64. rewrite Base64Facts.from_base64_toString.
    split; [reflexivity|]. split; reflexivity.
  - reflexivity.
  - reflexivity.
Qed.

Lemma migration_idempotent_witness :
  count_key Sample.currentKey
    (leaderboard (Rev2.submissions Sample.digest Sample.secret
                    Sample.trackingValidation colon_hex_bytes
                    Sample.three_submissions Sample.legacy_world).1) = 1%nat
  /\ count_key Sample.legacyKey
       (leaderboard (Rev2.submissions Sample.digest Sample.secret
                       Sample.trackingValidation colon_hex_bytes
                       Sample.three_submissions Sample.legacy_world).1) = 0%nat.
Proof.
  destruct (migration_idempotent Sample.digest Sample.secret
              Sample.trackingValidation colon_hex_bytes
              Sample.mac Sample.legacyKey
              (Sample.signed "203.0.113.1", Sample.env1)
              [(Sample.signed "203.0.113.2", Sample.env2);
               (Sample.signed "203.0.113.3", Sample.env3)]
              Sample.legacy_world) as (H1 & H2 & _).
  - vm_compute. reflexivity.
  - cbn. tauto.
  - exact sample_table_ok.
  - intros [_ Hnew]. unfold present, column in Hnew. cbn in Hnew.
    apply list_elem_of_In in Hnew. cbn in Hnew. intuition discriminate.
  - repeat constructor; apply sample_valid.
  - unfold column. cbn. intros Hin. apply list_elem_of_In in Hin. cbn in Hin.
    intuition discriminate.
  - split; [exact H1|exact H2].
Defined.

(** ** The update of a known device *)





(** ** Replies to unsigned, forged and malformed requests *)

Module Rev1Facts.

Section Handler.

Variable digest : list byte -> list byte -> string.
Variable secret : list byte.
Variable trackingValidation : list byte -> option Rev1.tracking.
Variable toString_utf8 : list byte -> string.
Variable Date_of_Number : string -> option Z.
Variable toISOString : Z -> string.

Local Abbreviation track :=
  (Rev1.track digest secret trackingValidation toString_utf8 Date_of_Number
     toISOString).

Lemma track1_unsigned req ev w :
  truthy (x_signature req) = false ->
  track req ev w = (w, Ok (Sent 400 (Code "invalid_tracking_data"))).
Proof. intros H. unfold Rev1.track. now rewrite H. Qed.

Lemma track1_forged req ev w signature :
  x_signature req = Some signature -> truthy (Some signature) = true ->
  signature <> digest secret (Buffer.from_base64 (rawBody req)) ->
  track req ev w = (logged w [EvVerify], Throw Rejected).
Proof.
  intros Hsig Htruthy Hne. unfold Rev1.track. rewrite Hsig, Htruthy. cbn [negb].
  unfold mbind at 1, M_bind at 1.
  now rewrite (Rev2Facts.verify_rejected digest secret req w signature Hsig Hne).
Qed.


End Handler.

End Rev1Facts.

Module RepliesFacts.

Section Handler.

Variable digest : list byte -> list byte -> string.
Variable secret : list byte.
Variable trackingValidation : list byte -> option Rev2.tracking.
Variable feedbackValidation : list byte -> option scalar.
Variable macAddressToUint8Array : string -> list byte.

Lemma track_unsigned req ev w :
  truthy (x_signature req) = false ->
  Rev2.track digest secret trackingValidation macAddressToUint8Array req ev w
  = (w, Ok (Sent 400 (Code "invalid_tracking_data"))).
Proof. intros H. unfold Rev2.track. now rewrite H. Qed.

Lemma track_forged req ev w signature :
  x_signature req = Some signature -> truthy (Some signature) = true ->
  signature <> digest secret (Buffer.from_base64 (rawBody req)) ->
  Rev2.track digest secret trackingValidation macAddressToUint8Array req ev w
  = (logged w [EvVerify], Throw Rejected).
Proof.
  intros Hsig Htruthy Hne. unfold Rev2.track. rewrite Hsig, Htruthy. cbn [negb].
  unfold mbind at 1, M_bind at 1.
  now rewrite (Rev2Facts.verify_rejected digest secret req w signature Hsig Hne).
Qed.

Lemma feedback_forged req ev w signature :
  x_signature req = Some signature -> truthy (Some signature) = true ->
  signature <> digest secret (Buffer.from_base64 (rawBody req)) ->
  Rev2.feedback_route digest secret feedbackValidation req ev w
  = (logged w [EvVerify; EvConsoleError Rejected],
     Ok (Sent 500 (Failure "internal_error"))).
Proof.
  intros Hsig Htruthy Hne. unfold Rev2.feedback_route, try_catch.
  rewrite Hsig, Htruthy. cbn [negb]. unfold mbind at 1, M_bind at 1.
  rewrite (Rev2Facts.verify_rejected digest secret req w signature Hsig Hne).
  unfold logged, console_error, log, mbind, M_bind, mret, M_ret.
  cbn [leaderboard feedback trace]. now rewrite <- app_assoc.
Qed.

End Handler.

End RepliesFacts.

(** C8.  A request whose signature header is absent (or empty) is answered
    400 with the code [invalid_tracking_data] by both revisions of the
    handler, and the world is left exactly as it was: the trace of effects
    gains nothing, so neither the verification nor any read or write of the
    table took place. *)
Theorem missing_signature_rejected
    (digest : list byte -> list byte -> string) (secret : list byte)
    (trackingValidation : list byte -> option Rev2.tracking)
    (macAddressToUint8Array : string -> list byte)
    (trackingValidation1 : list byte -> option Rev1.tracking)
    (toString_utf8 : list byte -> string)
    (Date_of_Number : string -> option Z) (toISOString : Z -> string)
    (req : request) (ev : env) (w : world) :
  truthy (x_signature req) = false ->
  Rev2.track digest secret trackingValidation macAddressToUint8Array req ev w
  = (w, Ok (Sent 400 (Code "invalid_tracking_data")))
  /\ Rev1.track digest secret trackingValidation1 toString_utf8 Date_of_Number
       toISOString req ev w
     = (w, Ok (Sent 400 (Code "invalid_tracking_data"))).
Proof.
  intros H. split.
  - now apply RepliesFacts.track_unsigned.
  - now apply Rev1Facts.track1_unsigned.
Qed.

Lemma missing_signature_rejected_witness :
  x_signature Sample.unsigned = None
  /\ Rev2.track Sample.digest Sample.secret Sample.trackingValidation
       colon_hex_bytes Sample.unsigned Sample.env1 Sample.legacy_world
     = (Sample.legacy_world, Ok (Sent 400 (Code "invalid_tracking_data"))).
Proof.
  split; [reflexivity|].
  apply (missing_signature_rejected Sample.digest Sample.secret
           Sample.trackingValidation colon_hex_bytes
           Sample.trackingValidation1 Sample.text_of Sample.Date_of_Number
           Sample.toISOString Sample.unsigned Sample.env1 Sample.legacy_world).
  reflexivity.
Defined.

(** C2 (as amended).  A signature other than the digest of the body is
    rejected by the verification.  The /track handler of either revision
    does not catch the rejection: it sends no reply, the exception leaves
    the handler, and nothing but the verification has happened (no
    validation, no read, no write).  The /feedback handler catches it, logs
    it and answers 500 with the code [internal_error]. *)
Theorem wrong_signature_escapes
    (digest : list byte -> list byte -> string) (secret : list byte)
    (trackingValidation : list byte -> option Rev2.tracking)
    (feedbackValidation : list byte -> option scalar)
    (macAddressToUint8Array : string -> list byte)
    (trackingValidation1 : list byte -> option Rev1.tracking)
    (toString_utf8 : list byte -> string)
    (Date_of_Number : string -> option Z) (toISOString : Z -> string)
    (req : request) (ev : env) (w : world) (signature : string) :
  x_signature req = Some signature ->
  truthy (Some signature) = true ->
  signature <> digest secret (Buffer.from_base64 (rawBody req)) ->
  verifyRequest digest secret (Buffer.from_base64 (rawBody req)) signature
  = Throw Rejected
  /\ Rev2.track digest secret trackingValidation macAddressToUint8Array req ev w
     = (logged w [EvVerify], Throw Rejected)
  /\ Rev1.track digest secret trackingValidation1 toString_utf8 Date_of_Number
       toISOString req ev w
     = (logged w [EvVerify], Throw Rejected)
  /\ Rev2.feedback_route digest secret feedbackValidation req ev w
     = (logged w [EvVerify; EvConsoleError Rejected],
        Ok (Sent 500 (Failure "internal_error"))).
Proof.
  intros Hsig Htruthy Hne. split; [now apply verifyRequest_rejects|].
  split; [now apply RepliesFacts.track_forged with signature|].
  split; [now apply Rev1Facts.track1_forged with signature|].
  now apply RepliesFacts.feedback_forged with signature.
Qed.

Lemma sample_forged_differs :
  "bm90IHRoZSBzaWduYXR1cmU="
  <> Sample.digest Sample.secret (Buffer.from_base64 (rawBody Sample.forged)).
Proof. vm_compute. intros H. discriminate H. Qed.

Lemma wrong_signature_escapes_witness :
  Rev2.track Sample.digest Sample.secret Sample.trackingValidation
    colon_hex_bytes Sample.forged Sample.env1 Sample.legacy_world
  = (logged Sample.legacy_world [EvVerify], Throw Rejected).
Proof.
  apply (wrong_signature_escapes Sample.digest Sample.secret
           Sample.trackingValidation Sample.feedbackValidation colon_hex_bytes
           Sample.trackingValidation1 Sample.text_of Sample.Date_of_Number
           Sample.toISOString Sample.forged Sample.env1 Sample.legacy_world
           "bm90IHRoZSBzaWduYXR1cmU=");
    [reflexivity|reflexivity|exact sample_forged_differs].
Defined.

(** C2, counterexample: the forged request is not answered with a client
    error by /track (the handler throws instead of replying), and /feedback
    answers it 500 [internal_error]. *)
Lemma wrong_signature_not_client_error :
  client_error
    (Rev2.track Sample.digest Sample.secret Sample.trackingValidation
       colon_hex_bytes Sample.forged Sample.env1 Sample.legacy_world).2 = false
  /\ (Rev2.feedback_route Sample.digest Sample.secret Sample.feedbackValidation
        Sample.forged Sample.env1 Sample.legacy_world).2
     = Ok (Sent 500 (Failure "internal_error")).
Proof. split; vm_compute; reflexivity. Qed.




Example Number_isNaN_examples :
  List.map Number_isNaN
    ["12"; "abc"; ""; " 1e3 "; "0x1F"; "1_0"; "."; "Infinity"; "-Infinity";
     "+.5e-3"; "1e"; "0x"; "- 1"; "12px"; "1."; "0b102"]
  = [false; true; false; false; false; true; true; false; false;
     false; true; true; true; true; false; true].
Proof. vm_compute. reflexivity. Qed.

(** ** Concurrent migrations *)

Module ConcurrentFacts.
Import StoreFacts Concurrent.

Section Race.

Variables (old new : string) (b a : list row) (od : row) (i : scalar).

Hypothesis Hne : old <> new.
Hypothesis Hok : table_ok (b ++ od :: a).
Hypothesis Hod : od !! "device_id" = Some (Str old).
Hypothesis Hi : od !! "id" = Some i.
Hypothesis Hfree : ~ present new (b ++ a).

Local Abbreviation before := (b ++ od :: a).
Local Abbreviation after := (b ++ <["device_id" := Str new]> od :: a).

Lemma after_ok : table_ok after.
Proof.
  destruct (rename_record old new b od a Hok Hod Hfree) as (j & _ & _ & H).
  exact H.
Qed.

Lemma after_is_migrated : migrated old new before = after.
Proof.
  unfold migrated.
  rewrite (proj1 (findFirst_unique "device_id" (Str old) b od a Hod (proj1 (proj2 Hok)))).
  now rewrite <- insert_union_singleton_l.
Qed.

Lemma old_gone : ~ present old after.
Proof.
  pose proof Hok as H. apply table_ok_middle in H as (_ & Hkey & _ & _).
  rewrite Hod in Hkey. unfold present.
  rewrite elem_of_column_middle, lookup_insert_eq.
  intros [[= Heq]|Hin]; [now apply Hne|now apply Hkey].
Qed.

Lemma new_there : present new after.
Proof.
  unfold present. apply elem_of_column_middle. left. now rewrite lookup_insert_eq.
Qed.

Lemma read_before : db_findFirst "device_id" (Str old) before = Some od.
Proof. apply findFirst_unique; [exact Hod|apply Hok]. Qed.

Lemma read_after : db_findFirst "device_id" (Str old) after = None.
Proof. apply findFirst_absent, old_gone. Qed.

Lemma write_before :
  db_update "id" i {[ "device_id" := Str new ]} before = Ok after.
Proof.
  destruct (rename_record old new b od a Hok Hod Hfree) as (j & Hj & Hupd & _).
  rewrite Hi in Hj. injection Hj as <-. exact Hupd.
Qed.

(** The write of a request that read the record before another one
    renamed it: it addresses the row by its id, finds it, and writes the
    key it already has. *)
Lemma write_after :
  db_update "id" i {[ "device_id" := Str new ]} after = Ok after.
Proof.
  pose proof after_ok as Hok'.
  assert (<["device_id" := Str new]> od !! "id" = Some i) as Hid
    by now rewrite lookup_insert_ne.
  rewrite (update_unique "id" i _ b _ a Hid (proj1 Hok')).
  - now rewrite <- insert_union_singleton_l, insert_insert_eq.
  - rewrite <- insert_union_singleton_l, insert_insert_eq.
    apply table_ok_middle in Hok' as (H1 & H2 & _ & _).
    now apply conflicts_false.
Qed.

Local Abbreviation waiting := (Concurrent.waiting od).
Local Abbreviation settled := (Concurrent.settled od).
Local Abbreviation invariant := (Concurrent.invariant new b a od).

Lemma Exists_insert_other {A} (P : A -> Prop) (l : list A) k x y :
  Exists P l -> l !! k = Some x -> ~ P x -> Exists P (<[k := y]> l).
Proof.
  intros Hex Hk Hx. apply Exists_exists in Hex as (z & Hz & Pz).
  apply list_elem_of_lookup in Hz as (j & Hj).
  apply Exists_exists. exists z. split; [|exact Pz].
  apply list_elem_of_lookup. exists j.
  rewrite list_lookup_insert_ne; [exact Hj|]. intros ->.
  rewrite Hk in Hj. injection Hj as ->. now apply Hx.
Qed.

Lemma Exists_insert_here {A} (P : A -> Prop) (l : list A) k x y :
  l !! k = Some x -> P y -> Exists P (<[k := y]> l).
Proof.
  intros Hk Py. apply Exists_exists. exists y. split; [|exact Py].
  apply list_elem_of_lookup. exists k.
  apply list_lookup_insert_eq. now apply lookup_lt_Some with x.
Qed.

Lemma step_invariant c c' :
  invariant c -> step old new c c' -> invariant c'.
Proof.
  intros Hinv Hstep. destruct Hstep as [s ats k x s' x' Hk Hx].
  unfold invariant in *. cbn [fst snd] in *.
  destruct Hinv as [[-> Hall]|(-> & Hall & Hex)].
  - assert (waiting x) as [->| ->]
      by (rewrite Forall_forall in Hall; apply Hall, list_elem_of_lookup; eauto).
    + cbn [attempt_step] in Hx. rewrite read_before in Hx. injection Hx as <- <-.
      left. split; [reflexivity|]. apply Forall_insert; [exact Hall|now right].
    + cbn [attempt_step] in Hx. rewrite Hi, write_before in Hx.
      injection Hx as <- <-. right. split; [reflexivity|]. split.
      * apply Forall_insert; [|right; right; now exists true].
        eapply Forall_impl; [exact Hall|]. intros y [->| ->]; [now left|right; now left].
      * now apply Exists_insert_here with (Found od).
  - assert (settled x) as [->|[->|[r ->]]]
      by (rewrite Forall_forall in Hall; apply Hall, list_elem_of_lookup; eauto).
    + cbn [attempt_step] in Hx. rewrite read_after in Hx. injection Hx as <- <-.
      right. split; [reflexivity|]. split.
      * apply Forall_insert; [exact Hall|right; right; now exists false].
      * now apply Exists_insert_other with Start.
    + cbn [attempt_step] in Hx. rewrite Hi, write_after in Hx.
      injection Hx as <- <-. right. split; [reflexivity|]. split.
      * apply Forall_insert; [exact Hall|right; right; now exists true].
      * now apply Exists_insert_here with (Found od).
    + discriminate Hx.
Qed.

Lemma reachable_invariant c c' :
  invariant c -> rtc (step old new) c c' -> invariant c'.
Proof.
  intros Hinv Hsteps. induction Hsteps as [|c1 c2 c3 Hstep _ IH]; [exact Hinv|].
  apply IH. now apply step_invariant with c1.
Qed.

Lemma step_length c c' : step old new c c' -> List.length c'.2 = List.length c.2.
Proof. intros [s ats k x s' x' _ _]. cbn. apply length_insert. Qed.

Lemma reachable_length c c' :
  rtc (step old new) c c' -> List.length c'.2 = List.length c.2.
Proof.
  induction 1 as [|c1 c2 c3 Hstep _ IH]; [reflexivity|].
  rewrite IH. now apply step_length.
Qed.

End Race.

Lemma run_schedule_reachable old new sched c :
  rtc (step old new) c (run_schedule old new sched c).
Proof.
  revert c. induction sched as [|k sched IH]; intros [s ats]; cbn [run_schedule];
    [apply rtc_refl|]. cbn [fst snd].
  destruct (ats !! k) as [x|] eqn:Hk; [|apply IH].
  destruct (attempt_step old new s x) as [[s' x']|] eqn:Hx; [|apply IH].
  eapply rtc_l; [|apply IH]. now apply step_attempt with x.
Qed.

End ConcurrentFacts.

(** C6 (as amended).  The rename is a read ([findFirst] by the legacy key)
    followed by a separate write ([update] by the id of the row that was
    read).  When [n] requests for the same legacy record run these two steps
    interleaved in any order, every request that read the record before the
    first write renames it and every such write succeeds (at least one
    does, possibly all [n]); the other requests find no legacy record; no
    request fails; and the table ends with the record under the current key
    only. *)
Theorem concurrent_migrations
    (old new : string) (s : list row) (n : nat) (final : Concurrent.config) :
  old <> new ->
  table_ok s ->
  present old s ->
  ~ present new s ->
  (0 < n)%nat ->
  rtc (Concurrent.step old new) (s, replicate n Concurrent.Start) final ->
  Forall (fun x => Concurrent.is_finished x = true) final.2 ->
  final.1 = Concurrent.migrated old new s
  /\ Concurrent.crashes final.2 = 0%nat
  /\ (1 <= Concurrent.renames final.2 <= n)%nat
  /\ count_key new final.1 = 1%nat
  /\ count_key old final.1 = 0%nat.
Proof.
  intros Hne Hok Hold Hnew Hn Hsteps Hdone.
  destruct (StoreFacts.present_split _ _ Hold) as (b & od & a & -> & Hod).
  pose proof Hok as Hok'.
  apply StoreFacts.table_ok_middle in Hok' as (_ & _ & [i Hi] & _).
  assert (~ present new (b ++ a)) as Hfree.
  { intros Hin. apply Hnew. unfold present in *.
    apply StoreFacts.elem_of_column_middle. now right. }
  pose proof (ConcurrentFacts.reachable_length old new _ _ Hsteps) as Hlen.
  cbn [snd] in Hlen. rewrite length_replicate in Hlen.
  assert (Concurrent.invariant new b a od (b ++ od :: a, replicate n Concurrent.Start))
    as Hinit.
  { left. split; [reflexivity|]. cbn [snd]. apply Forall_replicate. now left. }
  pose proof (ConcurrentFacts.reachable_invariant old new b a od i
                Hne Hok Hod Hi Hfree _ _ Hinit Hsteps) as [[_ Hwait]|(Hs & Hall & Hex)].
  - destruct final.2 as [|x ats]; [cbn in Hlen; lia|].
    apply Forall_cons in Hwait as [[->| ->] _];
      apply Forall_cons in Hdone as [Hx _]; discriminate Hx.
  - rewrite Hs, (ConcurrentFacts.after_is_migrated old new b a od Hok Hod).
    split; [reflexivity|].
    assert (Forall (fun x => exists r, x = Concurrent.Finished r) final.2) as Hfin.
    { apply Forall_forall. intros x Hx.
      rewrite Forall_forall in Hall, Hdone.
      destruct (Hall x Hx) as [->|[->|Hr]]; [| |exact Hr];
        specialize (Hdone _ Hx); discriminate Hdone. }
    split; [|split; [split|split]].
    + unfold Concurrent.crashes. clear -Hfin.
      induction Hfin as [|x l [r ->] _ IH]; [reflexivity|exact IH].
    + unfold Concurrent.renames. clear -Hex.
      induction Hex as [x l ->|x l _ IH]; cbn [List.filter].
      * cbn. lia.
      * destruct x as [| |[]|]; cbn [List.length]; lia.
    + rewrite <- Hlen. unfold Concurrent.renames. apply List.filter_length_le.
    + apply StoreFacts.count_key_present.
      * apply (ConcurrentFacts.after_ok old new b a od Hok Hod Hfree).
      * apply ConcurrentFacts.new_there.
    + apply StoreFacts.count_key_absent.
      apply (ConcurrentFacts.old_gone old new b a od Hne Hok Hod).
Qed.

Lemma concurrent_migrations_witness :
  (Concurrent.run_schedule Sample.legacyKey Sample.currentKey [0; 1; 0; 1]%nat
     (leaderboard Sample.legacy_world, replicate 2 Concurrent.Start)).1
  = [Sample.other_row; Sample.current_row].
Proof.
  destruct (concurrent_migrations Sample.legacyKey Sample.currentKey
              (leaderboard Sample.legacy_world) 2
              (Concurrent.run_schedule Sample.legacyKey Sample.currentKey
                 [0; 1; 0; 1]%nat
                 (leaderboard Sample.legacy_world, replicate 2 Concurrent.Start)))
    as (Hfinal & _).
  - vm_compute. intros H. discriminate H.
  - exact sample_table_ok.
  - unfold present, column. cbn. apply list_elem_of_In. cbn. tauto.
  - unfold present, column. cbn. intros Hin. apply list_elem_of_In in Hin.
    cbn in Hin. intuition discriminate.
  - lia.
  - apply ConcurrentFacts.run_schedule_reachable.
  - vm_compute. repeat constructor.
  - rewrite Hfinal. vm_compute. reflexivity.
Defined.

(** C6, counterexample: two requests for the legacy record of
    AA:BB:CC:DD:EE:FF, both reading before either writes; both renames
    succeed, so it is not the case that exactly one does. *)
Lemma two_renames_succeed :
  ~ (forall final,
       rtc (Concurrent.step Sample.legacyKey Sample.currentKey)
         (leaderboard Sample.legacy_world, replicate 2 Concurrent.Start) final ->
       Forall (fun x => Concurrent.is_finished x = true) final.2 ->
       Concurrent.renames final.2 = 1%nat).
Proof.
  intros Hclaim.
  specialize (Hclaim
    (Concurrent.run_schedule Sample.legacyKey Sample.currentKey [0; 1; 0; 1]%nat
       (leaderboard Sample.legacy_world, replicate 2 Concurrent.Start))
    (ConcurrentFacts.run_schedule_reachable _ _ _ _)).
  assert (Forall (fun x => Concurrent.is_finished x = true)
            (Concurrent.run_schedule Sample.legacyKey Sample.currentKey
               [0; 1; 0; 1]%nat
               (leaderboard Sample.legacy_world, replicate 2 Concurrent.Start)).2)
    as Hdone by (vm_compute; repeat constructor).
  specialize (Hclaim Hdone). vm_compute in Hclaim. discriminate Hclaim.
Qed.

(** ** The read endpoints *)

Module ReadFacts.

Lemma strip_lookup keys (o : object) k : k ∈ keys -> strip keys o !! k = None.
Proof.
  unfold strip. induction keys as [|k' keys IH]; intros Hk.
  - now apply not_elem_of_nil in Hk.
  - cbn [foldr]. destruct (decide (k' = k)) as [->|Hne].
    + apply lookup_delete_eq.
    + rewrite lookup_delete_ne by exact Hne. apply IH.
      apply elem_of_cons in Hk as [->|Hk]; [now destruct Hne|exact Hk].
Qed.

Lemma strip_lookup_other keys (o : object) k :
  k ∉ keys -> strip keys o !! k = o !! k.
Proof.
  unfold strip. induction keys as [|k' keys IH]; intros Hk; [reflexivity|].
  apply not_elem_of_cons in Hk as [Hne Hk]. cbn [foldr].
  rewrite lookup_delete_ne by congruence. now apply IH.
Qed.

Lemma alloc_all_run os h :
  alloc_all os h = (h ++ os, seq (List.length h) (List.length os)).
Proof.
  revert h. induction os as [|o os IH]; intros h.
  - cbn. now rewrite app_nil_r.
  - cbn [alloc_all]. unfold mbind, H_bind, alloc, mret, H_ret.
    rewrite IH, length_app, <- app_assoc. cbn [List.length app seq].
    now rewrite Nat.add_1_r.
Qed.

Lemma sanitize_all_run keys h done todo :
  for_of (seq (List.length h + List.length done) (List.length todo))
    (fun l => sanitize l keys;; mret tt) (h ++ done ++ todo)
  = (h ++ done ++ (strip keys <$> todo), tt).
Proof.
  revert done. induction todo as [|o todo IH]; intros done; [reflexivity|].
  cbn [List.length seq for_of]. unfold mbind at 1, H_bind at 1.
  unfold mbind at 1, H_bind at 1, sanitize at 1, mret at 1, H_ret at 1.
  assert (alter (strip keys) (List.length h + List.length done)%nat
            (h ++ done ++ o :: todo)
          = h ++ (done ++ [strip keys o]) ++ todo) as ->.
  { rewrite (app_assoc h done (o :: todo)), <- length_app.
    rewrite <- (Nat.add_0_r (List.length (h ++ done))), alter_app_r.
    cbn [alter list_alter]. now rewrite <- !app_assoc. }
  specialize (IH (done ++ [strip keys o])).
  rewrite length_app, Nat.add_assoc, Nat.add_1_r in IH. cbn [List.length] in IH.
  rewrite IH, fmap_cons, <- !app_assoc. reflexivity.
Qed.

Lemma deref_all_run h done todo :
  deref_all (seq (List.length h + List.length done) (List.length todo))
    (h ++ done ++ todo)
  = (h ++ done ++ todo, todo).
Proof.
  revert done. induction todo as [|o todo IH]; intros done; [reflexivity|].
  cbn [List.length seq deref_all]. unfold mbind at 1, H_bind at 1, deref at 1.
  assert ((h ++ done ++ o :: todo) !! (List.length h + List.length done)%nat = Some o)
    as ->.
  { rewrite (app_assoc h done (o :: todo)), <- length_app.
    apply list_lookup_middle. reflexivity. }
  unfold mbind at 1, H_bind at 1.
  specialize (IH (done ++ [o])).
  rewrite length_app, Nat.add_assoc, Nat.add_1_r, <- !app_assoc in IH.
  cbn [app List.length] in IH. now rewrite IH.
Qed.

(** Allocating the objects, sanitizing each in place and sending them is
    sending each object without the listed properties. *)
Lemma sanitized_list keys os :
  (ls ← alloc_all os;
   for_of ls (fun l => sanitize l keys;; mret tt);;
   deref_all ls) []
  = (strip keys <$> os, strip keys <$> os).
Proof.
  unfold mbind at 1, H_bind at 1. rewrite alloc_all_run. cbn [app List.length].
  unfold mbind at 1, H_bind at 1.
  pose proof (sanitize_all_run keys [] [] os) as Hs. cbn [app List.length Nat.add] in Hs.
  rewrite Hs.
  pose proof (deref_all_run [] [] (strip keys <$> os)) as Hd.
  cbn [app List.length Nat.add] in Hd. rewrite length_fmap in Hd. exact Hd.
Qed.

Lemma sanitized_one keys o :
  (device ← alloc o; d ← sanitize device keys; deref d) [] = ([strip keys o], Some (strip keys o)).
Proof. reflexivity. Qed.

Lemma total_dabs_delete (r : row) :
  total_dabs_of (delete "last_ip" r) = total_dabs_of r.
Proof. unfold total_dabs_of. now rewrite lookup_delete_ne. Qed.

Lemma insert_desc_fmap (f : row -> row) r l :
  (forall x, total_dabs_of (f x) = total_dabs_of x) ->
  insert_desc (f r) (f <$> l) = f <$> insert_desc r l.
Proof.
  intros Hf. induction l as [|x l IH]; [reflexivity|].
  cbn [insert_desc fmap list_fmap]. rewrite !Hf.
  destruct (total_dabs_of x <=? total_dabs_of r); [reflexivity|].
  cbn [fmap list_fmap]. f_equal. exact IH.
Qed.

Lemma orderBy_fmap (f : row -> row) s :
  (forall x, total_dabs_of (f x) = total_dabs_of x) ->
  orderBy_total_dabs_desc (f <$> s) = f <$> orderBy_total_dabs_desc s.
Proof.
  intros Hf. unfold orderBy_total_dabs_desc.
  induction s as [|r s IH]; [reflexivity|].
  cbn [fmap list_fmap foldr]. fold (fmap f s). rewrite IH.
  now apply insert_desc_fmap.
Qed.

Lemma strip_of_row (r : row) :
  strip ["last_ip"] (of_row r) = of_row (delete "last_ip" r).
Proof. unfold strip, of_row. cbn [foldr]. now rewrite fmap_delete. Qed.

Lemma leaderboard_v1_sends table :
  sends (leaderboard_v1 table)
  = Leaderboards
      (strip ["last_ip"] <$> (of_row <$> take 10 (orderBy_total_dabs_desc table))).
Proof.
  unfold sends, leaderboard_v1.
  pose proof (sanitized_list ["last_ip"]
                (of_row <$> take 10 (orderBy_total_dabs_desc table))) as H.
  unfold mbind, H_bind in *. 
  destruct (alloc_all _ []) as [h1 ls].
  destruct (for_of ls _ h1) as [h2 []].
  destruct (deref_all ls h2) as [h3 os]. injection H as _ ->. reflexivity.
Qed.

Section Relations.

Variable related_user : row -> option row.
Variable related_device : row -> row.
Variable position_of : row -> option scalar.
Variable toString_utf8 : list byte -> string.

Lemma leaderboard_v2_sends table :
  sends (leaderboard_v2 related_user table)
  = Leaderboards
      (strip ["last_ip"]
         <$> (with_users related_user <$> take 10 (orderBy_total_dabs_desc table))).
Proof.
  unfold sends, leaderboard_v2.
  pose proof (sanitized_list ["last_ip"]
                (with_users related_user
                   <$> take 10 (orderBy_total_dabs_desc table))) as H.
  unfold mbind, H_bind in *.
  destruct (alloc_all _ []) as [h1 ls].
  destruct (for_of ls _ h1) as [h2 []].
  destruct (deref_all ls h2) as [h3 os]. injection H as _ ->. reflexivity.
Qed.

Lemma leaderboard_v3_sends view :
  sends (leaderboard_v3 related_user related_device view)
  = zip view
      (strip hidden_columns
         <$> ((fun lb => with_users related_user (related_device lb)) <$> view)).
Proof.
  unfold sends, leaderboard_v3.
  pose proof (sanitized_list hidden_columns
                ((fun lb => with_users related_user (related_device lb)) <$> view)) as H.
  unfold mbind, H_bind in *.
  destruct (alloc_all _ []) as [h1 ls].
  destruct (for_of ls _ h1) as [h2 []].
  destruct (deref_all ls h2) as [h3 os]. injection H as _ ->. reflexivity.
Qed.

Lemma device_v2_sends table device_id d position :
  sends (device_v2 related_user position_of table device_id) = Device d position ->
  exists r, db_findFirst "device_id" (Str device_id) table = Some r
            /\ d = Some (strip ["last_ip"] (with_users related_user r)).
Proof.
  unfold sends, device_v2.
  destruct (db_findFirst "device_id" (Str device_id) table) as [r|]; [|discriminate].
  cbn. intros [= <- _]. now exists r.
Qed.

Lemma device_v3_sends devices device_mac d position :
  sends (device_v3 related_user position_of toString_utf8 devices device_mac)
  = Device d position ->
  exists r, d = Some (strip hidden_columns (with_users related_user r)).
Proof.
  unfold sends, device_v3.
  destruct (split_underscore_1 device_mac) as [text|]; [|discriminate].
  destruct (db_findFirst "mac" _ devices) as [r|]; [|discriminate].
  cbn. intros [= <- _]. now exists r.
Qed.

Lemma users_without_last_ip (r : row) keys (u : row) :
  "users" ∉ keys ->
  strip keys (with_users related_user r) !! "users" = Some (Relation (Some u)) ->
  u !! "last_ip" = None.
Proof using related_user.
  intros Hkeys. rewrite strip_lookup_other by exact Hkeys.
  unfold with_users. rewrite lookup_insert_eq.
  destruct (related_user r) as [x|]; [|discriminate]. cbn. intros [= <-].
  unfold select. apply map_lookup_filter_None. right. intros v _ Hin. cbn in Hin.
  apply list_elem_of_In in Hin. cbn in Hin.
  repeat (destruct Hin as [Hin|Hin]; [discriminate Hin|]). exact Hin.
Qed.

End Relations.

End ReadFacts.

(** C10.  What the read endpoints send is the stored rows with the listed
    properties removed.  Every entry of GET /leaderboard (first and second
    revision) and the device of GET /device (second revision) is the row
    without [last_ip], and the user attached to it carries none either; in
    the third revision the device object of every leaderboard entry and the
    device of GET /device are without [last_ip], [mac] and [serial_number].
    Two tables that differ only in the stored addresses give the same
    leaderboard reply. *)
Theorem read_endpoints_hide_last_ip
    (related_user : row -> option row) (related_device : row -> row)
    (position_of : row -> option scalar) (toString_utf8 : list byte -> string)
    (table view devices : list row) (param : string) :
  sends (leaderboard_v1 table)
  = Leaderboards
      (strip ["last_ip"] <$> (of_row <$> take 10 (orderBy_total_dabs_desc table)))
  /\ sends (leaderboard_v2 related_user table)
     = Leaderboards
         (strip ["last_ip"]
            <$> (with_users related_user <$> take 10 (orderBy_total_dabs_desc table)))
  /\ (forall entries,
        sends (leaderboard_v1 table) = Leaderboards entries
        \/ sends (leaderboard_v2 related_user table) = Leaderboards entries ->
        Forall (fun e => e !! "last_ip" = None
                         /\ forall u, e !! "users" = Some (Relation (Some u)) ->
                                      u !! "last_ip" = None) entries)
  /\ (forall d position,
        sends (device_v2 related_user position_of table param) = Device d position ->
        exists o, d = Some o /\ o !! "last_ip" = None)
  /\ Forall (fun e => e.2 !! "last_ip" = None /\ e.2 !! "mac" = None
                      /\ e.2 !! "serial_number" = None)
       (sends (leaderboard_v3 related_user related_device view))
  /\ (forall d position,
        sends (device_v3 related_user position_of toString_utf8 devices param)
        = Device d position ->
        exists o, d = Some o /\ o !! "last_ip" = None /\ o !! "mac" = None
                  /\ o !! "serial_number" = None)
  /\ (forall table',
        delete "last_ip" <$> table' = delete "last_ip" <$> table ->
        sends (leaderboard_v1 table') = sends (leaderboard_v1 table)).
Proof.
  assert (forall k, In k hidden_columns -> k ∈ hidden_columns) as Hin
    by (intros k; apply list_elem_of_In).
  split; [apply ReadFacts.leaderboard_v1_sends|].
  split; [apply ReadFacts.leaderboard_v2_sends|].
  split; [|split; [|split; [|split]]].
  - intros entries [H|H].
    + rewrite ReadFacts.leaderboard_v1_sends in H. injection H as <-.
      rewrite !Forall_fmap. apply Forall_forall. intros r _. unfold compose. split.
      * apply ReadFacts.strip_lookup, list_elem_of_In. cbn. tauto.
      * intros u. rewrite ReadFacts.strip_of_row. unfold of_row.
        rewrite lookup_fmap. destruct (delete "last_ip" r !! "users"); discriminate.
    + rewrite ReadFacts.leaderboard_v2_sends in H. injection H as <-.
      rewrite !Forall_fmap. apply Forall_forall. intros r _. unfold compose. split.
      * apply ReadFacts.strip_lookup, list_elem_of_In. cbn. tauto.
      * intros u Hu.
        apply (ReadFacts.users_without_last_ip related_user r ["last_ip"] u);
          [|exact Hu].
        intros Hk. apply list_elem_of_In in Hk. cbn in Hk. intuition discriminate.
  - intros d position H.
    apply ReadFacts.device_v2_sends in H as (r & _ & ->).
    eexists. split; [reflexivity|].
    apply ReadFacts.strip_lookup, list_elem_of_In. cbn. tauto.
  - rewrite ReadFacts.leaderboard_v3_sends. apply Forall_forall.
    intros [lb o] Hmem. apply elem_of_zip_r in Hmem.
    apply list_elem_of_fmap in Hmem as (x & -> & _). cbn [snd].
    repeat split; apply ReadFacts.strip_lookup, Hin; cbn; tauto.
  - intros d position H.
    apply ReadFacts.device_v3_sends in H as (r & ->).
    eexists. split; [reflexivity|].
    repeat split; apply ReadFacts.strip_lookup, Hin; cbn; tauto.
  - intros table' Hsame. rewrite !ReadFacts.leaderboard_v1_sends. f_equal.
    rewrite <- !list_fmap_compose.
    assert (forall t, (strip ["last_ip"] ∘ of_row) <$> take 10 (orderBy_total_dabs_desc t)
                      = of_row <$> take 10 (orderBy_total_dabs_desc (delete "last_ip" <$> t)))
      as Hshape.
    { intros t. rewrite ReadFacts.orderBy_fmap by apply ReadFacts.total_dabs_delete.
      rewrite <- fmap_take, <- list_fmap_compose. apply list_fmap_ext.
      intros j r _. unfold compose. apply ReadFacts.strip_of_row. }
    now rewrite !Hshape, Hsame.
Qed.

(** ** Further behaviour of the handlers *)

(** One request alone, running its read and then its write, is the
    migration step of the handler. *)
Lemma migrate_as_steps (old new : string) (w : world) :
  leaderboard (Rev2.migrate old new w).1
  = (Concurrent.run_schedule old new [0; 0]%nat
       (leaderboard w, [Concurrent.Start])).1
  /\ match (Rev2.migrate old new w).2,
           (Concurrent.run_schedule old new [0; 0]%nat
              (leaderboard w, [Concurrent.Start])).2 with
     | Ok _, [Concurrent.Finished _] => True
     | Throw e, [Concurrent.Crashed e'] => e = e'
     | _, _ => False
     end.
Proof.
  destruct w as [s fb tr]. unfold Rev2.migrate. Rev2Facts.run_monad.
  cbn [Concurrent.run_schedule fst snd lookup list_lookup Concurrent.attempt_step].
  destruct (db_findFirst "device_id" (Str old) s) as [od|]; cbn; [|now split].
  destruct (od !! "id") as [i|]; cbn; [|now split].
  destruct (db_update "id" i {[ "device_id" := Str new ]} s) as [s'|e]; cbn; now split.
Qed.

(** X1.  Second revision: when the table holds the device under both keys,
    the rename violates the unique [device_id]; the handler logs the error,
    sends no reply, and the table stays as it was. *)
Theorem both_keys_stuck
    (digest : list byte -> list byte -> string) (secret : list byte)
    (trackingValidation : list byte -> option Rev2.tracking)
    (macAddressToUint8Array : string -> list byte)
    (req : request) (ev : env) (w : world)
    (t : Rev2.tracking) (old : string) (date : Z) :
  let new := generatedDeviceId (Rev2.device_mac t) in
  Rev2.accepted digest secret trackingValidation req t ->
  oldGeneratedDeviceId macAddressToUint8Array (Rev2.device_mac t) = Some old ->
  Date_of_seconds (Rev2.device_dob t) = Some date ->
  In ":"%char (list_ascii_of_string (Rev2.device_mac t)) ->
  table_ok (leaderboard w) ->
  present old (leaderboard w) ->
  present new (leaderboard w) ->
  Rev2.track digest secret trackingValidation macAddressToUint8Array req ev w
  = (World (leaderboard w) (feedback w)
       (trace w ++ [EvVerify; EvRead "leaderboard"; EvWrite "leaderboard";
                    EvConsoleError UniqueConstraint]),
     Ok Unsent).
Proof.
  intros new (Htruthy & Hsig & Hvalid) Hold Hdate Hcolon Hok Hpold Hpnew.
  pose proof (KeyFacts.keys_differ _ _ _ Hcolon Hold) as Hne. fold new in Hne.
  destruct w as [s fb tr]. cbn [leaderboard feedback trace] in *.
  destruct (StoreFacts.present_split _ _ Hpold) as (b & od & a & -> & Hod).
  destruct (StoreFacts.findFirst_unique "device_id" (Str old) b od a Hod
              (proj1 (proj2 Hok))) as [_ Hfind].
  pose proof Hok as Hok'.
  apply StoreFacts.table_ok_middle in Hok' as (_ & _ & [i Hi] & _).
  assert (db_update "id" i {[ "device_id" := Str new ]} (b ++ od :: a)
          = Throw UniqueConstraint) as Hupd.
  { unfold db_update.
    destruct (StoreFacts.findFirst_unique "id" i b od a Hi (proj1 Hok)) as [-> _].
    cbn zeta.
    destruct (conflicts ({[ "device_id" := Str new ]} ∪ od) (b ++ a)) eqn:Hc;
      [reflexivity|].
    apply StoreFacts.conflicts_iff in Hc as [_ Hc]. exfalso. apply Hc.
    rewrite <- insert_union_singleton_l, lookup_insert_eq.
    unfold present in Hpnew. apply StoreFacts.elem_of_column_middle in Hpnew.
    destruct Hpnew as [Heq|Hin]; [|exact Hin].
    rewrite Hod in Heq. injection Heq as Heq. now destruct Hne. }
  unfold Rev2.track. rewrite Htruthy. cbn [negb].
  unfold mbind at 1, M_bind at 1.
  rewrite (Rev2Facts.verify_accepted digest secret req _ _ Hsig eq_refl).
  unfold try_catch, parse. rewrite Hvalid.
  unfold mbind at 1, M_bind at 1, mret at 1, M_ret at 1.
  rewrite Hold, Hdate. fold new.
  unfold Rev2.store_phase, Rev2.migrate. Rev2Facts.run_monad.
  rewrite Hfind, Hi. Rev2Facts.run_monad. rewrite Hupd.
  cbn [leaderboard feedback trace]. now rewrite <- !app_assoc.
Qed.

Lemma both_keys_stuck_witness :
  leaderboard
    (Rev2.track Sample.digest Sample.secret Sample.trackingValidation
       colon_hex_bytes (Sample.signed "203.0.113.1") Sample.env1
       Sample.both_world).1
  = leaderboard Sample.both_world.
Proof.
  rewrite (both_keys_stuck Sample.digest Sample.secret Sample.trackingValidation
             colon_hex_bytes (Sample.signed "203.0.113.1") Sample.env1
             Sample.both_world
             (Rev2.Tracking (Str "ada") Sample.mac 1700000000
                (Str "Peak Pro") (Str "21") (Num 420))
             Sample.legacyKey 1700000000000).
  - reflexivity.
  - unfold Rev2.accepted. cbn [Sample.signed x_signature rawBody].
    unfold Sample.body64. rewrite Base64Facts.from_base64_toString.
    split; [reflexivity|]. split; reflexivity.
  - vm_compute. reflexivity.
  - reflexivity.
  - cbn. tauto.
  - unfold table_ok, column. cbn.
    split; [|split]; [apply NoDup_ListNoDup .. |];
      repeat constructor; cbn; try (intros H; intuition discriminate); eauto.
  - unfold present, column. cbn. apply list_elem_of_In. cbn. tauto.
  - unfold present, column. cbn. apply list_elem_of_In. cbn. tauto.
Defined.



(** X4.  Second revision: a date of birth outside the range of time values
    is answered 400 [invalid_tracking_data] after the keys' bytes were read and
    before the table is touched. *)
Theorem invalid_date_rejected
    (digest : list byte -> list byte -> string) (secret : list byte)
    (trackingValidation : list byte -> option Rev2.tracking)
    (macAddressToUint8Array : string -> list byte)
    (req : request) (ev : env) (w : world) (t : Rev2.tracking) (old : string) :
  Rev2.accepted digest secret trackingValidation req t ->
  oldGeneratedDeviceId macAddressToUint8Array (Rev2.device_mac t) = Some old ->
  8640000000000000 < Z.abs (Rev2.device_dob t * 1000) ->
  Rev2.track digest secret trackingValidation macAddressToUint8Array req ev w
  = (logged w [EvVerify], Ok (Sent 400 (Code "invalid_tracking_data"))).
Proof.
  intros (Htruthy & Hsig & Hvalid) Hold Hrange.
  assert (Date_of_seconds (Rev2.device_dob t) = None) as Hdate.
  { unfold Date_of_seconds. cbn zeta.
    destruct (Z.abs (Rev2.device_dob t * 1000) <=? 8640000000000000) eqn:E;
      [apply Z.leb_le in E; lia|reflexivity]. }
  unfold Rev2.track. rewrite Htruthy. cbn [negb].
  unfold mbind at 1, M_bind at 1.
  rewrite (Rev2Facts.verify_accepted digest secret req _ _ Hsig eq_refl).
  unfold try_catch, parse. rewrite Hvalid.
  unfold mbind at 1, M_bind at 1, mret at 1, M_ret at 1.
  now rewrite Hold, Hdate.
Qed.

Lemma update_data_v1_frame t bd ip ev col :
  col ∉ written_columns -> Rev1.update_data t bd ip ev !! col = None.
Proof.
  intros Hcol.
  assert (forall c, c ∈ written_columns -> c <> col) as Hne.
  { intros c Hc ->. now apply Hcol. }
  unfold written_columns in Hne. unfold Rev1.update_data.
  rewrite !lookup_insert_ne; [apply lookup_empty|..];
    apply Hne, list_elem_of_In; cbn; tauto.
Qed.

(** X3.  First revision, a device already stored under its key: the update
    writes the submitted fields into the device's row, where it stands, and
    keeps every column it does not name, [id] and [device_id] among them;
    the reply is 204. *)
Theorem known_device_update_v1
    (digest : list byte -> list byte -> string) (secret : list byte)
    (trackingValidation1 : list byte -> option Rev1.tracking)
    (toString_utf8 : list byte -> string)
    (Date_of_Number : string -> option Z) (toISOString : Z -> string)
    (req : request) (ev : env) (w : world) (t : Rev1.tracking) (birthday : Z) :
  let deviceId := toString_utf8 (Buffer.from_base64 (Rev1.device_id t)) in
  let deviceUid := toString_utf8 (Buffer.from_base64 (Rev1.device_uid t)) in
  let key := "device_" +:+
             Buffer.toString_base64
               (Buffer.from_utf8 (deviceUid +:+ "-" +:+ toISOString birthday)) in
  let upd := Rev1.update_data t birthday (client_ip req) ev in
  Rev1.accepted digest secret trackingValidation1 req t ->
  Number_isNaN deviceId || Number_isNaN deviceUid = false ->
  Date_of_Number deviceId = Some birthday ->
  table_ok (leaderboard w) ->
  present key (leaderboard w) ->
  exists b r a w1,
    leaderboard w = b ++ r :: a
    /\ r !! "device_id" = Some (Str key)
    /\ Rev1.track digest secret trackingValidation1 toString_utf8 Date_of_Number
         toISOString req ev w
       = (w1, Ok (Sent 204 Empty))
    /\ leaderboard w1 = b ++ (upd ∪ r) :: a
    /\ (upd ∪ r) !! "device_name" = Some (Rev1.device_name t)
    /\ (upd ∪ r) !! "last_ip" = Some (Str (client_ip req))
    /\ (upd ∪ r) !! "id" = r !! "id"
    /\ (upd ∪ r) !! "device_id" = r !! "device_id"
    /\ (forall col, col ∉ written_columns -> (upd ∪ r) !! col = r !! col).
Proof.
  intros deviceId deviceUid key upd (Htruthy & Hsig & Hvalid) Hnum Hdate Hok Hkey.
  destruct w as [s fb tr]. cbn [leaderboard] in *.
  destruct (StoreFacts.present_split _ _ Hkey) as (b & r & a & -> & Hr).
  destruct (StoreFacts.findFirst_unique "device_id" (Str key) b r a Hr
              (proj1 (proj2 Hok))) as [_ Hfind].
  assert (forall col, col ∉ written_columns -> (upd ∪ r) !! col = r !! col) as Hframe.
  { intros col Hcol. apply lookup_union_r. now apply update_data_v1_frame. }
  assert ((upd ∪ r) !! "id" = r !! "id") as Hid.
  { apply Hframe. intros Hin. apply list_elem_of_In in Hin. cbn in Hin.
    intuition discriminate. }
  assert ((upd ∪ r) !! "device_id" = r !! "device_id") as Hdev.
  { apply Hframe. intros Hin. apply list_elem_of_In in Hin. cbn in Hin.
    intuition discriminate. }
  pose proof Hok as Hok'.
  apply StoreFacts.table_ok_middle in Hok' as (H1 & H2 & _ & _).
  assert (db_update "device_id" (Str key) upd (b ++ r :: a)
          = Ok (b ++ (upd ∪ r) :: a)) as Hdb.
  { apply StoreFacts.update_unique; [exact Hr|apply Hok|].
    apply StoreFacts.conflicts_false; [now rewrite Hid|now rewrite Hdev]. }
  exists b, r, a. eexists.
  split; [reflexivity|]. split; [exact Hr|]. split.
  - unfold Rev1.track. rewrite Htruthy. cbn [negb].
    unfold mbind at 1, M_bind at 1.
    rewrite (Rev2Facts.verify_accepted digest secret req _ _ Hsig eq_refl).
    unfold parse. rewrite Hvalid.
    unfold mbind at 1, M_bind at 1, mret at 1, M_ret at 1.
    fold deviceId deviceUid. rewrite Hnum, Hdate. fold key upd.
    Rev2Facts.run_monad. rewrite Hfind. Rev2Facts.run_monad. rewrite Hdb.
    reflexivity.
  - cbn [leaderboard]. split; [reflexivity|].
    split; [now apply lookup_union_Some_l|].
    split; [now apply lookup_union_Some_l|].
    split; [exact Hid|]. split; [exact Hdev|exact Hframe].
Qed.

Lemma known_device_update_v1_witness :
  (Rev1.track Sample.digest Sample.secret Sample.trackingValidation1
     Sample.text_of Sample.Date_of_Number Sample.toISOString
     Sample.numbered Sample.env1 Sample.world1).2
  = Ok (Sent 204 Empty).
Proof.
  destruct (known_device_update_v1 Sample.digest Sample.secret
              Sample.trackingValidation1 Sample.text_of Sample.Date_of_Number
              Sample.toISOString Sample.numbered Sample.env1 Sample.world1
              (Rev1.Tracking (Str "ada") "MTcwMDAwMDAwMA==" "NDI="
                 (Str "Peak") (Str "0") (Num 3))
              1700000000000)
    as (b & r & a & w1 & _ & _ & Htrack & _).
  - unfold Rev1.accepted. cbn [Sample.numbered x_signature rawBody].
    rewrite Base64Facts.from_base64_toString.
    split; [reflexivity|]. split; reflexivity.
  - vm_compute. reflexivity.
  - vm_compute. reflexivity.
  - unfold table_ok, column. cbn.
    split; [|split]; [apply NoDup_ListNoDup .. |];
      repeat constructor; cbn; try (intros H; intuition discriminate); eauto.
  - unfold present, column. vm_compute. apply list_elem_of_In. cbn. tauto.
  - now rewrite Htrack.
Defined.

Lemma invalid_date_rejected_witness :
  Rev2.track Sample.digest Sample.secret Sample.trackingValidation_far
    colon_hex_bytes (Sample.signed "203.0.113.1") Sample.env1 Sample.legacy_world
  = (logged Sample.legacy_world [EvVerify],
     Ok (Sent 400 (Code "invalid_tracking_data"))).
Proof.
  apply (invalid_date_rejected Sample.digest Sample.secret
           Sample.trackingValidation_far colon_hex_bytes
           (Sample.signed "203.0.113.1") Sample.env1 Sample.legacy_world
           (Rev2.Tracking (Str "ada") Sample.mac 9000000000000000
              (Str "Peak Pro") (Str "21") (Num 420))
           Sample.legacyKey).
  - unfold Rev2.accepted. cbn [Sample.signed x_signature rawBody].
    unfold Sample.body64. rewrite Base64Facts.from_base64_toString.
    split; [reflexivity|]. split; reflexivity.
  - vm_compute. reflexivity.
  - cbn. lia.
Defined.



(** ** POST /feedback *)



(** ** [Number] on texts *)

Module NumberFacts.

Lemma skip_all p l : forallb p l = true -> skip p l = [].
Proof.
  induction l as [|c l IH]; [reflexivity|]. cbn [forallb skip].
  intros H. apply andb_true_iff in H as [-> H]. now apply IH.
Qed.

Lemma skip_head p c l : p c = false -> skip p (c :: l) = c :: l.
Proof. intros H. cbn [skip]. now rewrite H. Qed.

Lemma digit_not_space c : is_digit c = true -> is_white_space c = false.
Proof.
  unfold is_digit, in_range, is_white_space. intros H.
  apply andb_true_iff in H as [H1 H2]. apply Z.leb_le in H1, H2.
  repeat (apply orb_false_iff; split);
    [apply andb_false_iff; right; apply Z.leb_gt; lia
    | apply Z.eqb_neq; lia | apply Z.eqb_neq; lia].
Qed.

(** White space is removed from neither end of a text that starts and
    ends with another character. *)
Lemma trim_plain c l :
  is_white_space c = false ->
  is_white_space (List.last (c :: l) c) = false ->
  trim (c :: l) = c :: l.
Proof.
  intros Hc Hlast. unfold trim. rewrite (skip_head _ _ _ Hc).
  destruct (rev (c :: l)) as [|x r] eqn:Hrev.
  - apply (f_equal (@List.length _)) in Hrev. rewrite length_rev in Hrev. discriminate.
  - assert (List.last (c :: l) c = x) as Hx.
    { rewrite <- (rev_involutive (c :: l)), Hrev. cbn [rev].
      apply last_last. }
    rewrite Hx in Hlast. rewrite (skip_head _ _ _ Hlast), <- Hrev.
    apply rev_involutive.
Qed.

Lemma digits_decimal l :
  l <> [] -> forallb is_digit l = true -> unsigned_decimal l = true.
Proof.
  intros Hne Hall. unfold unsigned_decimal.
  destruct (bool_decide _); [reflexivity|].
  rewrite (skip_all _ _ Hall). destruct l; [now destruct Hne|reflexivity].
Qed.

Lemma last_default {A} (y : A) l c d : List.last (y :: l) c = List.last (y :: l) d.
Proof.
  revert y. induction l as [|z l IH]; intros y; [reflexivity|].
  change (List.last (z :: l) c = List.last (z :: l) d). apply IH.
Qed.

Lemma last_in {A} (c : A) l : In (List.last (c :: l) c) (c :: l).
Proof.
  revert c. induction l as [|y l IH]; intros c; [now left|].
  right. change (List.last (c :: y :: l) c) with (List.last (y :: l) c).
  rewrite (last_default y l c y). apply IH.
Qed.

Lemma last_digit c l :
  Forall (fun x => is_digit x = true) (c :: l) ->
  is_digit (List.last (c :: l) c) = true.
Proof.
  intros H. rewrite List.Forall_forall in H. apply H, last_in.
Qed.

Lemma digits_not_NaN l :
  l <> [] -> Forall (fun x => is_digit x = true) l ->
  Number_isNaN (string_of_list_ascii l) = false.
Proof.
  intros Hne Hall. unfold Number_isNaN. rewrite list_ascii_of_string_of_list_ascii.
  destruct l as [|c l]; [now destruct Hne|].
  rewrite trim_plain.
  - apply negb_false_iff. unfold numeric_literal. apply orb_true_iff. right.
    assert (is_char c "+" || is_char c "-" = false) as ->.
    { inversion Hall as [|? ? Hc _]. subst.
      unfold is_char. destruct (Ascii.eqb_spec c "+") as [->|_]; [discriminate Hc|].
      destruct (Ascii.eqb_spec c "-") as [->|_]; [discriminate Hc|reflexivity]. }
    apply digits_decimal; [discriminate|]. apply forallb_forall.
    rewrite List.Forall_forall in Hall. exact Hall.
  - apply digit_not_space. now inversion Hall.
  - apply digit_not_space, last_digit, Hall.
Qed.

Lemma uint_nonempty d : list_ascii_of_string (NilZero.string_of_uint d) <> [].
Proof. destruct d; discriminate. Qed.

Lemma uint_digits d :
  Forall (fun c => is_digit c = true) (list_ascii_of_string (NilZero.string_of_uint d)).
Proof.
  destruct d; try apply (KeyFacts.numeral_digits (_ d));
    cbn [NilZero.string_of_uint]; try (apply KeyFacts.numeral_digits).
  repeat constructor.
Qed.

Lemma blank_trim l : forallb is_white_space l = true -> trim l = [].
Proof. intros H. unfold trim. now rewrite (skip_all _ _ H). Qed.

End NumberFacts.

(** X7.  The first revision's check [isNaN(Number(text))] lets every
    decimal numeral through, negative ones included, and also every text
    made of white space only (the empty text among them): [Number] reads
    such a text as 0. *)
Theorem isNaN_numerals_and_blanks :
  (forall n : Z, Number_isNaN (Number_toString n) = false)
  /\ (forall text : string,
        forallb is_white_space (list_ascii_of_string text) = true ->
        Number_isNaN text = false).
Proof.
  split.
  - intros n. unfold Number_toString.
    destruct (Z.to_int n) as [d|d]; cbn [NilZero.string_of_int].
    + rewrite <- (string_of_list_ascii_of_string (NilZero.string_of_uint d)).
      apply NumberFacts.digits_not_NaN;
        [apply NumberFacts.uint_nonempty|apply NumberFacts.uint_digits].
    + pose proof (NumberFacts.uint_digits d) as Hall.
      pose proof (NumberFacts.uint_nonempty d) as Hne.
      unfold Number_isNaN. cbn [list_ascii_of_string].
      destruct (list_ascii_of_string (NilZero.string_of_uint d)) as [|c l] eqn:Hd;
        [now destruct Hne|].
      rewrite NumberFacts.trim_plain; [|reflexivity|].
      * apply negb_false_iff. unfold numeric_literal. apply orb_true_iff. right.
        cbn [is_char Ascii.eqb orb]. 
        change (is_char "-" "+" || is_char "-" "-") with true. cbn iota.
        apply NumberFacts.digits_decimal; [discriminate|].
        apply forallb_forall. rewrite List.Forall_forall in Hall. exact Hall.
      * change (List.last ("-"%char :: c :: l) "-"%char)
          with (List.last (c :: l) "-"%char).
        rewrite (NumberFacts.last_default c l "-"%char c).
        apply NumberFacts.digit_not_space, NumberFacts.last_digit, Hall.
  - intros text Hblank. unfold Number_isNaN.
    now rewrite (NumberFacts.blank_trim _ Hblank).
Qed.

(** ** The first revision's writes *)

Module Rev1More.
Import StoreFacts.

Section Handler.

Variable digest : list byte -> list byte -> string.
Variable secret : list byte.
Variable trackingValidation : list byte -> option Rev1.tracking.
Variable toString_utf8 : list byte -> string.
Variable Date_of_Number : string -> option Z.
Variable toISOString : Z -> string.

Local Abbreviation track :=
  (Rev1.track digest secret trackingValidation toString_utf8 Date_of_Number
     toISOString).

(** The key the first revision derives from the decoded uid and the
    birthday. *)
Local Abbreviation key_of deviceUid birthday :=
  ("device_" +:+
   Buffer.toString_base64
     (Buffer.from_utf8 (deviceUid +:+ "-" +:+ toISOString birthday))).

Lemma track1_accepted req ev w t birthday :
  let deviceId := toString_utf8 (Buffer.from_base64 (Rev1.device_id t)) in
  let deviceUid := toString_utf8 (Buffer.from_base64 (Rev1.device_uid t)) in
  let key := key_of deviceUid birthday in
  let upd := Rev1.update_data t birthday (client_ip req) ev in
  let crt := Rev1.create_data t birthday (client_ip req) ev key in
  Rev1.accepted digest secret trackingValidation req t ->
  Number_isNaN deviceId || Number_isNaN deviceUid = false ->
  Date_of_Number deviceId = Some birthday ->
  table_ok (leaderboard w) ->
  (~ present key (leaderboard w) ->
   Some (Str (pika_gen ev)) ∉ column "id" (leaderboard w)) ->
  exists w1,
    track req ev w = (w1, Ok (Sent 204 Empty))
    /\ feedback w1 = feedback w
    /\ table_ok (leaderboard w1)
    /\ present key (leaderboard w1)
    /\ (present key (leaderboard w) ->
        identities (leaderboard w1) = identities (leaderboard w))
    /\ (~ present key (leaderboard w) -> leaderboard w1 = leaderboard w ++ [crt]).
Proof.
  intros deviceId deviceUid key upd crt (Htruthy & Hsig & Hvalid) Hnum Hdate Hok Hfresh.
  set (w0 := World (leaderboard w) (feedback w) (trace w ++ [EvVerify])).
  destruct (Rev2Facts.upsert_run key upd crt w0 Hok)
    as (w1 & Hups & Hfb & Hok1 & Hnew1 & _ & Hupd & Hcrt);
    [reflexivity|reflexivity|reflexivity|now eexists|exact Hfresh|].
  exists w1. split.
  - unfold Rev1.track. rewrite Htruthy. cbn [negb].
    unfold mbind at 1, M_bind at 1.
    rewrite (Rev2Facts.verify_accepted digest secret req _ _ Hsig eq_refl).
    unfold parse. rewrite Hvalid.
    unfold mbind at 1, M_bind at 1, mret at 1, M_ret at 1.
    fold deviceId deviceUid. rewrite Hnum, Hdate. fold key upd crt.
    unfold Rev2.upsert in Hups. unfold mbind, M_bind in *. fold w0.
    destruct (findFirst "device_id" (Str key) w0) as [w' [a|e]]; [|discriminate].
    now rewrite Hups.
  - split; [exact Hfb|]. split; [exact Hok1|]. split; [exact Hnew1|].
    split; [|exact Hcrt].
    intros Hpres. destruct (Hupd Hpres) as (b & r & a & Hs & Hr & Hs1).
    change (leaderboard w0) with (leaderboard w) in Hs. rewrite Hs1, Hs.
    apply Rev2Facts.identities_replace; apply Rev2Facts.union_keeps; reflexivity.
Qed.

End Handler.

End Rev1More.

(** X8.  First revision: any number (at least one) of accepted
    submissions that decode to the same device id and uid leave exactly one
    row under the derived key; the table grows by one row when the key was
    new and by none otherwise, later submissions change the identity of no
    row, and every submission is answered 204. *)
Theorem track_v1_no_duplicate
    (digest : list byte -> list byte -> string) (secret : list byte)
    (trackingValidation : list byte -> option Rev1.tracking)
    (toString_utf8 : list byte -> string)
    (Date_of_Number : string -> option Z) (toISOString : Z -> string)
    (deviceId deviceUid : string) (birthday : Z)
    (first : request * env) (rest : list (request * env)) (w : world) :
  let key := "device_" +:+
             Buffer.toString_base64
               (Buffer.from_utf8 (deviceUid +:+ "-" +:+ toISOString birthday)) in
  let submit l :=
    in_sequence
      (List.map (fun p => Rev1.track digest secret trackingValidation toString_utf8
                            Date_of_Number toISOString p.1 p.2) l) in
  Forall (fun p => exists t,
            Rev1.accepted digest secret trackingValidation p.1 t
            /\ toString_utf8 (Buffer.from_base64 (Rev1.device_id t)) = deviceId
            /\ toString_utf8 (Buffer.from_base64 (Rev1.device_uid t)) = deviceUid)
    (first :: rest) ->
  Number_isNaN deviceId || Number_isNaN deviceUid = false ->
  Date_of_Number deviceId = Some birthday ->
  table_ok (leaderboard w) ->
  (~ present key (leaderboard w) ->
   Some (Str (pika_gen first.2)) ∉ column "id" (leaderboard w)) ->
  count_key key (leaderboard (submit (first :: rest) w).1) = 1%nat
  /\ identities (leaderboard (submit (first :: rest) w).1)
     = identities (leaderboard (submit [first] w).1)
  /\ (List.length (leaderboard (submit (first :: rest) w).1)
      = List.length (leaderboard w) + (if decide (present key (leaderboard w)) then 0 else 1))%nat
  /\ Forall (fun r => r = Ok (Sent 204 Empty)) (submit (first :: rest) w).2.
Proof.
  intros key submit Hall Hnum Hdate Hok Hfresh.
  assert (forall l w0,
            Forall (fun p => exists t,
                      Rev1.accepted digest secret trackingValidation p.1 t
                      /\ toString_utf8 (Buffer.from_base64 (Rev1.device_id t)) = deviceId
                      /\ toString_utf8 (Buffer.from_base64 (Rev1.device_uid t)) = deviceUid) l ->
            table_ok (leaderboard w0) -> present key (leaderboard w0) ->
            table_ok (leaderboard (submit l w0).1)
            /\ present key (leaderboard (submit l w0).1)
            /\ identities (leaderboard (submit l w0).1) = identities (leaderboard w0)
            /\ Forall (fun r => r = Ok (Sent 204 Empty)) (submit l w0).2) as Hlater.
  { intros l. induction l as [|[req ev] l IH]; intros w0 Hl Hok0 Hpres0.
    - cbn. split; [exact Hok0|]. split; [exact Hpres0|]. split; [reflexivity|constructor].
    - apply Forall_cons in Hl as [(t & Hacc & Hid & Huid) Hl]. cbn [fst snd] in Hacc.
      destruct (Rev1More.track1_accepted digest secret trackingValidation toString_utf8
                  Date_of_Number toISOString req ev w0 t birthday Hacc)
        as (w1 & Htrack & _ & Hok1 & Hpres1 & Hsame & _).
      + now rewrite Hid, Huid.
      + now rewrite Hid.
      + exact Hok0.
      + rewrite Huid. intros Hno. now destruct Hno.
      + rewrite Huid in Hpres1, Hsame. fold key in Hpres1, Hsame.
        destruct (IH w1 Hl Hok1 Hpres1) as (H1 & H2 & H3 & H4).
        unfold submit in *. cbn [List.map in_sequence fst snd]. rewrite Htrack.
        destruct (in_sequence _ w1) as [w2 rs]. cbn [fst snd] in *.
        split; [exact H1|]. split; [exact H2|].
        split; [now rewrite H3, (Hsame Hpres0)|]. now constructor. }
  apply Forall_cons in Hall as [(t & Hacc & Hid & Huid) Hrest].
  destruct first as [req ev]. cbn [fst snd] in *.
  destruct (Rev1More.track1_accepted digest secret trackingValidation toString_utf8
              Date_of_Number toISOString req ev w t birthday Hacc)
    as (w1 & Htrack & _ & Hok1 & Hpres1 & Hsame & Hnew).
  { now rewrite Hid, Huid. }
  { now rewrite Hid. }
  { exact Hok. }
  { now rewrite Huid. }
  rewrite Huid in Hpres1, Hsame, Hnew. fold key in Hpres1, Hsame, Hnew.
  destruct (Hlater rest w1 Hrest Hok1 Hpres1) as (H1 & H2 & H3 & H4).
  unfold submit in *. cbn [List.map in_sequence fst snd]. rewrite Htrack.
  destruct (in_sequence _ w1) as [w2 rs]. cbn [fst snd] in *.
  split; [apply StoreFacts.count_key_present; [apply H1|exact H2]|].
  split; [exact H3|]. split; [|now constructor].
  assert (List.length (leaderboard w2) = List.length (leaderboard w1)) as ->.
  { apply (f_equal (@List.length _)) in H3. unfold identities in H3.
    now rewrite !length_fmap in H3. }
  destruct (decide (present key (leaderboard w))) as [Hp|Hp].
  - specialize (Hsame Hp). apply (f_equal (@List.length _)) in Hsame.
    unfold identities in Hsame. rewrite !length_fmap in Hsame. lia.
  - rewrite (Hnew Hp), length_app. cbn [List.length]. lia.
Qed.

(** ** The order of the leaderboard *)

Module OrderFacts.

Lemma insert_desc_perm r l : insert_desc r l ≡ₚ r :: l.
Proof.
  induction l as [|x l IH]; [reflexivity|]. cbn [insert_desc].
  destruct (total_dabs_of x <=? total_dabs_of r); [reflexivity|].
  rewrite IH. apply Permutation_swap.
Qed.

Lemma orderBy_perm s : orderBy_total_dabs_desc s ≡ₚ s.
Proof.
  unfold orderBy_total_dabs_desc. induction s as [|r s IH]; [reflexivity|].
  cbn [foldr]. rewrite insert_desc_perm. now rewrite IH.
Qed.

Lemma insert_desc_ranked r l : ranked l -> ranked (insert_desc r l).
Proof.
  unfold ranked. induction 1 as [|x l Hl IH Hx]; cbn [insert_desc].
  - repeat constructor.
  - destruct (total_dabs_of x <=? total_dabs_of r) eqn:E.
    + apply Z.leb_le in E. constructor; [now constructor|].
      constructor; [exact E|].
      eapply Forall_impl; [exact Hx|]. cbn. intros y Hy. lia.
    + apply Z.leb_gt in E. constructor; [exact IH|].
      rewrite insert_desc_perm. constructor; [lia|exact Hx].
Qed.

Lemma orderBy_ranked s : ranked (orderBy_total_dabs_desc s).
Proof.
  unfold orderBy_total_dabs_desc. induction s as [|r s IH]; cbn [foldr].
  - constructor.
  - now apply insert_desc_ranked.
Qed.

Lemma ranked_app l1 l2 :
  ranked (l1 ++ l2) ->
  ranked l1 /\ ranked l2
  /\ forall x y, x ∈ l1 -> y ∈ l2 -> total_dabs_of y <= total_dabs_of x.
Proof.
  unfold ranked. induction l1 as [|a l1 IH]; cbn [app]; intros H.
  - split; [constructor|]. split; [exact H|]. intros x y Hx. now apply not_elem_of_nil in Hx.
  - inversion H as [|? ? Hs Ha]; subst. destruct (IH Hs) as (H1 & H2 & H3).
    apply Forall_app in Ha as [Ha1 Ha2].
    split; [now constructor|]. split; [exact H2|].
    intros x y Hx Hy. apply elem_of_cons in Hx as [->|Hx]; [|now apply H3].
    rewrite Forall_forall in Ha2. now apply Ha2.
Qed.

(** [find] and [findIndex] agree: the index is that of the row found. *)
Lemma findIndex_find p l i r :
  List.find p l = Some r ->
  i <= findIndex p l i < i + Z.of_nat (List.length l)
  /\ l !! Z.to_nat (findIndex p l i - i) = Some r.
Proof.
  revert i. induction l as [|x l IH]; intros i; [discriminate|].
  cbn [List.find findIndex List.length]. destruct (p x).
  - intros [= ->]. rewrite Z.sub_diag. split; [lia|reflexivity].
  - intros H. destruct (IH (i + 1) H) as [Hr Hl]. split; [lia|].
    replace (findIndex p l (i + 1) - i) with (Z.succ (findIndex p l (i + 1) - (i + 1))) by lia.
    rewrite Z2Nat.inj_succ by lia. exact Hl.
Qed.

Lemma find_unique_elem col v (s : list row) :
  Some v ∈ column col s ->
  exists r, List.find (has col v) s = Some r /\ r !! col = Some v /\ r ∈ s.
Proof.
  induction s as [|x s IH]; cbn [column fmap list_fmap List.find].
  - intros H. now apply not_elem_of_nil in H.
  - intros H. destruct (has col v x) eqn:E.
    + exists x. apply StoreFacts.has_true in E. split; [reflexivity|].
      split; [exact E|apply elem_of_cons; now left].
    + apply elem_of_cons in H as [H|H].
      * apply StoreFacts.has_false in E. now destruct E.
      * destruct (IH H) as (r & Hf & Hr & Hin). exists r.
        split; [exact Hf|]. split; [exact Hr|]. apply elem_of_cons. now right.
Qed.

Lemma column_perm col (s s' : list row) : s ≡ₚ s' -> column col s ≡ₚ column col s'.
Proof. intros H. unfold column. now rewrite H. Qed.

End OrderFacts.

(** X10.  GET /leaderboard (first and second revision) sends the ten rows
    with the most dabs, or all rows when there are fewer, in non-increasing
    order of [total_dabs]; no row left out has more than a row shown. *)
Theorem leaderboard_top_ten
    (related_user : row -> option row) (table : list row) :
  exists shown rest,
    sends (leaderboard_v1 table)
    = Leaderboards (strip ["last_ip"] <$> (of_row <$> shown))
    /\ sends (leaderboard_v2 related_user table)
       = Leaderboards (strip ["last_ip"] <$> (with_users related_user <$> shown))
    /\ shown ++ rest ≡ₚ table
    /\ List.length shown = Nat.min 10 (List.length table)
    /\ ranked shown
    /\ (forall x y, x ∈ shown -> y ∈ rest -> total_dabs_of y <= total_dabs_of x).
Proof.
  exists (take 10 (orderBy_total_dabs_desc table)),
         (drop 10 (orderBy_total_dabs_desc table)).
  split; [apply ReadFacts.leaderboard_v1_sends|].
  split; [apply ReadFacts.leaderboard_v2_sends|].
  rewrite take_drop. split; [apply OrderFacts.orderBy_perm|].
  split.
  - rewrite length_take. now rewrite (Permutation_length (OrderFacts.orderBy_perm table)).
  - pose proof (OrderFacts.orderBy_ranked table) as H.
    rewrite <- (take_drop 10 (orderBy_total_dabs_desc table)) in H.
    apply OrderFacts.ranked_app in H as (H1 & _ & H3). now split.
Qed.

Module ReplyFacts.

Section Handler.

Variable digest : list byte -> list byte -> string.
Variable secret : list byte.
Variable trackingValidation : list byte -> option Rev2.tracking.
Variable macAddressToUint8Array : string -> list byte.

(** A 200 from POST /track carries what [find] and [findIndex] give on the
    ordered table the handler leaves. *)
Lemma track_200_shape req ev w w1 t sent :
  trackingValidation (Buffer.from_base64 (rawBody req)) = Some t ->
  Rev2.track digest secret trackingValidation macAddressToUint8Array req ev w
  = (w1, Ok (Sent 200 sent)) ->
  let p := has "device_id" (Str (generatedDeviceId (Rev2.device_mac t))) in
  sent = TrackData (List.find p (orderBy_total_dabs_desc (leaderboard w1)))
           (findIndex p (orderBy_total_dabs_desc (leaderboard w1)) 0 + 1).
Proof.
  intros Hvalid. unfold Rev2.track.
  destruct (negb (truthy (x_signature req))); [discriminate|].
  unfold mbind at 1, M_bind at 1.
  destruct (verify digest secret req w) as [w0 [body|e]] eqn:Hverify; [|discriminate].
  assert (body = Buffer.from_base64 (rawBody req)) as ->.
  { unfold verify, mbind, M_bind, log, lift, verifyRequest in Hverify.
    destruct (timingSafeEqual _ _); [|discriminate]. now injection Hverify as _ <-. }
  unfold try_catch, parse. rewrite Hvalid.
  unfold mbind at 1, M_bind at 1, mret at 1, M_ret at 1.
  destruct (oldGeneratedDeviceId _ _) as [old|].
  2: { unfold throw, console_error, log, mbind, M_bind, mret, M_ret. discriminate. }
  destruct (Date_of_seconds _) as [date|]; [|discriminate].
  unfold mbind at 1, M_bind at 1.
  destruct (Rev2.store_phase _ _ _ _ w0) as [w2 [[]|e]].
  2: { unfold console_error, log, mbind, M_bind, mret, M_ret. discriminate. }
  unfold Rev2.respond, findMany_desc, mbind, M_bind, mret, M_ret.
  cbn [leaderboard]. intros [= <- <-]. reflexivity.
Qed.

End Handler.

End ReplyFacts.

(** X9.  Second revision: the 200 reply to an accepted submission carries
    the device's own stored row and its rank: the position counts from 1,
    the row stands at that place of the table ordered by [total_dabs], and
    no row ranked before it has fewer dabs. *)
Theorem track_reply_position
    (digest : list byte -> list byte -> string) (secret : list byte)
    (trackingValidation : list byte -> option Rev2.tracking)
    (macAddressToUint8Array : string -> list byte)
    (req : request) (ev : env) (w : world)
    (t : Rev2.tracking) (old : string) (date : Z) :
  let new := generatedDeviceId (Rev2.device_mac t) in
  Rev2.accepted digest secret trackingValidation req t ->
  oldGeneratedDeviceId macAddressToUint8Array (Rev2.device_mac t) = Some old ->
  Date_of_seconds (Rev2.device_dob t) = Some date ->
  In ":"%char (list_ascii_of_string (Rev2.device_mac t)) ->
  table_ok (leaderboard w) ->
  ~ (present old (leaderboard w) /\ present new (leaderboard w)) ->
  Some (Str (pika_gen ev)) ∉ column "id" (leaderboard w) ->
  exists w1 r position,
    Rev2.track digest secret trackingValidation macAddressToUint8Array req ev w
    = (w1, Ok (Sent 200 (TrackData (Some r) position)))
    /\ r ∈ leaderboard w1
    /\ r !! "device_id" = Some (Str new)
    /\ 1 <= position <= Z.of_nat (List.length (leaderboard w1))
    /\ orderBy_total_dabs_desc (leaderboard w1) !! Z.to_nat (position - 1) = Some r
    /\ (forall j x, (j < Z.to_nat (position - 1))%nat ->
          orderBy_total_dabs_desc (leaderboard w1) !! j = Some x ->
          total_dabs_of r <= total_dabs_of x).
Proof.
  intros new Hacc Hold Hdate Hcolon Hok Hboth Hfresh.
  pose proof (KeyFacts.keys_differ _ _ _ Hcolon Hold) as Hne.
  destruct (Rev2Facts.track_accepted digest secret trackingValidation
              macAddressToUint8Array req ev w t old date Hacc Hold Hdate Hne Hok Hboth)
    as (w1 & sent & Htrack & _ & Hok1 & Hnew1 & _); [auto|].
  destruct Hacc as (_ & _ & Hvalid).
  pose proof (ReplyFacts.track_200_shape digest secret trackingValidation
                macAddressToUint8Array req ev w w1 t sent Hvalid Htrack) as Hsent.
  cbn zeta in Hsent. fold new in Hsent, Hnew1.
  set (sorted := orderBy_total_dabs_desc (leaderboard w1)) in *.
  assert (Some (Str new) ∈ column "device_id" sorted) as Hin.
  { unfold present in Hnew1.
    pose proof (OrderFacts.column_perm "device_id" _ _
                  (OrderFacts.orderBy_perm (leaderboard w1))) as Hperm.
    fold sorted in Hperm. now rewrite Hperm. }
  destruct (OrderFacts.find_unique_elem _ _ _ Hin) as (r & Hfind & Hr & Hmem).
  destruct (OrderFacts.findIndex_find _ _ 0 _ Hfind) as [Hrange Hat].
  rewrite Hfind in Hsent. subst sent.
  exists w1, r, (findIndex (has "device_id" (Str new)) sorted 0 + 1).
  split; [exact Htrack|].
  split; [now rewrite <- (OrderFacts.orderBy_perm (leaderboard w1))|].
  split; [exact Hr|].
  assert (List.length sorted = List.length (leaderboard w1)) as Hlen
    by apply Permutation_length, OrderFacts.orderBy_perm.
  split; [rewrite <- Hlen; lia|].
  replace (findIndex (has "device_id" (Str new)) sorted 0 + 1 - 1)
    with (findIndex (has "device_id" (Str new)) sorted 0 - 0) by lia.
  split; [exact Hat|].
  intros j x Hj Hx.
  pose proof (OrderFacts.orderBy_ranked (leaderboard w1)) as Hranked.
  fold sorted in Hranked.
  rewrite <- (take_drop_middle _ _ _ Hat) in Hranked.
  apply OrderFacts.ranked_app in Hranked as (_ & _ & Hle).
  apply Hle; [|apply elem_of_cons; now left].
  apply (list_elem_of_lookup_2 _ j). rewrite lookup_take_lt by exact Hj. exact Hx.
Qed.

(** ** The recorded properties on concrete requests *)

Lemma track_v1_no_duplicate_witness :
  count_key Sample.key1
    (leaderboard
       (in_sequence
          (List.map (fun p => Rev1.track Sample.digest Sample.secret
                                Sample.trackingValidation1 Sample.text_of
                                Sample.Date_of_Number Sample.toISOString p.1 p.2)
             [(Sample.numbered, Sample.env1); (Sample.numbered, Sample.env2)])
          Sample.world1).1) = 1%nat.
Proof.
  destruct (track_v1_no_duplicate Sample.digest Sample.secret
              Sample.trackingValidation1 Sample.text_of Sample.Date_of_Number
              Sample.toISOString "1700000000" "42" 1700000000000
              (Sample.numbered, Sample.env1) [(Sample.numbered, Sample.env2)]
              Sample.world1) as (H & _).
  - assert (exists t,
              Rev1.accepted Sample.digest Sample.secret Sample.trackingValidation1
                Sample.numbered t
              /\ Sample.text_of (Buffer.from_base64 (Rev1.device_id t)) = "1700000000"
              /\ Sample.text_of (Buffer.from_base64 (Rev1.device_uid t)) = "42") as Hone.
    { exists (Rev1.Tracking (Str "ada") "MTcwMDAwMDAwMA==" "NDI="
                (Str "Peak") (Str "0") (Num 3)).
      split; [|split; vm_compute; reflexivity].
      unfold Rev1.accepted. cbn [Sample.numbered x_signature rawBody].
      rewrite Base64Facts.from_base64_toString.
      split; [reflexivity|]. split; reflexivity. }
    apply Forall_cons. split; [exact Hone|].
    apply Forall_cons. split; [exact Hone|constructor].
  - vm_compute. reflexivity.
  - vm_compute. reflexivity.
  - unfold table_ok, column. cbn.
    split; [|split]; [apply NoDup_ListNoDup .. |];
      repeat constructor; cbn; try (intros H; intuition discriminate); eauto.
  - intros _. unfold column. cbn. intros Hin. apply list_elem_of_In in Hin.
    cbn in Hin. intuition discriminate.
  - exact H.
Defined.

Lemma track_reply_position_witness :
  exists w1 r position,
    Rev2.track Sample.digest Sample.secret Sample.trackingValidation
      colon_hex_bytes (Sample.signed "203.0.113.1") Sample.env1 Sample.legacy_world
    = (w1, Ok (Sent 200 (TrackData (Some r) position)))
    /\ r !! "device_id" = Some (Str Sample.currentKey)
    /\ 1 <= position.
Proof.
  destruct (track_reply_position Sample.digest Sample.secret
              Sample.trackingValidation colon_hex_bytes
              (Sample.signed "203.0.113.1") Sample.env1 Sample.legacy_world
              (Rev2.Tracking (Str "ada") Sample.mac 1700000000
                 (Str "Peak Pro") (Str "21") (Num 420))
              Sample.legacyKey 1700000000000)
    as (w1 & r & position & Htrack & _ & Hr & Hpos & _).
  - unfold Rev2.accepted. cbn [Sample.signed x_signature rawBody].
    unfold Sample.body64. rewrite Base64Facts.from_base64_toString.
    split; [reflexivity|]. split; reflexivity.
  - vm_compute. reflexivity.
  - reflexivity.
  - cbn. tauto.
  - exact sample_table_ok.
  - intros [_ Hnew]. unfold present, column in Hnew. cbn in Hnew.
    apply list_elem_of_In in Hnew. cbn in Hnew. intuition discriminate.
  - unfold column. cbn. intros Hin. apply list_elem_of_In in Hin. cbn in Hin.
    intuition discriminate.
  - exists w1, r, position. split; [exact Htrack|]. split; [exact Hr|lia].
Defined.

(** ** The authentication hook *)

Module MiddlewareFacts.
Import Middleware.

Lemma findFirst_id_elem id table u :
  findFirst_id id table = Some u ->
  u ∈ table /\ (forall v, id = Some v -> u !! "id" = Some (Str v)).
Proof.
  unfold findFirst_id, db_findFirst. destruct id as [v|].
  - intros H. apply find_some in H as [Hin Hhas].
    split; [now apply list_elem_of_In|].
    intros v' [= <-]. now apply StoreFacts.has_true.
  - intros H. split; [|discriminate].
    destruct table as [|x l]; [discriminate|]. injection H as ->.
    apply elem_of_cons. now left.
Qed.

End MiddlewareFacts.

(** X11.  With [required] set, the hook lets a request through only with
    a non-empty authorization header, a session for it and a user: the user
    it puts on the request is a row of the users table, the one with the
    session's [user_id] when the session names one, and with [admin] set
    that user carries the admin flag. *)
Theorem hook_required_sets_user
    (hgetall : string -> option (gmap string string)) (UserFlags_admin : Z)
    (opts : Middleware.options) (authorization : option string)
    (users connections : list row) :
  let out := Middleware.preParsing hgetall UserFlags_admin opts authorization
               users connections in
  Middleware.required opts = true ->
  Middleware.sent out = None ->
  exists session u,
    truthy authorization = true
    /\ hgetall (Middleware.session_key authorization) = Some session
    /\ Middleware.req_user out = Some u
    /\ u ∈ users
    /\ (forall id, session !! "user_id" = Some id -> u !! "id" = Some (Str id))
    /\ (Middleware.admin opts = true ->
        Z.land (Middleware.ToInt32 (Middleware.flags_of (Some u)))
          (Middleware.ToInt32 UserFlags_admin) <> 0).
Proof.
  intros out Hreq. subst out. unfold Middleware.preParsing. rewrite Hreq, !andb_true_r.
  destruct (truthy authorization) eqn:Hauth; cbn [negb]; [|discriminate].
  destruct (hgetall (Middleware.session_key authorization)) as [session|];
    [|discriminate].
  destruct (Middleware.findFirst_id (session !! "user_id") users) as [u|] eqn:Hu.
  2: { rewrite bool_decide_eq_false_2 by (intros [? ?]; discriminate). discriminate. }
  rewrite bool_decide_eq_true_2 by now eexists. cbn [negb].
  apply MiddlewareFacts.findFirst_id_elem in Hu as [Hin Hid].
  destruct (Middleware.admin opts && Middleware.lacks_admin UserFlags_admin (Some u))
    eqn:Hadmin; [discriminate|].
  intros _. exists session, u. cbn [Middleware.req_user].
  split; [reflexivity|]. split; [reflexivity|]. split; [reflexivity|].
  split; [exact Hin|]. split; [exact Hid|].
  intros Ha. rewrite Ha in Hadmin. cbn [andb] in Hadmin.
  unfold Middleware.lacks_admin in Hadmin. now apply Z.eqb_neq in Hadmin.
Qed.

(** X12.  Registered without options, as on the public routes, the hook
    never answers: the request goes on whatever the header and the session
    store hold, with the user and the connection the session leads to, if
    any. *)
Theorem hook_public_never_answers
    (hgetall : string -> option (gmap string string)) (UserFlags_admin : Z)
    (authorization : option string) (users connections : list row) :
  let out := Middleware.preParsing hgetall UserFlags_admin
               (Middleware.Options false false) authorization users connections in
  Middleware.sent out = None
  /\ Middleware.req_user out
     = (session ← hgetall (Middleware.session_key authorization);
        Middleware.findFirst_id (session !! "user_id") users)
  /\ Middleware.req_linkedConnection out
     = (session ← hgetall (Middleware.session_key authorization);
        Middleware.findFirst_id (session !! "connection_id") connections).
Proof.
  cbn zeta. unfold Middleware.preParsing. cbn [Middleware.required Middleware.admin].
  rewrite !andb_false_r. cbn [andb].
  destruct (hgetall (Middleware.session_key authorization)) as [session|];
    rewrite ?andb_false_r; cbn [mbind option_bind]; now repeat split.
Qed.

(** X13.  What the hook answers and the user it sets do not depend on the
    connections table: the test after the connection lookup is the test on
    the user again, so a session whose connection is missing is never
    turned away for it. *)
Theorem hook_ignores_connections
    (hgetall : string -> option (gmap string string)) (UserFlags_admin : Z)
    (opts : Middleware.options) (authorization : option string)
    (users connections connections' : list row) :
  Middleware.sent (Middleware.preParsing hgetall UserFlags_admin opts
                     authorization users connections)
  = Middleware.sent (Middleware.preParsing hgetall UserFlags_admin opts
                       authorization users connections')
  /\ Middleware.req_user (Middleware.preParsing hgetall UserFlags_admin opts
                            authorization users connections)
     = Middleware.req_user (Middleware.preParsing hgetall UserFlags_admin opts
                              authorization users connections').
Proof.
  unfold Middleware.preParsing.
  destruct (negb (truthy authorization) && Middleware.required opts);
    [now split|].
  destruct (hgetall (Middleware.session_key authorization)) as [session|].
  - destruct (negb (bool_decide (is_Some (Middleware.findFirst_id
                                            (session !! "user_id") users)))
              && Middleware.required opts); [now split|].
    destruct (Middleware.admin opts && Middleware.lacks_admin UserFlags_admin _);
      now split.
  - destruct (Middleware.required opts); now split.
Qed.

(** X14.  A session object without a [user_id] (what a client answers
    that returns an empty object for a key it does not hold) is looked up
    with an undefined [id]: on a required route the request goes on as the
    first row of the users table. *)
Theorem hook_session_without_user_id
    (hgetall : string -> option (gmap string string)) (UserFlags_admin : Z)
    (authorization : option string) (session : gmap string string)
    (first : row) (others connections : list row) :
  truthy authorization = true ->
  hgetall (Middleware.session_key authorization) = Some session ->
  session !! "user_id" = None ->
  Middleware.preParsing hgetall UserFlags_admin (Middleware.Options false true)
    authorization (first :: others) connections
  = Middleware.Outcome None (Some first)
      (Middleware.findFirst_id (session !! "connection_id") connections).
Proof.
  intros Hauth Hsession Hid. unfold Middleware.preParsing.
  rewrite Hauth, Hsession, Hid. reflexivity.
Qed.

Lemma hook_session_without_user_id_witness :
  Middleware.req_user
    (Middleware.preParsing (fun _ => Some ∅) 1 (Middleware.Options false true)
       (Some "anything")
       [ {[ "id" := Str "user_1"; "name" := Str "ada" ]};
         {[ "id" := Str "user_2"; "name" := Str "bob" ]} ] [])
  = Some {[ "id" := Str "user_1"; "name" := Str "ada" ]}.
Proof.
  rewrite (hook_session_without_user_id (fun _ => Some ∅) 1 (Some "anything") ∅);
    reflexivity.
Defined.

Lemma hook_required_sets_user_witness :
  exists u,
    Middleware.req_user
      (Middleware.preParsing
         (fun key => if String.eqb key "sessions/token_1"
                     then Some {[ "user_id" := "user_2"; "connection_id" := "connection_9" ]}
                     else None)
         1 (Middleware.Options true true) (Some "token_1")
         [ {[ "id" := Str "user_1"; "flags" := Num 0 ]};
           {[ "id" := Str "user_2"; "flags" := Num 3 ]} ] [])
    = Some u
    /\ u !! "id" = Some (Str "user_2").
Proof.
  destruct (hook_required_sets_user
              (fun key => if String.eqb key "sessions/token_1"
                          then Some {[ "user_id" := "user_2"; "connection_id" := "connection_9" ]}
                          else None)
              1 (Middleware.Options true true) (Some "token_1")
              [ {[ "id" := Str "user_1"; "flags" := Num 0 ]};
                {[ "id" := Str "user_2"; "flags" := Num 3 ]} ] [])
    as (session & u & _ & Hs & Hu & _ & Hid & _).
  - reflexivity.
  - vm_compute. reflexivity.
  - exists u. split; [exact Hu|]. apply Hid.
    cbn in Hs. injection Hs as <-. reflexivity.
Defined.

(** ** The third revision's tables *)

Module TableFacts.
Import StoreFacts.

Lemma conflicts_on_false cols (r : row) others :
  conflicts_on cols r others = false
  <-> (forall col, col ∈ cols -> r !! col ∉ column col others).
Proof.
  unfold conflicts_on. rewrite <- not_true_iff_false, existsb_exists. split.
  - intros Hno col Hcol Hin. apply Hno. unfold column in Hin.
    apply list_elem_of_fmap in Hin as (o & Ho & Hin).
    exists o. split; [now apply list_elem_of_In|].
    apply existsb_exists. exists col. split; [now apply list_elem_of_In|].
    unfold same_key. now apply bool_decide_eq_true_2.
  - intros Hall (o & Hin & Hex). apply existsb_exists in Hex as (col & Hcol & Hsame).
    unfold same_key in Hsame. apply bool_decide_eq_true_1 in Hsame.
    apply (Hall col); [now apply list_elem_of_In|].
    rewrite <- Hsame. unfold column. apply list_elem_of_fmap.
    exists o. split; [reflexivity|now apply list_elem_of_In].
Qed.

Lemma update_at cols col v data b (r : row) a :
  r !! col = Some v ->
  NoDup (column col (b ++ r :: a)) ->
  (forall c, c ∈ cols -> (data ∪ r) !! c ∉ column c (b ++ a)) ->
  table_update cols col (Some v) data (b ++ r :: a) = Ok (b ++ (data ∪ r) :: a).
Proof.
  intros Hr Hnd Hfree. unfold table_update.
  destruct (findFirst_unique col v b r a Hr Hnd) as [-> _].
  cbn zeta. now rewrite (proj2 (conflicts_on_false _ _ _) Hfree).
Qed.

(** An update changes at most the row it addresses, whatever it answers. *)
Lemma update_shape cols col v data s s' :
  table_update cols col v data s = Ok s' ->
  exists b r a, s = b ++ r :: a /\ s' = b ++ (data ∪ r) :: a.
Proof.
  unfold table_update. destruct v as [v|]; [|discriminate].
  destruct (split_first (has col v) s) as [[[b r] a]|] eqn:Hsplit; [|discriminate].
  apply split_first_Some in Hsplit as (-> & _ & _). cbn zeta.
  destruct (conflicts_on _ _ _); [discriminate|]. intros [= <-]. now exists b, r, a.
Qed.

Lemma create_shape cols data s s' :
  table_create cols data s = Ok s' -> s' = s ++ [data].
Proof.
  unfold table_create. destruct (conflicts_on _ _ _); [discriminate|]. now intros [= <-].
Qed.

Lemma column_snoc col (s : list row) (r : row) :
  column col (s ++ [r]) = column col s ++ [r !! col].
Proof. unfold column. now rewrite fmap_app. Qed.

End TableFacts.

Module Rev3Facts.
Import StoreFacts TableFacts Handler Rev3.

Ltac run_handler :=
  unfold mbind, St_bind, mret, St_ret, raise, of_result, catching, parsed,
    findFirst_device, update_device, create_device, create_diagnostic,
    Rev3.console_error, respond;
  cbn [devices diagnostics console fst snd].

Lemma sanitized_strip keys r : sanitized keys r = Some (strip keys (of_row r)).
Proof. reflexivity. Qed.

Lemma devices_ok_middle b (r : row) a :
  devices_ok (b ++ r :: a) <->
  ((r !! "id" ∉ column "id" (b ++ a)) /\ (r !! "mac" ∉ column "mac" (b ++ a))
   /\ is_Some (r !! "id") /\ is_Some (r !! "mac") /\ devices_ok (b ++ a)).
Proof.
  unfold devices_ok. rewrite !NoDup_column_middle, !Forall_app, Forall_cons. tauto.
Qed.

Lemma mac_split mac s :
  Some (Str mac) ∈ column "mac" s ->
  exists b r a, s = b ++ r :: a /\ r !! "mac" = Some (Str mac).
Proof.
  unfold column. intros H. apply list_elem_of_fmap in H as (r & Hr & Hin).
  apply list_elem_of_split in Hin as (b & a & ->). now exists b, r, a.
Qed.

Lemma count_mac_present mac s :
  NoDup (column "mac" s) -> Some (Str mac) ∈ column "mac" s -> count_mac mac s = 1%nat.
Proof.
  intros Hnd Hin. destruct (mac_split _ _ Hin) as (b & r & a & -> & Hr).
  apply NoDup_column_middle in Hnd as [Hfree _]. rewrite Hr in Hfree.
  assert (forall l, Some (Str mac) ∉ column "mac" l ->
                    List.filter (has "mac" (Str mac)) l = []) as Hnone.
  { intros l Hl. apply absent_has in Hl. induction Hl as [|x l Hx _ IH]; [reflexivity|].
    cbn [List.filter]. now rewrite Hx. }
  unfold count_mac. rewrite List.filter_app. cbn [List.filter].
  rewrite (proj2 (has_true "mac" (Str mac) r) Hr).
  assert ((Some (Str mac) ∉ column "mac" b) /\ (Some (Str mac) ∉ column "mac" a))
    as [Hb Ha].
  { unfold column in *. rewrite fmap_app in Hfree.
    split; intros H; apply Hfree; apply elem_of_app; [now left|now right]. }
  rewrite (Hnone b Hb), (Hnone a Ha). reflexivity.
Qed.

Lemma update_data_none t date ip ev req col :
  col ∈ ["id"; "mac"; "profiles"; "serial_number"] ->
  update_data t date ip ev req !! col = None.
Proof.
  intros Hcol. unfold update_data.
  apply lookup_union_None. split.
  - unfold opt_column. destruct (user req); [|apply lookup_empty].
    apply lookup_singleton_ne. intros <-.
    apply list_elem_of_In in Hcol. cbn in Hcol. intuition discriminate.
  - apply list_elem_of_In in Hcol. cbn in Hcol.
    repeat (destruct Hcol as [<-|Hcol]; [reflexivity|]). destruct Hcol.
Qed.

Lemma create_v3_id t date ip ev req :
  create_data t date ip ev req !! "id" = Some (Str (pika_gen ev)).
Proof. unfold create_data, opt_column. now destruct (user req). Qed.

Lemma create_v3_mac t date ip ev req :
  create_data t date ip ev req !! "mac" = Some (Str (device_mac t)).
Proof. unfold create_data, opt_column. now destruct (user req). Qed.

Section Handler.

Variable digest : list byte -> list byte -> string.
Variable secret : list byte.
Variable trackingValidation : list byte -> option tracking.
Variable device_leaderboard : list row -> list row.

Local Abbreviation track :=
  (Rev3.track digest secret trackingValidation device_leaderboard).

Lemma verified_signed req s :
  signed digest secret req ->
  verified digest secret req s = (s, Ok (Buffer.from_base64 (rawBody req))).
Proof.
  intros [_ Hsig]. unfold verified, of_result. rewrite Hsig. cbn [default].
  now rewrite verifyRequest_accepts.
Qed.

(** An accepted submission is written, and the device is read back. *)
Lemma track3_accepted req ev s t date :
  let mac := device_mac t in
  let upd := update_data t date (client_ip req) ev req in
  let crt := create_data t date (client_ip req) ev req in
  signed digest secret req ->
  trackingValidation (Buffer.from_base64 (rawBody req)) = Some t ->
  Date_of_seconds (device_dob t) = Some date ->
  devices_ok (devices s) ->
  (Some (Str mac) ∉ column "mac" (devices s) ->
   Some (Str (pika_gen ev)) ∉ column "id" (devices s)) ->
  exists s1 r,
    track req ev s
    = (s1, Ok (Tracked (Some (strip private_columns (of_row r)))
                 (table_findFirst "id" (r !! "id") (device_leaderboard (devices s1))
                  ≫= (.!! "position"))))
    /\ diagnostics s1 = diagnostics s /\ console s1 = console s
    /\ devices_ok (devices s1)
    /\ r !! "mac" = Some (Str mac)
    /\ Some (Str mac) ∈ column "mac" (devices s1)
    /\ (Some (Str mac) ∈ column "mac" (devices s) ->
        exists b r0 a,
          devices s = b ++ r0 :: a /\ r0 !! "mac" = Some (Str mac)
          /\ r = upd ∪ r0 /\ devices s1 = b ++ r :: a)
    /\ (Some (Str mac) ∉ column "mac" (devices s) ->
        r = crt /\ devices s1 = devices s ++ [crt]).
Proof.
  intros mac upd crt Hsigned Hvalid Hdate Hok Hfresh.
  destruct s as [ds dg cs]. cbn [devices diagnostics console] in *.
  unfold Rev3.track. rewrite (proj1 Hsigned). cbn [negb].
  unfold mbind at 1, St_bind at 1. rewrite (verified_signed req _ Hsigned).
  unfold catching, parsed. rewrite Hvalid.
  unfold mbind at 1, St_bind at 1, mret at 1, St_ret at 1. rewrite Hdate.
  fold mac upd crt.
  destruct (decide (Some (Str mac) ∈ column "mac" ds)) as [Hin|Hout].
  - destruct (mac_split _ _ Hin) as (b & r0 & a & -> & Hr0).
    destruct (findFirst_unique "mac" (Str mac) b r0 a Hr0 (proj1 (proj2 Hok)))
      as [_ Hfind].
    pose proof Hok as Hok'. apply devices_ok_middle in Hok' as (H1 & H2 & H3 & H4 & H5).
    assert ((upd ∪ r0) !! "id" = r0 !! "id") as Hid.
    { apply lookup_union_r, update_data_none, list_elem_of_In. cbn. tauto. }
    assert ((upd ∪ r0) !! "mac" = r0 !! "mac") as Hmac.
    { apply lookup_union_r, update_data_none, list_elem_of_In. cbn. tauto. }
    assert (table_update device_keys "mac" (Some (Str mac)) upd (b ++ r0 :: a)
            = Ok (b ++ (upd ∪ r0) :: a)) as Hupd.
    { apply update_at; [exact Hr0|apply Hok|].
      intros c Hc. apply list_elem_of_In in Hc. cbn in Hc.
      destruct Hc as [<-|[<-|[]]]; [now rewrite Hid|now rewrite Hmac]. }
    assert (devices_ok (b ++ (upd ∪ r0) :: a)) as Hok1.
    { apply devices_ok_middle. rewrite Hid, Hmac. tauto. }
    destruct (findFirst_unique "mac" (Str mac) b (upd ∪ r0) a
                (eq_trans Hmac Hr0) (proj1 (proj2 Hok1))) as [_ Hfind1].
    exists (Store (b ++ (upd ∪ r0) :: a) dg cs), (upd ∪ r0).
    split.
    { run_handler. cbn [table_findFirst]. rewrite Hfind. run_handler.
      rewrite Hupd. run_handler. cbn [table_findFirst]. rewrite !Hfind1.
      reflexivity. }
    cbn [devices diagnostics console].
    split; [reflexivity|]. split; [reflexivity|]. split; [exact Hok1|].
    split; [now rewrite Hmac|]. split.
    { apply elem_of_column_middle. left. now rewrite Hmac. }
    split; [|intros Habs; now destruct Habs].
    intros _. now exists b, r0, a.
  - destruct (findFirst_absent "mac" (Str mac) ds Hout) as [_ Hfind].
    assert (table_create device_keys crt ds = Ok (ds ++ [crt])) as Hcrt.
    { unfold table_create. rewrite (proj2 (conflicts_on_false _ _ _)); [reflexivity|].
      intros c Hc. apply list_elem_of_In in Hc. cbn in Hc.
      destruct Hc as [<-|[<-|[]]].
      - unfold crt. rewrite create_v3_id. now apply Hfresh.
      - unfold crt. now rewrite create_v3_mac. }
    assert (devices_ok (ds ++ [crt])) as Hok1.
    { destruct Hok as (Hids & Hmacs & Hall). unfold devices_ok.
      rewrite !column_snoc. split; [|split].
      - apply NoDup_app. split; [exact Hids|]. split; [|apply NoDup_singleton].
        intros x Hx Hin. apply list_elem_of_singleton in Hin. subst x.
        unfold crt in Hx. rewrite create_v3_id in Hx. now apply (Hfresh Hout).
      - apply NoDup_app. split; [exact Hmacs|]. split; [|apply NoDup_singleton].
        intros x Hx Hin. apply list_elem_of_singleton in Hin. subst x.
        unfold crt in Hx. rewrite create_v3_mac in Hx. now apply Hout.
      - apply Forall_app. split; [exact Hall|]. constructor; [|constructor].
        unfold crt. rewrite create_v3_id, create_v3_mac. split; now eexists. }
    assert (db_findFirst "mac" (Str mac) (ds ++ [crt]) = Some crt) as Hfind1.
    { pose proof (findFirst_unique "mac" (Str mac) ds crt []) as H.
      destruct H as [_ H]; [apply create_v3_mac|apply Hok1|exact H]. }
    exists (Store (ds ++ [crt]) dg cs), crt.
    split.
    { run_handler. cbn [table_findFirst]. rewrite Hfind. run_handler.
      rewrite Hcrt. run_handler. cbn [table_findFirst]. rewrite !Hfind1.
      reflexivity. }
    cbn [devices diagnostics console].
    split; [reflexivity|]. split; [reflexivity|]. split; [exact Hok1|].
    split; [apply create_v3_mac|]. split.
    { rewrite column_snoc. apply elem_of_app. right.
      apply list_elem_of_singleton. symmetry. apply create_v3_mac. }
    split; [intros Hin; now destruct Hout|]. intros _. now split.
Qed.

End Handler.

End Rev3Facts.

(** X15.  Third revision: any number (at least one) of accepted
    submissions for one MAC leave exactly one device row with that MAC;
    after the first of them the ids and MACs of the table stay as they are,
    nothing is logged, the diagnostics table is not touched, and every reply
    is a 200 whose device has none of the private columns. *)
Theorem track_v3_one_row_per_mac
    (digest : list byte -> list byte -> string) (secret : list byte)
    (trackingValidation : list byte -> option Rev3.tracking)
    (device_leaderboard : list row -> list row)
    (mac : string) (first : request * env) (rest : list (request * env))
    (s : Rev3.store) :
  let submit l :=
    Rev3.served
      (List.map (fun p => Rev3.track digest secret trackingValidation
                            device_leaderboard p.1 p.2) l) in
  Forall (fun p => Rev3.signed digest secret p.1
                   /\ exists t date,
                        trackingValidation (Buffer.from_base64 (rawBody p.1)) = Some t
                        /\ Rev3.device_mac t = mac
                        /\ Date_of_seconds (Rev3.device_dob t) = Some date)
    (first :: rest) ->
  Rev3.devices_ok (Rev3.devices s) ->
  (Some (Str mac) ∉ column "mac" (Rev3.devices s) ->
   Some (Str (pika_gen first.2)) ∉ column "id" (Rev3.devices s)) ->
  Rev3.count_mac mac (Rev3.devices (submit (first :: rest) s).1) = 1%nat
  /\ column "id" (Rev3.devices (submit (first :: rest) s).1)
     = column "id" (Rev3.devices (submit [first] s).1)
  /\ column "mac" (Rev3.devices (submit (first :: rest) s).1)
     = column "mac" (Rev3.devices (submit [first] s).1)
  /\ Rev3.diagnostics (submit (first :: rest) s).1 = Rev3.diagnostics s
  /\ Rev3.console (submit (first :: rest) s).1 = Rev3.console s
  /\ Forall (fun r => exists o position,
                        r = Ok (Rev3.Tracked (Some o) position)
                        /\ forall k, k ∈ Rev3.private_columns -> o !! k = None)
       (submit (first :: rest) s).2.
Proof.
  intros submit Hall Hok Hfresh.
  assert (forall r position,
            exists o position',
              Ok (Rev3.Tracked (Some (strip Rev3.private_columns (of_row r))) position)
              = Ok (Rev3.Tracked (Some o) position')
              /\ forall k, k ∈ Rev3.private_columns -> o !! k = None) as Hreply.
  { intros r position. eexists _, _. split; [reflexivity|].
    intros k Hk. now apply ReadFacts.strip_lookup. }
  assert (forall l s0,
            Forall (fun p => Rev3.signed digest secret p.1
                             /\ exists t date,
                                  trackingValidation (Buffer.from_base64 (rawBody p.1)) = Some t
                                  /\ Rev3.device_mac t = mac
                                  /\ Date_of_seconds (Rev3.device_dob t) = Some date) l ->
            Rev3.devices_ok (Rev3.devices s0) ->
            Some (Str mac) ∈ column "mac" (Rev3.devices s0) ->
            Rev3.devices_ok (Rev3.devices (submit l s0).1)
            /\ Some (Str mac) ∈ column "mac" (Rev3.devices (submit l s0).1)
            /\ column "id" (Rev3.devices (submit l s0).1) = column "id" (Rev3.devices s0)
            /\ column "mac" (Rev3.devices (submit l s0).1) = column "mac" (Rev3.devices s0)
            /\ Rev3.diagnostics (submit l s0).1 = Rev3.diagnostics s0
            /\ Rev3.console (submit l s0).1 = Rev3.console s0
            /\ Forall (fun r => exists o position,
                                  r = Ok (Rev3.Tracked (Some o) position)
                                  /\ forall k, k ∈ Rev3.private_columns -> o !! k = None)
                 (submit l s0).2) as Hlater.
  { intros l. induction l as [|[req ev] l IH]; intros s0 Hl Hok0 Hin0.
    - cbn. repeat (split; [done|]). constructor.
    - apply Forall_cons in Hl as [(Hsig & t & date & Hvalid & Hmac & Hdate) Hl].
      cbn [fst snd] in *.
      destruct (Rev3Facts.track3_accepted digest secret trackingValidation
                  device_leaderboard req ev s0 t date Hsig Hvalid Hdate Hok0)
        as (s1 & r & Htrack & Hdg & Hcs & Hok1 & Hr & Hin1 & Hupd & _).
      { rewrite Hmac. intros Hno. now destruct Hno. }
      rewrite Hmac in Hin1, Hupd.
      destruct (Hupd Hin0) as (b & r0 & a & Hs0 & Hr0 & -> & Hs1).
      destruct (IH s1 Hl Hok1 Hin1) as (H1 & H2 & H3 & H4 & H5 & H6 & H7).
      unfold submit in *. cbn [List.map Rev3.served fst snd]. rewrite Htrack.
      destruct (Rev3.served _ s1) as [s2 rs]. cbn [fst snd] in *.
      split; [exact H1|]. split; [exact H2|].
      assert (forall col, col ∈ ["id"; "mac"] ->
                column col (Rev3.devices s1) = column col (Rev3.devices s0)) as Hcols.
      { intros col Hcol. rewrite Hs1, Hs0. apply StoreFacts.column_replace.
        apply list_elem_of_In in Hcol. cbn in Hcol.
        destruct Hcol as [<-|[<-|[]]];
          apply lookup_union_r, Rev3Facts.update_data_none, list_elem_of_In;
          cbn; tauto. }
      split; [rewrite H3; apply Hcols, list_elem_of_In; cbn; tauto|].
      split; [rewrite H4; apply Hcols, list_elem_of_In; cbn; tauto|].
      split; [now rewrite H5|]. split; [now rewrite H6|].
      constructor; [apply Hreply|exact H7]. }
  apply Forall_cons in Hall as [(Hsig & t & date & Hvalid & Hmac & Hdate) Hrest].
  destruct first as [req ev]. cbn [fst snd] in *.
  destruct (Rev3Facts.track3_accepted digest secret trackingValidation
              device_leaderboard req ev s t date Hsig Hvalid Hdate Hok)
    as (s1 & r & Htrack & Hdg & Hcs & Hok1 & Hr & Hin1 & _).
  { now rewrite Hmac. }
  rewrite Hmac in Hin1.
  destruct (Hlater rest s1 Hrest Hok1 Hin1) as (H1 & H2 & H3 & H4 & H5 & H6 & H7).
  unfold submit in *. cbn [List.map Rev3.served fst snd]. rewrite Htrack.
  destruct (Rev3.served _ s1) as [s2 rs]. cbn [fst snd] in *.
  split; [apply Rev3Facts.count_mac_present; [apply H1|exact H2]|].
  split; [exact H3|]. split; [exact H4|].
  split; [now rewrite H5|]. split; [now rewrite H6|].
  constructor; [apply Hreply|exact H7].
Qed.

(** X16.  Third revision, a device already stored under its MAC: an
    accepted submission rewrites that row where it stands, keeps its [id],
    [mac] and the two columns POST /diag maintains ([profiles],
    [serial_number]), and sends the row back without [mac], [last_ip] and
    [user_id]. *)
Theorem track_v3_known_device
    (digest : list byte -> list byte -> string) (secret : list byte)
    (trackingValidation : list byte -> option Rev3.tracking)
    (device_leaderboard : list row -> list row)
    (req : request) (ev : env) (s : Rev3.store) (t : Rev3.tracking) (date : Z) :
  let upd := Rev3.update_data t date (client_ip req) ev req in
  Rev3.signed digest secret req ->
  trackingValidation (Buffer.from_base64 (rawBody req)) = Some t ->
  Date_of_seconds (Rev3.device_dob t) = Some date ->
  Rev3.devices_ok (Rev3.devices s) ->
  Some (Str (Rev3.device_mac t)) ∈ column "mac" (Rev3.devices s) ->
  exists b r a s1 o position,
    Rev3.devices s = b ++ r :: a
    /\ r !! "mac" = Some (Str (Rev3.device_mac t))
    /\ Rev3.track digest secret trackingValidation device_leaderboard req ev s
       = (s1, Ok (Rev3.Tracked (Some o) position))
    /\ Rev3.devices s1 = b ++ (upd ∪ r) :: a
    /\ (forall col, col ∈ ["id"; "mac"; "profiles"; "serial_number"] ->
          (upd ∪ r) !! col = r !! col)
    /\ (upd ∪ r) !! "name" = Some (Rev3.device_name t)
    /\ (upd ∪ r) !! "dabs" = Some (Rev3.totalDabs t)
    /\ (upd ∪ r) !! "last_ip" = Some (Str (client_ip req))
    /\ (upd ∪ r) !! "last_active" = Some (Date (now ev))
    /\ o = strip Rev3.private_columns (of_row (upd ∪ r))
    /\ o !! "id" = Scalar <$> r !! "id"
    /\ o !! "dabs" = Some (Scalar (Rev3.totalDabs t))
    /\ o !! "mac" = None /\ o !! "last_ip" = None /\ o !! "user_id" = None.
Proof.
  intros upd Hsig Hvalid Hdate Hok Hin.
  destruct (Rev3Facts.track3_accepted digest secret trackingValidation
              device_leaderboard req ev s t date Hsig Hvalid Hdate Hok)
    as (s1 & r1 & Htrack & _ & _ & _ & _ & _ & Hupd & _).
  { intros Hno. now destruct Hno. }
  destruct (Hupd Hin) as (b & r & a & Hs & Hr & -> & Hs1). fold upd in Hs1, Htrack.
  assert (forall col, col ∈ ["id"; "mac"; "profiles"; "serial_number"] ->
            (upd ∪ r) !! col = r !! col) as Hframe.
  { intros col Hcol. now apply lookup_union_r, Rev3Facts.update_data_none. }
  assert (forall col v, upd !! col = Some v -> (upd ∪ r) !! col = Some v) as Hset.
  { intros col v Hv. now apply lookup_union_Some_l. }
  assert (forall col v, (upd ∪ r) !! col = Some v -> col ∉ Rev3.private_columns ->
            strip Rev3.private_columns (of_row (upd ∪ r)) !! col = Some (Scalar v))
    as Hsent.
  { intros col v Hv Hcol. rewrite ReadFacts.strip_lookup_other by exact Hcol.
    unfold of_row. now rewrite lookup_fmap, Hv. }
  assert (forall col, col ∈ Rev3.private_columns ->
            strip Rev3.private_columns (of_row (upd ∪ r)) !! col = None) as Hhidden.
  { intros col Hcol. now apply ReadFacts.strip_lookup. }
  assert (forall col v, (forall u, opt_column "user_id" u !! col = None) ->
            (<["name" := Rev3.device_name t]>
             (<["dabs" := Rev3.totalDabs t]>
             (<["avg_dabs" := Rev3.dabsPerDay t]>
             (<["model" := Rev3.device_model t]>
             (<["firmware" := Rev3.firmware t]>
             (<["hardware" := Rev3.hardware t]>
             (<["git_hash" := Rev3.gitHash t]>
             (<["dob" := Date date]>
             (<["last_active" := Date (now ev)]>
             (<["last_ip" := Str (client_ip req)]> (∅ : row))))))))))) !! col = Some v ->
            (upd ∪ r) !! col = Some v) as Hwritten.
  { intros col v Huser Hv. apply lookup_union_Some_l. unfold upd, Rev3.update_data.
    rewrite lookup_union_r by apply Huser. exact Hv. }
  assert (forall col, col <> "user_id" -> forall u, opt_column "user_id" u !! col = None)
    as Huser.
  { intros col Hcol [u|]; [now apply lookup_singleton_ne|apply lookup_empty]. }
  exists b, r, a, s1, (strip Rev3.private_columns (of_row (upd ∪ r))).
  eexists.
  split; [exact Hs|]. split; [exact Hr|]. split; [exact Htrack|].
  split; [exact Hs1|]. split; [exact Hframe|].
  split; [apply Hwritten; [now apply Huser|reflexivity]|].
  split; [apply Hwritten; [now apply Huser|reflexivity]|].
  split; [apply Hwritten; [now apply Huser|reflexivity]|].
  split; [apply Hwritten; [now apply Huser|reflexivity]|].
  split; [reflexivity|].
  split.
  { rewrite ReadFacts.strip_lookup_other.
    - unfold of_row. rewrite lookup_fmap. f_equal. apply Hframe, list_elem_of_In.
      cbn. tauto.
    - intros Hk. apply list_elem_of_In in Hk. cbn in Hk. intuition discriminate. }
  split.
  { apply Hsent; [apply Hwritten; [now apply Huser|reflexivity]|].
    intros Hk. apply list_elem_of_In in Hk. cbn in Hk. intuition discriminate. }
  repeat split; apply Hhidden, list_elem_of_In; cbn; tauto.
Qed.

(** ** POST /diag *)

Module DiagFacts.
Import StoreFacts TableFacts Handler Rev3 Rev3Facts.

Lemma set_column_ne c v (r : row) c' : c <> c' -> set_column c v r !! c' = r !! c'.
Proof. intros Hne. destruct v; [now apply lookup_insert_ne|reflexivity]. Qed.

Lemma set_column_eq c v (r : row) :
  r !! c = None -> set_column c v r !! c = v.
Proof. intros Hr. destruct v; [apply lookup_insert_eq|exact Hr]. Qed.

(** The update of POST /diag names no column but [profiles] and
    [serial_number]. *)
Lemma diag_update_frame (p n : option scalar) (r : row) :
  delete "profiles" (delete "serial_number"
    (set_column "profiles" p (set_column "serial_number" n ∅) ∪ r))
  = delete "profiles" (delete "serial_number" r).
Proof.
  apply map_eq. intros col.
  destruct (decide (col = "profiles")) as [->|H1];
    [now rewrite !lookup_delete_eq|].
  rewrite !(lookup_delete_ne _ "profiles") by congruence.
  destruct (decide (col = "serial_number")) as [->|H2];
    [now rewrite !lookup_delete_eq|].
  rewrite !(lookup_delete_ne _ "serial_number") by congruence.
  apply lookup_union_r.
  rewrite !set_column_ne by congruence. apply lookup_empty.
Qed.

Section Handler.

Variable digest : list byte -> list byte -> string.
Variable secret : list byte.
Variable diagValidation : list byte -> option diag.
Variable user_agent : request -> option string.

Lemma verified_outcome req s :
  truthy (x_signature req) = true ->
  (signed digest secret req
   /\ verified digest secret req s = (s, Ok (Buffer.from_base64 (rawBody req))))
  \/ verified digest secret req s = (s, Throw Rejected).
Proof.
  intros Htruthy. unfold verified, of_result, verifyRequest.
  destruct (timingSafeEqual _ _) eqn:E; [left|now right].
  apply timingSafeEqual_iff in E. split; [|reflexivity].
  split; [exact Htruthy|].
  destruct (x_signature req) as [sig|]; [|discriminate]. cbn [default] in E.
  now rewrite E.
Qed.

(** The device phase of POST /diag: the table is left as it was, or the row
    with the reported MAC has taken the two columns of the update. *)
Lemma device_phase (v : diag) s :
  let upd := set_column "profiles" (device_profiles v)
               (set_column "serial_number" (device_parameters v !! "serialNumber") ∅) in
  let phase : St store unit :=
    device ← findFirst_device "mac" (Str <$> mac v);
    match device with
    | Some _ => update_device "mac" (Str <$> mac v) upd
    | None => mret tt
    end in
  exists s1 r,
    phase s = (s1, r)
    /\ diagnostics s1 = diagnostics s /\ console s1 = console s
    /\ without_diag_columns <$> devices s1 = without_diag_columns <$> devices s
    /\ (forall m, mac v = Some m -> Some (Str m) ∉ column "mac" (devices s) ->
          s1 = s /\ r = Ok tt).
Proof.
  intros upd phase. subst phase. destruct s as [ds dg cs]. run_handler.
  destruct (table_findFirst "mac" (Str <$> mac v) ds) as [d|] eqn:Hfind; run_handler.
  - destruct (table_update device_keys "mac" (Str <$> mac v) upd ds) as [ds'|e] eqn:Hupd.
    + eexists _, _. split; [reflexivity|]. cbn [devices diagnostics console].
      split; [reflexivity|]. split; [reflexivity|].
      apply update_shape in Hupd as (b & r & a & -> & ->).
      split.
      * rewrite !fmap_app, !fmap_cons. unfold without_diag_columns at 2, upd.
        now rewrite diag_update_frame.
      * intros m Hm Hout. rewrite Hm in Hfind. cbn in Hfind.
        now rewrite (proj2 (findFirst_absent "mac" (Str m) _ Hout)) in Hfind.
    + eexists _, _. split; [reflexivity|]. cbn [devices diagnostics console].
      split; [reflexivity|]. split; [reflexivity|]. split; [reflexivity|].
      intros m Hm Hout. rewrite Hm in Hfind. cbn in Hfind.
      now rewrite (proj2 (findFirst_absent "mac" (Str m) _ Hout)) in Hfind.
  - eexists _, _. split; [reflexivity|]. cbn [devices diagnostics console].
    split; [reflexivity|]. split; [reflexivity|]. split; [reflexivity|].
    intros m Hm Hout. now split.
Qed.

Lemma device_phase_then {A} (k : St store A) (v : diag) s :
  (device ← findFirst_device "mac" (Str <$> mac v);
   match device with
   | Some _ =>
       update_device "mac" (Str <$> mac v)
         (set_column "profiles" (device_profiles v)
            (set_column "serial_number" (device_parameters v !! "serialNumber") ∅))
   | None => mret tt
   end;; k) s
  = match (device ← findFirst_device "mac" (Str <$> mac v);
           match device with
           | Some _ =>
               update_device "mac" (Str <$> mac v)
                 (set_column "profiles" (device_profiles v)
                    (set_column "serial_number"
                       (device_parameters v !! "serialNumber") ∅))
           | None => mret tt
           end) s with
    | (s1, Ok _) => k s1
    | (s1, Throw e) => (s1, Throw e)
    end.
Proof.
  unfold mbind, St_bind, findFirst_device.
  destruct (table_findFirst "mac" (Str <$> mac v) (devices s)); reflexivity.
Qed.

(** The write of the diagnostics row either appends it or fails with the
    tables as they were. *)
Lemma store_diag_cases (v : diag) ip ev req s :
  (exists date,
     diag_dob (dob v) = Some date
     /\ (Some (Str (pika_gen ev)) ∉ column "id" (diagnostics s))
     /\ store_diag user_agent v ip ev req s
        = (Store (devices s)
             (diagnostics s ++ [diag_data user_agent v date ip ev req]) (console s),
           Ok tt))
  \/ (exists e, store_diag user_agent v ip ev req s = (s, Throw e)).
Proof.
  unfold store_diag. destruct (diag_dob (dob v)) as [date|]; [|right; now eexists].
  unfold create_diagnostic, table_create.
  destruct (conflicts_on _ _ _) eqn:Hc; [right; now eexists|].
  left. exists date. split; [reflexivity|]. split; [|reflexivity].
  apply (proj1 (conflicts_on_false _ _ _)) with (col := "id") in Hc;
    [|apply list_elem_of_In; cbn; tauto].
  unfold diag_data in Hc. now rewrite lookup_insert_eq in Hc.
Qed.

(** What POST /diag can do, case by case. *)
Lemma diag_route_cases req ev s :
  let out := diag_route digest secret diagValidation user_agent req ev s in
  (truthy (x_signature req) = false
   /\ out = (s, Ok (Coded 400 "invalid_diag_data")))
  \/ (truthy (x_signature req) = true /\ out = (s, Throw Rejected))
  \/ (signed digest secret req
      /\ diagValidation (Buffer.from_base64 (rawBody req)) = None
      /\ out = (s, Throw ZodError))
  \/ (exists v s1,
        signed digest secret req
        /\ diagValidation (Buffer.from_base64 (rawBody req)) = Some v
        /\ diagnostics s1 = diagnostics s /\ console s1 = console s
        /\ without_diag_columns <$> devices s1 = without_diag_columns <$> devices s
        /\ (forall m, mac v = Some m -> Some (Str m) ∉ column "mac" (devices s) ->
              s1 = s)
        /\ ((exists date,
               diag_dob (dob v) = Some date
               /\ (Some (Str (pika_gen ev)) ∉ column "id" (diagnostics s))
               /\ out = (Store (devices s1)
                           (diagnostics s ++
                            [diag_data user_agent v date (client_ip req) ev req])
                           (console s),
                         Ok (Status 204)))
            \/ (exists e,
                  out = (Store (devices s1) (diagnostics s) (console s ++ [e]),
                         Ok (Coded 400 "invalid_tracking_data"))))).
Proof.
  cbn zeta. set (o := diag_route digest secret diagValidation user_agent req ev s).
  assert (o = diag_route digest secret diagValidation user_agent req ev s) as Hout
    by reflexivity.
  clearbody o. unfold diag_route in Hout.
  destruct (truthy (x_signature req)) eqn:Htruthy; cbn [negb] in Hout; [|now left].
  right. unfold mbind at 1, St_bind at 1 in Hout.
  destruct (verified_outcome req s Htruthy) as [[Hsigned Hv]|Hv];
    rewrite Hv in Hout; [|now left].
  right. unfold mbind at 1, St_bind at 1, parsed in Hout.
  destruct (diagValidation (Buffer.from_base64 (rawBody req))) as [v|] eqn:Hvalid;
    [|left; split; [exact Hsigned|]; split; [reflexivity|]; exact Hout].
  right. unfold mret at 1, St_ret at 1, catching in Hout.
  rewrite device_phase_then in Hout.
  destruct (device_phase v s) as (s1 & r & Hphase & Hdg & Hcs & Hframe & Hunknown).
  cbn zeta in Hphase. rewrite Hphase in Hout.
  exists v, s1. split; [exact Hsigned|]. split; [reflexivity|].
  split; [exact Hdg|]. split; [exact Hcs|]. split; [exact Hframe|].
  split; [intros m Hm Hout'; now apply (Hunknown m Hm Hout')|].
  destruct r as [[]|e].
  - unfold mbind at 1, St_bind at 1 in Hout.
    destruct (store_diag_cases v (client_ip req) ev req s1)
      as [(date & Hdob & Hfresh & Hs)|(e & Hs)]; rewrite Hs in Hout.
    + left. exists date. split; [exact Hdob|]. rewrite <- Hdg. split; [exact Hfresh|].
      unfold mret, St_ret in Hout. now rewrite Hcs in Hout.
    + right. exists e. unfold Rev3.console_error, mbind, St_bind, mret, St_ret in Hout.
      now rewrite Hdg, Hcs in Hout.
  - right. exists e. unfold Rev3.console_error, mbind, St_bind, mret, St_ret in Hout.
    now rewrite Hdg, Hcs in Hout.
Qed.

Lemma diag_route_v2_cases req ev s :
  let out := diag_route_v2 digest secret diagValidation user_agent req ev s in
  (truthy (x_signature req) = false
   /\ out = (s, Ok (Coded 400 "invalid_diag_data")))
  \/ (truthy (x_signature req) = true /\ out = (s, Throw Rejected))
  \/ (signed digest secret req
      /\ diagValidation (Buffer.from_base64 (rawBody req)) = None
      /\ out = (s, Throw ZodError))
  \/ (exists v,
        signed digest secret req
        /\ diagValidation (Buffer.from_base64 (rawBody req)) = Some v
        /\ ((exists date,
               diag_dob (dob v) = Some date
               /\ (Some (Str (pika_gen ev)) ∉ column "id" (diagnostics s))
               /\ out = (Store (devices s)
                           (diagnostics s ++
                            [diag_data user_agent v date (client_ip req) ev req])
                           (console s),
                         Ok (Status 204)))
            \/ (exists e,
                  out = (Store (devices s) (diagnostics s) (console s ++ [e]),
                         Ok (Coded 400 "invalid_tracking_data"))))).
Proof.
  cbn zeta. set (o := diag_route_v2 digest secret diagValidation user_agent req ev s).
  assert (o = diag_route_v2 digest secret diagValidation user_agent req ev s) as Hout
    by reflexivity.
  clearbody o. unfold diag_route_v2 in Hout.
  destruct (truthy (x_signature req)) eqn:Htruthy; cbn [negb] in Hout; [|now left].
  right. unfold mbind at 1, St_bind at 1 in Hout.
  destruct (verified_outcome req s Htruthy) as [[Hsigned Hv]|Hv];
    rewrite Hv in Hout; [|now left].
  right. unfold mbind at 1, St_bind at 1, parsed in Hout.
  destruct (diagValidation (Buffer.from_base64 (rawBody req))) as [v|] eqn:Hvalid;
    [|left; split; [exact Hsigned|]; split; [reflexivity|]; exact Hout].
  right. unfold mret at 1, St_ret at 1, catching in Hout.
  unfold mbind at 1, St_bind at 1 in Hout.
  exists v. split; [exact Hsigned|]. split; [reflexivity|].
  destruct (store_diag_cases v (client_ip req) ev req s)
    as [(date & Hdob & Hfresh & Hs)|(e & Hs)]; rewrite Hs in Hout.
  - left. exists date. now repeat split.
  - right. exists e. exact Hout.
Qed.

End Handler.

End DiagFacts.

(** X17.  Third revision, POST /diag, any request: no device row is added
    or removed and no column of a device row but [profiles] and
    [serial_number] changes; when the reported MAC is not in the table the
    devices are left as they were; and the diagnostics table either stays
    or grows by one row, the latter exactly with a 204. *)
Theorem diag_changes_two_columns
    (digest : list byte -> list byte -> string) (secret : list byte)
    (diagValidation : list byte -> option Rev3.diag)
    (user_agent : request -> option string)
    (req : request) (ev : env) (s : Rev3.store) :
  let out := Rev3.diag_route digest secret diagValidation user_agent req ev s in
  Rev3.without_diag_columns <$> Rev3.devices out.1
  = Rev3.without_diag_columns <$> Rev3.devices s
  /\ List.length (Rev3.devices out.1) = List.length (Rev3.devices s)
  /\ (forall v m,
        diagValidation (Buffer.from_base64 (rawBody req)) = Some v ->
        Rev3.mac v = Some m ->
        Some (Str m) ∉ column "mac" (Rev3.devices s) ->
        Rev3.devices out.1 = Rev3.devices s)
  /\ (Rev3.diagnostics out.1 = Rev3.diagnostics s
      \/ exists row,
           out.2 = Ok (Rev3.Status 204)
           /\ Rev3.diagnostics out.1 = Rev3.diagnostics s ++ [row]).
Proof.
  intros out.
  assert (Rev3.without_diag_columns <$> Rev3.devices out.1
          = Rev3.without_diag_columns <$> Rev3.devices s
          /\ (forall v m,
                diagValidation (Buffer.from_base64 (rawBody req)) = Some v ->
                Rev3.mac v = Some m ->
                Some (Str m) ∉ column "mac" (Rev3.devices s) ->
                Rev3.devices out.1 = Rev3.devices s)
          /\ (Rev3.diagnostics out.1 = Rev3.diagnostics s
              \/ exists row,
                   out.2 = Ok (Rev3.Status 204)
                   /\ Rev3.diagnostics out.1 = Rev3.diagnostics s ++ [row])) as H.
  { destruct (DiagFacts.diag_route_cases digest secret diagValidation user_agent
                req ev s) as [[_ H]|[[_ H]|[(_ & Hnone & H)|H]]].
    - subst out. rewrite H. cbn [fst snd]. split; [reflexivity|].
      split; [reflexivity|now left].
    - subst out. rewrite H. cbn [fst snd]. split; [reflexivity|].
      split; [reflexivity|now left].
    - subst out. rewrite H. cbn [fst snd]. split; [reflexivity|].
      split; [reflexivity|now left].
    - destruct H as (v & s1 & _ & Hvalid & Hdg & Hcs & Hframe & Hunknown & Hout).
      assert (Rev3.devices out.1 = Rev3.devices s1) as Hdev.
      { destruct Hout as [(date & _ & _ & Hout)|(e & Hout)];
          subst out; cbn zeta in Hout; now rewrite Hout. }
      split; [now rewrite Hdev|]. split.
      + intros v' m Hv' Hm Habs. rewrite Hv' in Hvalid. injection Hvalid as ->.
        rewrite Hdev. now rewrite (Hunknown m Hm Habs).
      + destruct Hout as [(date & _ & _ & Hout)|(e & Hout)];
          subst out; cbn zeta in Hout; rewrite Hout; cbn [fst snd Rev3.diagnostics].
        * right. now eexists.
        * now left. }
  destruct H as (H1 & H2 & H3). split; [exact H1|]. split; [|now split].
  apply (f_equal (@List.length _)) in H1. now rewrite !length_fmap in H1.
Qed.

(** X18.  POST /diag of the second and third revision ends in one of five
    ways: 400 [invalid_diag_data] for a request without a signature; a
    signature rejection or a schema error that leaves the handler, with the
    store untouched; 204 with one more diagnostics row and nothing logged;
    or 400 [invalid_tracking_data] with the error logged and no diagnostics
    row added.  The second revision's handler never changes the devices. *)
Theorem diag_outcomes
    (digest : list byte -> list byte -> string) (secret : list byte)
    (diagValidation : list byte -> option Rev3.diag)
    (user_agent : request -> option string)
    (req : request) (ev : env) (s : Rev3.store) :
  let out3 := Rev3.diag_route digest secret diagValidation user_agent req ev s in
  let out2 := Rev3.diag_route_v2 digest secret diagValidation user_agent req ev s in
  (forall out, out = out3 \/ out = out2 ->
     (truthy (x_signature req) = false
      /\ out = (s, Ok (Rev3.Coded 400 "invalid_diag_data")))
     \/ out = (s, Throw Rejected)
     \/ out = (s, Throw ZodError)
     \/ (out.2 = Ok (Rev3.Status 204)
         /\ Rev3.console out.1 = Rev3.console s
         /\ exists row, Rev3.diagnostics out.1 = Rev3.diagnostics s ++ [row])
     \/ (out.2 = Ok (Rev3.Coded 400 "invalid_tracking_data")
         /\ Rev3.diagnostics out.1 = Rev3.diagnostics s
         /\ exists e, Rev3.console out.1 = Rev3.console s ++ [e]))
  /\ Rev3.devices out2.1 = Rev3.devices s.
Proof.
  intros out3 out2. split.
  - intros out [->| ->].
    + destruct (DiagFacts.diag_route_cases digest secret diagValidation user_agent
                  req ev s) as [H|[[_ H]|[(_ & _ & H)|H]]].
      * now left.
      * right. now left.
      * right. right. now left.
      * destruct H as (v & s1 & _ & _ & _ & _ & _ & _ & Hout).
        do 3 right. subst out3.
        destruct Hout as [(date & _ & _ & Hout)|(e & Hout)];
          cbn zeta in Hout; rewrite Hout; cbn [fst snd Rev3.diagnostics Rev3.console].
        -- left. split; [reflexivity|]. split; [reflexivity|now eexists].
        -- right. split; [reflexivity|]. split; [reflexivity|now eexists].
    + destruct (DiagFacts.diag_route_v2_cases digest secret diagValidation user_agent
                  req ev s) as [H|[[_ H]|[(_ & _ & H)|H]]].
      * now left.
      * right. now left.
      * right. right. now left.
      * destruct H as (v & _ & _ & Hout).
        do 3 right. subst out2.
        destruct Hout as [(date & _ & _ & Hout)|(e & Hout)];
          cbn zeta in Hout; rewrite Hout; cbn [fst snd Rev3.diagnostics Rev3.console].
        -- left. split; [reflexivity|]. split; [reflexivity|now eexists].
        -- right. split; [reflexivity|]. split; [reflexivity|now eexists].
  - subst out2.
    destruct (DiagFacts.diag_route_v2_cases digest secret diagValidation user_agent
                req ev s) as [[_ H]|[[_ H]|[(_ & _ & H)|H]]];
      try (cbn zeta in H; now rewrite H).
    destruct H as (v & _ & _ & [(date & _ & _ & Hout)|(e & Hout)]);
      cbn zeta in Hout; now rewrite Hout.
Qed.

Module DiagRow.
Import Rev3.

Lemma copied (user_agent : request -> option string) v date ip ev req col field :
  (col, field) ∈ copied_parameters ->
  diag_data user_agent v date ip ev req !! col = device_parameters v !! field.
Proof.
  intros Hin. apply list_elem_of_In in Hin. unfold copied_parameters in Hin.
  cbn [In] in Hin. unfold diag_data, copied_parameters. cbn [foldr fst snd].
  repeat (destruct Hin as [[= <- <-]|Hin];
          [rewrite !lookup_insert_ne by discriminate;
           rewrite !DiagFacts.set_column_ne by discriminate;
           rewrite DiagFacts.set_column_eq; [reflexivity|];
           rewrite ?DiagFacts.set_column_ne by discriminate;
           apply lookup_empty|]).
  destruct Hin.
Qed.

End DiagRow.

(** X19.  A 204 from POST /diag means the body was signed and validated
    and exactly this row was appended: a fresh id, the caller's address, a
    user agent that is never empty ([unknown] when the header is missing),
    the MAC, every copied parameter, and for the birthday null when the
    device reports 1000 and the date of that many seconds otherwise. *)
Theorem diag_stored_row
    (digest : list byte -> list byte -> string) (secret : list byte)
    (diagValidation : list byte -> option Rev3.diag)
    (user_agent : request -> option string)
    (req : request) (ev : env) (s : Rev3.store) :
  let out := Rev3.diag_route digest secret diagValidation user_agent req ev s in
  out.2 = Ok (Rev3.Status 204) ->
  exists v stored seconds,
    Rev3.signed digest secret req
    /\ diagValidation (Buffer.from_base64 (rawBody req)) = Some v
    /\ Rev3.diagnostics out.1 = Rev3.diagnostics s ++ [stored]
    /\ (Some (Str (pika_gen ev)) ∉ column "id" (Rev3.diagnostics s))
    /\ stored !! "id" = Some (Str (pika_gen ev))
    /\ stored !! "ip" = Some (Str (client_ip req))
    /\ stored !! "user_agent" = Some (Str (or_else (user_agent req) "unknown"))
    /\ or_else (user_agent req) "unknown" <> EmptyString
    /\ Rev3.dob v = Some seconds
    /\ stored !! "device_dob"
       = Some (if seconds =? 1000 then Null else Date (seconds * 1000))
    /\ stored !! "device_mac" = Str <$> Rev3.mac v
    /\ (forall col field, (col, field) ∈ Rev3.copied_parameters ->
          stored !! col = Rev3.device_parameters v !! field).
Proof.
  intros out H204.
  destruct (DiagFacts.diag_route_cases digest secret diagValidation user_agent
              req ev s) as [[_ H]|[[_ H]|[(_ & _ & H)|H]]];
    try (subst out; cbn zeta in H; rewrite H in H204; discriminate).
  destruct H as (v & s1 & Hsigned & Hvalid & _ & _ & _ & _ & Hout).
  destruct Hout as [(date & Hdob & Hfresh & Hout)|(e & Hout)];
    [|subst out; cbn zeta in Hout; rewrite Hout in H204; discriminate].
  unfold Rev3.diag_dob in Hdob. destruct (Rev3.dob v) as [seconds|] eqn:Hsec;
    [|discriminate].
  exists v, (Rev3.diag_data user_agent v date (client_ip req) ev req), seconds.
  split; [exact Hsigned|]. split; [exact Hvalid|].
  split; [subst out; cbn zeta in Hout; now rewrite Hout|].
  split; [exact Hfresh|].
  split; [unfold Rev3.diag_data; apply lookup_insert_eq|].
  split; [unfold Rev3.diag_data; rewrite !lookup_insert_ne by discriminate;
          apply lookup_insert_eq|].
  split; [unfold Rev3.diag_data; rewrite !lookup_insert_ne by discriminate;
          apply lookup_insert_eq|].
  split.
  { unfold or_else. destruct (user_agent req) as [[|c a]|]; discriminate. }
  split; [exact Hsec|]. split.
  { unfold Rev3.diag_data. rewrite lookup_insert_ne by discriminate.
    rewrite lookup_insert_eq. f_equal.
    destruct (seconds =? 1000); [now injection Hdob|].
    unfold Date_of_seconds in Hdob. cbn zeta in Hdob.
    destruct (Z.abs (seconds * 1000) <=? 8640000000000000); [|discriminate].
    now injection Hdob. }
  split; [|intros col field; apply DiagRow.copied].
  unfold Rev3.diag_data. rewrite !lookup_insert_ne by discriminate.
  apply DiagFacts.set_column_eq.
  rewrite !DiagFacts.set_column_ne by discriminate.
  unfold Rev3.copied_parameters. cbn [foldr fst snd].
  rewrite !DiagFacts.set_column_ne by discriminate. apply lookup_empty.
Qed.

Lemma sample_signed_v3 ip :
  Rev3.signed Sample.digest Sample.secret (Sample.signed ip)
  /\ exists t date,
       Sample3.trackingValidation (Buffer.from_base64 (rawBody (Sample.signed ip)))
       = Some t
       /\ Rev3.device_mac t = Sample.mac
       /\ Date_of_seconds (Rev3.device_dob t) = Some date.
Proof.
  unfold Rev3.signed. cbn [Sample.signed x_signature rawBody].
  unfold Sample.body64. rewrite Base64Facts.from_base64_toString.
  split; [split; reflexivity|]. eexists _, _. split; [reflexivity|].
  split; reflexivity.
Qed.

Lemma track_v3_one_row_per_mac_witness :
  Rev3.count_mac Sample.mac
    (Rev3.devices
       (Rev3.served
          (List.map (fun p => Rev3.track Sample.digest Sample.secret
                                Sample3.trackingValidation
                                Sample3.device_leaderboard p.1 p.2)
             [(Sample.signed "203.0.113.1", Sample.env1);
              (Sample.signed "203.0.113.2", Sample.env2)])
          Sample3.empty_store).1) = 1%nat.
Proof.
  destruct (track_v3_one_row_per_mac Sample.digest Sample.secret
              Sample3.trackingValidation Sample3.device_leaderboard Sample.mac
              (Sample.signed "203.0.113.1", Sample.env1)
              [(Sample.signed "203.0.113.2", Sample.env2)]
              Sample3.empty_store) as (H & _).
  - apply Forall_cons. split; [apply sample_signed_v3|].
    apply Forall_cons. split; [apply sample_signed_v3|constructor].
  - unfold Rev3.devices_ok, column. cbn. split; [|split]; constructor.
  - intros _. unfold column. cbn. apply not_elem_of_nil.
  - exact H.
Defined.

Lemma track_v3_known_device_witness :
  exists s1 o position,
    Rev3.track Sample.digest Sample.secret Sample3.trackingValidation
      Sample3.device_leaderboard (Sample.signed "203.0.113.1") Sample.env1
      Sample3.known_store
    = (s1, Ok (Rev3.Tracked (Some o) position))
    /\ o !! "id" = Some (Scalar (Str "device_1"))
    /\ o !! "mac" = None.
Proof.
  destruct (track_v3_known_device Sample.digest Sample.secret
              Sample3.trackingValidation Sample3.device_leaderboard
              (Sample.signed "203.0.113.1") Sample.env1 Sample3.known_store
              (Rev3.Tracking Sample.mac 1700000000 (Str "Peak Pro")
                 (Num 420) (Num 12) (Str "21") (Str "X") (Str "4") (Str "abc123"))
              1700000000000)
    as (b & r & a & s1 & o & position & Hs & _ & Htrack & _ & _ & _ & _ & _ & _
        & _ & Hid & _ & Hmac & _).
  - apply sample_signed_v3.
  - cbn [Sample.signed rawBody]. unfold Sample.body64.
    rewrite Base64Facts.from_base64_toString. reflexivity.
  - reflexivity.
  - unfold Rev3.devices_ok, column. cbn.
    split; [|split]; [apply NoDup_singleton .. |].
    constructor; [|constructor]. split; now eexists.
  - unfold column. cbn. apply list_elem_of_In. cbn. tauto.
  - exists s1, o, position. split; [exact Htrack|]. split; [|exact Hmac].
    rewrite Hid. cbn in Hs. destruct b as [|x [|y b]]; cbn in Hs.
    + injection Hs as <- _. reflexivity.
    + injection Hs as _ Hs. destruct a; discriminate Hs.
    + injection Hs as _ Hs. discriminate Hs.
Defined.

Lemma diag_stored_row_witness :
  exists stored,
    Rev3.diagnostics
      (Rev3.diag_route Sample.digest Sample.secret Sample3.diagValidation
         Sample3.user_agent (Sample.signed "203.0.113.1") Sample.env1
         Sample3.known_store).1 = [stored]
    /\ stored !! "device_dob" = Some Null
    /\ stored !! "user_agent" = Some (Str "unknown").
Proof.
  destruct (diag_stored_row Sample.digest Sample.secret Sample3.diagValidation
              Sample3.user_agent (Sample.signed "203.0.113.1") Sample.env1
              Sample3.known_store)
    as (v & stored & seconds & _ & Hv & Hrows & _ & _ & _ & Hua & _
        & Hsec & Hdob & _).
  - vm_compute. reflexivity.
  - injection Hv as <-. injection Hsec as <-.
    exists stored. split; [exact Hrows|]. split; [exact Hdob|]. exact Hua.
Defined.

(* ===================================================================== *)
(** ** A submission and the lookup that follows it *)
(* ===================================================================== *)

(** X20.  Second revision, POST /track followed by GET /device/:device_id.
    After an accepted submission for a MAC written with colons, on a table
    that holds each device key once and at most one of the device's two
    keys, the table has a row under the current key with the caller's
    address as [last_ip]; GET /device with the current key answers that row
    without [last_ip], and GET /device with the legacy key answers 404
    [device_not_found]. *)
Theorem track_then_device
    (digest : list byte -> list byte -> string) (secret : list byte)
    (trackingValidation : list byte -> option Rev2.tracking)
    (macAddressToUint8Array : string -> list byte)
    (related_user : row -> option row) (position_of : row -> option scalar)
    (req : request) (ev : env) (w : world)
    (t : Rev2.tracking) (old : string) (date : Z) :
  let new := generatedDeviceId (Rev2.device_mac t) in
  let after := leaderboard (Rev2.track digest secret trackingValidation
                              macAddressToUint8Array req ev w).1 in
  Rev2.accepted digest secret trackingValidation req t ->
  oldGeneratedDeviceId macAddressToUint8Array (Rev2.device_mac t) = Some old ->
  Date_of_seconds (Rev2.device_dob t) = Some date ->
  In ":"%char (list_ascii_of_string (Rev2.device_mac t)) ->
  table_ok (leaderboard w) ->
  ~ (present old (leaderboard w) /\ present new (leaderboard w)) ->
  Some (Str (pika_gen ev)) ∉ column "id" (leaderboard w) ->
  (exists r,
     r ∈ after /\ r !! "device_id" = Some (Str new)
     /\ r !! "last_ip" = Some (Str (client_ip req))
     /\ sends (device_v2 related_user position_of after new)
        = Device (Some (strip ["last_ip"] (with_users related_user r)))
            (position_of r))
  /\ sends (device_v2 related_user position_of after old)
     = ReadFailure 404 "device_not_found".
Proof.
  intros new after Hacc Hold Hdate Hcolon Hok Hboth Hfresh. subst after.
  pose proof (KeyFacts.keys_differ _ _ _ Hcolon Hold) as Hne.
  destruct (Rev2Facts.track_accepted digest secret trackingValidation
              macAddressToUint8Array req ev w t old date Hacc Hold Hdate Hne Hok Hboth)
    as (w1 & sent & Htrack & _ & Hok1 & Hnew1 & Hold1 & Hupd & Hcrt); [auto|].
  rewrite Htrack. cbn [fst]. fold new in Hnew1, Hupd, Hcrt.
  destruct (StoreFacts.present_split _ _ Hnew1) as (b & r & a & Hs & Hr).
  assert (db_findFirst "device_id" (Str new) (leaderboard w1) = Some r) as Hfind.
  { rewrite Hs. apply StoreFacts.findFirst_unique; [exact Hr|].
    rewrite <- Hs. apply Hok1. }
  split.
  - exists r. split; [rewrite Hs; apply elem_of_app; right; apply elem_of_cons; now left|].
    split; [exact Hr|]. split.
    + destruct (decide (present new (Concurrent.migrated old new (leaderboard w))))
        as [Hp|Hp].
      * destruct (Hupd Hp) as (b' & r' & a' & _ & Hr' & Hs1).
        assert (r = Rev2.update_data t date (client_ip req) ev req ∪ r') as ->.
        { assert (db_findFirst "device_id" (Str new) (leaderboard w1)
                  = Some (Rev2.update_data t date (client_ip req) ev req ∪ r')) as H.
          { rewrite Hs1. apply StoreFacts.findFirst_unique.
            - rewrite Rev2Facts.union_keeps by apply Rev2Facts.update_data_key.
              exact Hr'.
            - rewrite <- Hs1. apply Hok1. }
          rewrite Hfind in H. now injection H. }
        apply lookup_union_Some_l. unfold Rev2.update_data, opt_column.
        destruct (user req); reflexivity.
      * assert (~ present old (leaderboard w) /\ ~ present new (leaderboard w))
          as [Hno_old Hno_new].
        { destruct (decide (present old (leaderboard w))) as [Ho|Ho].
          - exfalso. apply Hp.
            destruct (StoreFacts.present_split _ _ Ho) as (b' & od & a' & Hw & Hod).
            unfold Concurrent.migrated. rewrite Hw.
            destruct (StoreFacts.findFirst_unique "device_id" (Str old) b' od a' Hod)
              as [-> _]; [rewrite <- Hw; apply Hok|].
            unfold present. apply StoreFacts.elem_of_column_middle. left.
            rewrite <- insert_union_singleton_l. now rewrite lookup_insert_eq.
          - split; [exact Ho|]. intros Hn. apply Hp.
            now rewrite Rev2Facts.migrated_absent. }
        specialize (Hcrt Hno_old Hno_new).
        assert (r = Rev2.create_data t date (client_ip req) ev req new) as ->.
        { assert (db_findFirst "device_id" (Str new) (leaderboard w1)
                  = Some (Rev2.create_data t date (client_ip req) ev req new)) as H.
          { rewrite Hcrt.
            pose proof (StoreFacts.findFirst_unique "device_id" (Str new)
                          (leaderboard w)
                          (Rev2.create_data t date (client_ip req) ev req new) [])
              as H.
            apply H; [apply Rev2Facts.create_data_key|].
            rewrite <- Hcrt. apply Hok1. }
          rewrite Hfind in H. now injection H. }
        unfold Rev2.create_data, opt_column. destruct (user req); reflexivity.
    + unfold sends, device_v2. rewrite Hfind. reflexivity.
  - unfold sends, device_v2.
    now rewrite (proj2 (StoreFacts.findFirst_absent "device_id" (Str old) _ Hold1)).
Qed.

(** X21.  Third revision, POST /track followed by
    GET /device/:device_mac.  After an accepted submission the table has a
    row for the MAC, and GET /device with the id a client computes from the
    MAC ([generatedDeviceId]: ["device_"] and the base64 of the MAC) finds
    that row and answers it without its hidden columns, when decoding the
    bytes of the MAC as UTF-8 gives the MAC back. *)
Theorem track_then_device_v3
    (digest : list byte -> list byte -> string) (secret : list byte)
    (trackingValidation : list byte -> option Rev3.tracking)
    (device_leaderboard : list row -> list row)
    (related_user : row -> option row) (position_of : row -> option scalar)
    (toString_utf8 : list byte -> string)
    (req : request) (ev : env) (s : Rev3.store) (t : Rev3.tracking) (date : Z) :
  let mac := Rev3.device_mac t in
  let after := Rev3.devices (Rev3.track digest secret trackingValidation
                               device_leaderboard req ev s).1 in
  Rev3.signed digest secret req ->
  trackingValidation (Buffer.from_base64 (rawBody req)) = Some t ->
  Date_of_seconds (Rev3.device_dob t) = Some date ->
  Rev3.devices_ok (Rev3.devices s) ->
  (Some (Str mac) ∉ column "mac" (Rev3.devices s) ->
   Some (Str (pika_gen ev)) ∉ column "id" (Rev3.devices s)) ->
  toString_utf8 (Buffer.from_utf8 mac) = mac ->
  exists r,
    r ∈ after /\ r !! "mac" = Some (Str mac)
    /\ sends (device_v3 related_user position_of toString_utf8 after
                (generatedDeviceId mac))
       = Device (Some (strip hidden_columns (with_users related_user r)))
           (position_of r).
Proof.
  intros mac after Hsig Hvalid Hdate Hok Hfresh Hutf8. subst after.
  destruct (Rev3Facts.track3_accepted digest secret trackingValidation
              device_leaderboard req ev s t date Hsig Hvalid Hdate Hok Hfresh)
    as (s1 & r & Htrack & _ & _ & Hok1 & Hr & Hin & _).
  rewrite Htrack. cbn [fst]. fold mac in Hr, Hin.
  destruct (Rev3Facts.mac_split _ _ Hin) as (b & r' & a & Hs & Hr').
  assert (db_findFirst "mac" (Str mac) (Rev3.devices s1) = Some r') as Hfind.
  { rewrite Hs. apply StoreFacts.findFirst_unique; [exact Hr'|].
    rewrite <- Hs. apply Hok1. }
  exists r'. split; [rewrite Hs; apply elem_of_app; right; apply elem_of_cons; now left|].
  split; [exact Hr'|].
  unfold sends, device_v3, generatedDeviceId.
  rewrite KeyFacts.split_device_key, Base64Facts.from_base64_toString, Hutf8, Hfind.
  reflexivity.
Qed.

Lemma track_then_device_v3_witness :
  exists o position,
    sends (device_v3 (fun _ => None) (fun _ => None) Sample.text_of
             (Rev3.devices
                (Rev3.track Sample.digest Sample.secret Sample3.trackingValidation
                   Sample3.device_leaderboard (Sample.signed "203.0.113.1")
                   Sample.env1 Sample3.empty_store).1)
             Sample.currentKey)
    = Device (Some o) position.
Proof.
  destruct (track_then_device_v3 Sample.digest Sample.secret
              Sample3.trackingValidation Sample3.device_leaderboard
              (fun _ => None) (fun _ => None) Sample.text_of
              (Sample.signed "203.0.113.1") Sample.env1 Sample3.empty_store
              (Rev3.Tracking Sample.mac 1700000000 (Str "Peak Pro")
                 (Num 420) (Num 12) (Str "21") (Str "X") (Str "4") (Str "abc123"))
              1700000000000) as (r & _ & _ & Hsends).
  - apply sample_signed_v3.
  - cbn [Sample.signed rawBody]. unfold Sample.body64.
    rewrite Base64Facts.from_base64_toString. reflexivity.
  - reflexivity.
  - unfold Rev3.devices_ok, column. cbn. split; [|split]; constructor.
  - intros _. unfold column. cbn. apply not_elem_of_nil.
  - vm_compute. reflexivity.
  - eexists _, _. exact Hsends.
Defined.

Lemma track_then_device_witness :
  sends (device_v2 (fun _ => None) (fun _ => None)
           (leaderboard
              (Rev2.track Sample.digest Sample.secret Sample.trackingValidation
                 colon_hex_bytes (Sample.signed "203.0.113.1") Sample.env1
                 Sample.legacy_world).1)
           Sample.legacyKey)
  = ReadFailure 404 "device_not_found".
Proof.
  destruct (track_then_device Sample.digest Sample.secret
              Sample.trackingValidation colon_hex_bytes
              (fun _ => None) (fun _ => None)
              (Sample.signed "203.0.113.1") Sample.env1 Sample.legacy_world
              (Rev2.Tracking (Str "ada") Sample.mac 1700000000
                 (Str "Peak Pro") (Str "21") (Num 420))
              Sample.legacyKey 1700000000000) as [_ H].
  - unfold Rev2.accepted. cbn [Sample.signed x_signature rawBody].
    unfold Sample.body64. rewrite Base64Facts.from_base64_toString.
    split; [reflexivity|]. split; reflexivity.
  - vm_compute. reflexivity.
  - reflexivity.
  - cbn. tauto.
  - exact sample_table_ok.
  - intros [_ Hnew]. unfold present, column in Hnew. cbn in Hnew.
    apply list_elem_of_In in Hnew. cbn in Hnew. intuition discriminate.
  - unfold column. cbn. intros Hin. apply list_elem_of_In in Hin. cbn in Hin.
    intuition discriminate.
  - exact H.
Defined.

(* ===================================================================== *)
(** ** Third revision: signing in with Discord *)
(* ===================================================================== *)

Module AccountFacts.
Import StoreFacts TableFacts Accounts.

Ltac run_act :=
  unfold mbind, Act_bind, mret, Act_ret, fail, keydb_exists, keydb_set, keydb_del,
    put_object, delete_object, create_session, fetch_avatar;
  cbn [users connections sessions keydb bucket calls fst snd].

(** What a successful [hset] leaves under its key. *)
Lemma hset_done key fields s s' :
  keydb_hset key fields s = (s', Done tt) ->
  users s' = users s /\ connections s' = connections s /\ sessions s' = sessions s
  /\ bucket s' = bucket s /\ calls s' = calls s
  /\ (exists h, keydb s' = <[key := Hash h]> (keydb s)
                /\ forall f x, fields !! f = Some x -> h !! f = Some x).
Proof.
  unfold keydb_hset. destruct (keydb s !! key) as [[text e|old]|];
    [discriminate| |]; intros [= <-]; cbn [users connections sessions keydb bucket calls];
    repeat (split; [reflexivity|]); eexists; (split; [reflexivity|]).
  - intros f x Hf. now apply lookup_union_Some_l.
  - intros f x Hf. exact Hf.
Qed.

Lemma hset_cases key fields s :
  (exists s', keydb_hset key fields s = (s', Done tt))
  \/ keydb_hset key fields s = (s, Failed WrongType).
Proof.
  unfold keydb_hset. destruct (keydb s !! key) as [[text e|old]|];
    [now right|left; now eexists|left; now eexists].
Qed.

Lemma update_user_done id data s s' :
  update_user id data s = (s', Done tt) ->
  connections s' = connections s /\ sessions s' = sessions s
  /\ keydb s' = keydb s /\ bucket s' = bucket s /\ calls s' = calls s
  /\ exists b r a, users s = b ++ r :: a /\ users s' = b ++ (data ∪ r) :: a.
Proof.
  unfold update_user.
  destruct (table_update _ _ _ _ _) as [t|e] eqn:Hupd; [|discriminate].
  intros [= <-]. cbn [users connections sessions keydb bucket calls].
  repeat (split; [reflexivity|]). now apply update_shape in Hupd.
Qed.

Lemma create_user_done data s s' :
  create_user data s = (s', Done tt) ->
  connections s' = connections s /\ sessions s' = sessions s
  /\ keydb s' = keydb s /\ bucket s' = bucket s /\ calls s' = calls s
  /\ users s' = users s ++ [data]
  /\ data !! "id" ∉ column "id" (users s).
Proof.
  unfold create_user.
  destruct (table_create _ _ _) as [t|e] eqn:Hc; [|discriminate].
  intros [= <-]. cbn [users connections sessions keydb bucket calls].
  repeat (split; [reflexivity|]). split; [now apply create_shape in Hc|].
  unfold table_create in Hc. destruct (conflicts_on _ _ _) eqn:Hcf; [discriminate|].
  apply (proj1 (conflicts_on_false _ _ _) Hcf), list_elem_of_In. now left.
Qed.

Lemma create_connection_done data s s' :
  create_connection data s = (s', Done tt) ->
  users s' = users s /\ sessions s' = sessions s
  /\ keydb s' = keydb s /\ bucket s' = bucket s /\ calls s' = calls s
  /\ connections s' = connections s ++ [data].
Proof.
  unfold create_connection.
  destruct (table_create _ _ _) as [t|e] eqn:Hc; [|discriminate].
  intros [= <-]. cbn [users connections sessions keydb bucket calls].
  repeat (split; [reflexivity|]). now apply create_shape in Hc.
Qed.

Section Handlers.

Variable cfg : config.
Variable out : outside.

(** A sign-in that succeeds went through every step before the branch. *)
Lemma callback_done v s s' r :
  callback cfg out v s = (s', Done r) ->
  (r = Refused 400 "invalid_platform" /\ s' = s /\ platform v <> "discord")
  \/ (r = Refused 400 "invalid_state" /\ s' = s
      /\ keydb s !! state_key (query_state v) = None)
  \/ (platform v = "discord"
      /\ is_Some (keydb s !! state_key (query_state v))
      /\ exists t p,
           exchangeDiscordCode out (query_code v) (redirect_uri cfg v) = Some t
           /\ fetchDiscordUser out (access_token t) = Some p
           /\ match List.find (fun c => has "platform" (Str "discord") c
                                        && has "platform_id" (Str (id p)) c)
                        (connections s) with
              | Some c =>
                  sign_in_known out v p c
                    (u ← c !! "user_id"; db_findFirst "id" u (users s))
                    (exchanged cfg v t p s) = (s', Done r)
              | None => sign_up out v p (exchanged cfg v t p s) = (s', Done r)
              end).
Proof.
  intros H. unfold callback in H.
  destruct (String.eqb_spec (platform v) "discord") as [Hp|Hp].
  2: { injection H as <- <-. left. now repeat split. }
  right. unfold mbind at 1, Act_bind at 1, keydb_exists in H.
  destruct (decide (is_Some (keydb s !! state_key (query_state v)))) as [Hk|Hk].
  2: { rewrite bool_decide_eq_false_2 in H by exact Hk. cbn [negb] in H.
       injection H as <- <-. left. split; [reflexivity|]. split; [reflexivity|].
       now apply eq_None_not_Some. }
  rewrite bool_decide_eq_true_2 in H by exact Hk. cbn [negb] in H.
  right. split; [exact Hp|]. split; [exact Hk|].
  unfold mbind at 1, Act_bind at 1, exchange in H.
  destruct (exchangeDiscordCode out (query_code v) (redirect_uri cfg v)) as [t|]
    eqn:Ht; [|discriminate].
  unfold mbind at 1, Act_bind at 1, fetch_user in H.
  cbn [users connections sessions keydb bucket calls] in H.
  destruct (fetchDiscordUser out (access_token t)) as [p|] eqn:Hfetch;
    [|discriminate].
  unfold mbind at 1, Act_bind at 1, keydb_set at 1 in H.
  unfold mbind at 1, Act_bind at 1, keydb_del at 1 in H.
  unfold mbind at 1, Act_bind at 1, keydb_set at 1 in H.
  unfold mbind at 1, Act_bind at 1, find_connection in H.
  cbn [users connections sessions keydb bucket calls] in H.
  exists t, p. split; [reflexivity|]. split; [exact Hfetch|].
  destruct (List.find _ (connections s)) as [c|]; cbn [mbind option_bind] in H;
    exact H.
Qed.

(** The branch for a linked account: one session, no new account. *)
Lemma sign_in_known_done v p c linked s s' r :
  sign_in_known out v p c linked s = (s', Done r) ->
  exists user user' h,
    linked = Some user
    /\ r = SignedIn user' (<["users" := Relation (Some user')]> (of_row c))
             (gen out "session")
    /\ user' !! "id" = user !! "id"
    /\ keydb s' = <["sessions/" +:+ gen out "session" := Hash h]> (keydb s)
    /\ h !! "user_id" = Some (text_column "id" user)
    /\ h !! "connection_id" = Some (text_column "id" c)
    /\ sessions s'
       = sessions s ++ [session_row v (gen out "session") (text_column "id" user)
                          (text_column "id" c)]
    /\ connections s' = connections s
    /\ column "id" (users s') = column "id" (users s).
Proof.
  intros H. unfold sign_in_known in H. destruct linked as [user|]; [|discriminate].
  unfold mbind at 1, Act_bind at 1 in H.
  destruct (keydb_hset _ _ s) as [s1 [[]|f]] eqn:Hhset; [|discriminate].
  apply hset_done in Hhset as (Hu1 & Hc1 & Hs1 & Hb1 & Hcl1 & h & Hk1 & Hh).
  unfold mbind at 1, Act_bind at 1, create_session at 1 in H.
  unfold mbind at 1, Act_bind at 1 in H.
  set (s2 := State (users s1) (connections s1) (sessions s1 ++ _) (keydb s1)
               (bucket s1) (calls s1)) in H.
  assert (exists user',
            user' !! "id" = user !! "id"
            /\ (exists s3, keydb s3 = keydb s2 /\ sessions s3 = sessions s2
                           /\ connections s3 = connections s2
                           /\ column "id" (users s3) = column "id" (users s2)
                           /\ s' = s3)
            /\ r = SignedIn user' (<["users" := Relation (Some user')]> (of_row c))
                     (gen out "session")) as (user' & Hid & (s3 & Hk3 & Hs3 & Hc3 & Hu3 & ->) & ->).
  { destruct (bool_decide (user !! "image" = Some (Str (avatar p)))).
    - unfold mret, Act_ret in H. injection H as <- <-.
      exists user. split; [reflexivity|]. split; [now exists s2|reflexivity].
    - unfold mbind at 1, Act_bind at 1 in H.
      unfold mbind at 1, Act_bind at 1 in H.
      destruct (truthy (Some (text_column "image" user)));
        unfold delete_object, fetch_avatar, put_object, mbind, Act_bind, mret, Act_ret
          in H;
        cbn [users connections sessions keydb bucket calls] in H.
      all: destruct (update_user _ _ _) as [s4 [[]|f]] eqn:Hupd; [|discriminate].
      all: injection H as <- <-.
      all: apply update_user_done in Hupd
             as (Hc4 & Hs4 & Hk4 & _ & _ & b & x & a & Hx & Hx').
      all: cbn [users connections sessions keydb bucket calls] in *.
      all: exists (<["image" := Str (avatar p)]> user).
      all: split; [now rewrite lookup_insert_ne|].
      all: split; [|reflexivity].
      all: exists s4; split; [exact Hk4|]; split; [exact Hs4|].
      all: split; [exact Hc4|]; split; [|reflexivity].
      all: rewrite Hx', Hx; apply column_replace;
        apply lookup_union_r, lookup_singleton_ne; discriminate. }
  subst s2. cbn [users connections sessions keydb] in *.
  exists user, user', h. split; [reflexivity|]. split; [reflexivity|].
  split; [exact Hid|]. split; [now rewrite Hk3, Hk1|].
  split; [apply Hh, lookup_insert_eq|].
  split; [apply Hh; rewrite lookup_insert_ne by discriminate; apply lookup_insert_eq|].
  split; [now rewrite Hs3, Hs1|]. split; [now rewrite Hc3, Hc1|].
  now rewrite Hu3, Hu1.
Qed.

(** The branch for a new account: one user, one connection, one session. *)
Lemma sign_up_done v p s s' r :
  sign_up out v p s = (s', Done r) ->
  let user_id := gen out "user" in
  let connection_id := gen out "connection" in
  let connection : row :=
    <["id" := Str connection_id]>
    (<["platform" := Str "discord"]>
    (<["platform_id" := Str (id p)]>
    (<["user_id" := Str user_id]>
    (<["verified" := Num 1]> ∅)))) in
  exists h,
    r = SignedIn
          (<["id" := Str user_id]>
           (<["name" := Str (username p)]>
           (<["image" := Str (avatar p)]> ∅)))
          (of_row connection) (gen out "session")
    /\ keydb s' = <["sessions/" +:+ gen out "session" := Hash h]> (keydb s)
    /\ h !! "user_id" = Some user_id
    /\ h !! "connection_id" = Some connection_id
    /\ sessions s'
       = sessions s ++ [session_row v (gen out "session") user_id connection_id]
    /\ connections s' = connections s ++ [connection]
    /\ users s'
       = users s ++ [<["id" := Str user_id]>
                     (<["name" := Str (username p)]>
                     (<["display_name" := Str (username p)]>
                     (<["image" := Str (avatar p)]> ∅)))]
    /\ (Some (Str user_id) ∉ column "id" (users s)).
Proof.
  intros H user_id connection_id connection. unfold sign_up in H.
  unfold mbind at 1, Act_bind at 1, fetch_avatar at 1 in H.
  unfold mbind at 1, Act_bind at 1, put_object at 1 in H.
  unfold mbind at 1, Act_bind at 1 in H.
  destruct (create_user _ _) as [s1 [[]|f]] eqn:Hcu; [|discriminate].
  apply create_user_done in Hcu as (Hc1 & Hs1 & Hk1 & _ & _ & Hu1 & Hfresh).
  unfold mbind at 1, Act_bind at 1 in H.
  destruct (create_connection _ s1) as [s2 [[]|f]] eqn:Hcc; [|discriminate].
  apply create_connection_done in Hcc as (Hu2 & Hs2 & Hk2 & _ & _ & Hc2).
  unfold mbind at 1, Act_bind at 1 in H.
  destruct (keydb_hset _ _ s2) as [s3 [[]|f]] eqn:Hhset; [|discriminate].
  apply hset_done in Hhset as (Hu3 & Hc3 & Hs3 & _ & _ & h & Hk3 & Hh).
  unfold mbind, Act_bind, create_session, mret, Act_ret in H.
  injection H as <- <-. cbn [users connections sessions keydb bucket calls] in *.
  exists h. split; [reflexivity|].
  split; [now rewrite Hk3, Hk2, Hk1|].
  split; [apply Hh, lookup_insert_eq|].
  split; [apply Hh; rewrite lookup_insert_ne by discriminate; apply lookup_insert_eq|].
  split; [now rewrite Hs3, Hs2, Hs1|].
  split; [now rewrite Hc3, Hc2, Hc1|].
  split; [now rewrite Hu3, Hu2, Hu1|].
  now rewrite lookup_insert_eq in Hfresh.
Qed.

End Handlers.

End AccountFacts.

Module KeyNames.
Import Accounts.

Lemma sessions_not_state token state :
  "sessions/" +:+ token <> state_key state.
Proof. unfold state_key. intros H. injection H. intros. discriminate. Qed.

Lemma refresh_not_state uid state :
  "oauth/discord/" +:+ uid +:+ "/refresh" <> state_key state.
Proof. unfold state_key. intros H. injection H. intros. discriminate. Qed.

Lemma access_not_state uid state :
  "oauth/discord/" +:+ uid <> state_key state.
Proof. unfold state_key. intros H. injection H. intros. discriminate. Qed.

End KeyNames.

Module FindFacts.

Lemma find_none_app {A} (f : A -> bool) (l l' : list A) :
  List.find f l = None -> List.find f (l ++ l') = List.find f l'.
Proof.
  induction l as [|x l IH]; [reflexivity|]. cbn.
  destruct (f x); [discriminate|exact IH].
Qed.

End FindFacts.

Module CallFacts.
Import Accounts.

Ltac run_all :=
  unfold mbind, Act_bind, mret, Act_ret, fail, keydb_exists, keydb_set, keydb_del,
    keydb_hset, put_object, delete_object, create_session, create_user,
    create_connection, update_user, fetch_avatar, find_connection, exchange,
    fetch_user;
  cbn [users connections sessions keydb bucket calls].

Ltac grown :=
  repeat case_match; intros; simplify_eq;
  cbn [users connections sessions keydb bucket calls];
  first [ exists []; now rewrite app_nil_r
        | eexists; reflexivity
        | eexists; rewrite <- app_assoc; reflexivity ].

Section Handlers.

Variable cfg : config.
Variable out : outside.

(** A handler only adds to the requests that were made. *)
Lemma sign_in_known_calls v p c l s s' o :
  sign_in_known out v p c l s = (s', o) -> exists rest, calls s' = calls s ++ rest.
Proof. unfold sign_in_known. run_all. grown. Qed.

Lemma sign_up_calls v p s s' o :
  sign_up out v p s = (s', o) -> exists rest, calls s' = calls s ++ rest.
Proof. unfold sign_up. run_all. grown. Qed.

(** With a known state, the first request that leaves the process hands the
    code to Discord. *)
Lemma callback_calls v s s' o :
  callback cfg out v s = (s', o) ->
  platform v = "discord" ->
  is_Some (keydb s !! state_key (query_state v)) ->
  exists rest,
    calls s' = calls s ++ ExchangeCode (query_code v) (redirect_uri cfg v) :: rest.
Proof.
  intros H Hp Hk. unfold callback in H. rewrite Hp, String.eqb_refl in H.
  unfold mbind at 1, Act_bind at 1, keydb_exists in H.
  rewrite bool_decide_eq_true_2 in H by exact Hk. cbn [negb] in H.
  unfold mbind at 1, Act_bind at 1, exchange in H.
  destruct (exchangeDiscordCode out (query_code v) (redirect_uri cfg v)) as [t|].
  2: { injection H as <- <-. now exists []. }
  unfold mbind at 1, Act_bind at 1, fetch_user in H.
  cbn [users connections sessions keydb bucket calls] in H.
  destruct (fetchDiscordUser out (access_token t)) as [p|].
  2: { injection H as <- <-. cbn [calls]. rewrite <- app_assoc. now eexists. }
  unfold mbind at 1, Act_bind at 1, keydb_set at 1 in H.
  unfold mbind at 1, Act_bind at 1, keydb_del at 1 in H.
  unfold mbind at 1, Act_bind at 1, keydb_set at 1 in H.
  unfold mbind at 1, Act_bind at 1, find_connection in H.
  cbn [users connections sessions keydb bucket calls] in H.
  assert (exists rest,
            calls s'
            = ((calls s ++ [ExchangeCode (query_code v) (redirect_uri cfg v)])
               ++ [FetchUser (access_token t)]) ++ rest) as [rest Hrest].
  { destruct (List.find _ (connections s)) as [c|]; cbn [mbind option_bind] in H.
    - apply sign_in_known_calls in H. exact H.
    - apply sign_up_calls in H. exact H. }
  rewrite Hrest, <- !app_assoc. now eexists.
Qed.

End Handlers.

End CallFacts.

(** X22.  Third revision, POST /oauth/discord: a state signs in once.  A
    request that was answered with a token found its [oauth_state/<state>]
    key in the store and left the store without it, so the same request
    sent again is refused with 400 [invalid_state] and changes nothing,
    whatever Discord and the id generator answer then. *)
Theorem oauth_state_single_use
    (cfg : Accounts.config) (out : Accounts.outside) (v : Accounts.visit)
    (s s' : Accounts.state) (user : row) (connection : object) (token : string) :
  Accounts.callback cfg out v s
  = (s', Accounts.Done (Accounts.SignedIn user connection token)) ->
  is_Some (Accounts.keydb s !! Accounts.state_key (Accounts.query_state v))
  /\ Accounts.keydb s' !! Accounts.state_key (Accounts.query_state v) = None
  /\ (forall out',
        Accounts.callback cfg out' v s'
        = (s', Accounts.Done (Accounts.Refused 400 "invalid_state"))).
Proof.
  intros H.
  destruct (AccountFacts.callback_done cfg out v s s' _ H)
    as [(Hr & _)|[(Hr & _)|(Hp & Hk & t & p & _ & _ & Hbranch)]];
    [discriminate Hr|discriminate Hr|].
  assert (exists h,
            Accounts.keydb s'
            = <["sessions/" +:+ Accounts.gen out "session" := Accounts.Hash h]>
                (Accounts.keydb (Accounts.exchanged cfg v t p s))) as [h Hkeys].
  { destruct (List.find _ (Accounts.connections s)) as [c|].
    - apply AccountFacts.sign_in_known_done in Hbranch
        as (u & u' & h & _ & _ & _ & Hk' & _). now exists h.
    - apply AccountFacts.sign_up_done in Hbranch. cbn zeta in Hbranch.
      destruct Hbranch as (h & _ & Hk' & _). now exists h. }
  assert (Accounts.keydb s' !! Accounts.state_key (Accounts.query_state v) = None)
    as Hgone.
  { rewrite Hkeys. unfold Accounts.exchanged. cbn [Accounts.keydb].
    rewrite lookup_insert_ne by apply KeyNames.sessions_not_state.
    rewrite lookup_insert_ne by apply KeyNames.refresh_not_state.
    apply lookup_delete_eq. }
  split; [exact Hk|]. split; [exact Hgone|].
  intros out'. unfold Accounts.callback. rewrite Hp, String.eqb_refl.
  unfold mbind, Accounts.Act_bind, Accounts.keydb_exists.

  rewrite bool_decide_eq_false_2; [reflexivity|].
  rewrite Hgone. intros [? ?]. discriminate.
Qed.

(** X23.  Third revision: the token POST /oauth/discord answers opens the
    routes behind the hook.  When the sign-in answered [token] (not the
    empty text; the [user_id] of every connection being a text), the hook
    run with [required] on the store the sign-in left, with [token] as
    authorization header, sends nothing and puts on the request a row of
    the users table that has the [id] of the user the sign-in answered. *)
Theorem sign_in_then_hook
    (cfg : Accounts.config) (out : Accounts.outside) (v : Accounts.visit)
    (s s' : Accounts.state) (user : row) (connection : object) (token : string)
    (UserFlags_admin : Z) :
  let hook := Middleware.preParsing (Accounts.hgetall (Accounts.keydb s'))
                UserFlags_admin (Middleware.Options false true) (Some token)
                (Accounts.users s') (Accounts.connections s') in
  Accounts.callback cfg out v s
  = (s', Accounts.Done (Accounts.SignedIn user connection token)) ->
  token <> EmptyString ->
  Accounts.text_user_ids s ->
  Middleware.sent hook = None
  /\ exists u,
       Middleware.req_user hook = Some u
       /\ u ∈ Accounts.users s'
       /\ is_Some (u !! "id")
       /\ u !! "id" = user !! "id".
Proof.
  intros hook H Htoken Htext.
  destruct (AccountFacts.callback_done cfg out v s s' _ H)
    as [(Hr & _)|[(Hr & _)|(Hp & Hk & t & p & _ & _ & Hbranch)]];
    [discriminate Hr|discriminate Hr|].
  assert (exists h uid,
            token = Accounts.gen out "session"
            /\ Accounts.keydb s' !! ("sessions/" +:+ token) = Some (Accounts.Hash h)
            /\ h !! "user_id" = Some uid
            /\ user !! "id" = Some (Str uid)
            /\ Some (Str uid) ∈ column "id" (Accounts.users s'))
    as (h & uid & Htok & Hsess & Huid & Huser & Hin).
  { destruct (List.find _ (Accounts.connections s)) as [c|] eqn:Hfind.
    - apply AccountFacts.sign_in_known_done in Hbranch
        as (u & u' & h & Hlinked & Hr & Hid & Hk' & Hh & _ & _ & _ & Hcol).
      injection Hr as -> _ ->.
      apply find_some in Hfind as [Hc _].
      unfold Accounts.text_user_ids in Htext. rewrite List.Forall_forall in Htext.
      destruct (Htext c Hc) as [tx Htx]. rewrite Htx in Hlinked.
      cbn [mbind option_bind] in Hlinked.
      apply find_some in Hlinked as [Hu Hhas]. apply StoreFacts.has_true in Hhas.
      assert (Accounts.text_column "id" u = tx) as Htc
        by (unfold Accounts.text_column; now rewrite Hhas).
      exists h, tx. split; [reflexivity|].
      split; [rewrite Hk'; apply lookup_insert_eq|].
      split; [now rewrite <- Htc|]. split; [now rewrite Hid|].
      rewrite Hcol. unfold column. apply list_elem_of_fmap.
      exists u. split; [now rewrite Hhas|now apply list_elem_of_In].
    - apply AccountFacts.sign_up_done in Hbranch. cbn zeta in Hbranch.
      destruct Hbranch as (h & Hr & Hk' & Hh & _ & _ & _ & Hus & _).
      injection Hr as -> _ ->.
      exists h, (Accounts.gen out "user"). split; [reflexivity|].
      split; [rewrite Hk'; apply lookup_insert_eq|].
      split; [exact Hh|]. split; [apply lookup_insert_eq|].
      rewrite Hus. unfold column. rewrite fmap_app. apply elem_of_app. right.
      cbn. apply elem_of_cons. left. now rewrite lookup_insert_eq. }
  destruct (OrderFacts.find_unique_elem _ _ _ Hin) as (u & Hfound & Hu & Hmem).
  assert (Middleware.findFirst_id (Some uid) (Accounts.users s') = Some u) as Hff
    by exact Hfound.
  assert (truthy (Some token) = true) as Htruthy
    by (destruct token; [now destruct Htoken|reflexivity]).
  subst hook. unfold Middleware.preParsing. rewrite Htruthy.
  change (Middleware.session_key (Some token)) with ("sessions/" +:+ token).
  unfold Accounts.hgetall. rewrite Hsess, Huid. cbn zeta. rewrite !Hff.
  rewrite bool_decide_eq_true_2 by now eexists.
  cbn [negb andb Middleware.required Middleware.admin Middleware.sent
         Middleware.req_user].
  split; [reflexivity|].
  exists u. split; [reflexivity|]. split; [exact Hmem|].
  split; [now rewrite Hu|now rewrite Hu, Huser].
Qed.

(** X24.  Third revision, POST /oauth/discord answered with a token: the
    Discord account is linked to a connection afterwards and exactly one
    session row was added.  If the account was linked before, the
    connections are unchanged and so are the ids of the users; if it was
    not, exactly one user and one connection were added, and the id
    generated for the user was not in the table. *)
Theorem sign_in_creates_at_most_one_account
    (cfg : Accounts.config) (out : Accounts.outside) (v : Accounts.visit)
    (s s' : Accounts.state) (user : row) (connection : object) (token : string) :
  Accounts.callback cfg out v s
  = (s', Accounts.Done (Accounts.SignedIn user connection token)) ->
  exists t p,
    Accounts.exchangeDiscordCode out (Accounts.query_code v)
      (Accounts.redirect_uri cfg v) = Some t
    /\ Accounts.fetchDiscordUser out (Accounts.access_token t) = Some p
    /\ Accounts.linked (Accounts.id p) s'
    /\ List.length (Accounts.sessions s') = S (List.length (Accounts.sessions s))
    /\ (Accounts.linked (Accounts.id p) s ->
        Accounts.connections s' = Accounts.connections s
        /\ column "id" (Accounts.users s') = column "id" (Accounts.users s))
    /\ (~ Accounts.linked (Accounts.id p) s ->
        List.length (Accounts.connections s')
        = S (List.length (Accounts.connections s))
        /\ List.length (Accounts.users s') = S (List.length (Accounts.users s))
        /\ (Some (Str (Accounts.gen out "user")) ∉ column "id" (Accounts.users s))).
Proof.
  intros H.
  destruct (AccountFacts.callback_done cfg out v s s' _ H)
    as [(Hr & _)|[(Hr & _)|(Hp & Hk & t & p & Ht & Hfetch & Hbranch)]];
    [discriminate Hr|discriminate Hr|].
  exists t, p. split; [exact Ht|]. split; [exact Hfetch|].
  unfold Accounts.linked.
  destruct (List.find _ (Accounts.connections s)) as [c|] eqn:Hfind.
  - apply AccountFacts.sign_in_known_done in Hbranch
      as (u & u' & h & _ & _ & _ & _ & _ & _ & Hs & Hc & Hu).
    cbn [Accounts.exchanged Accounts.sessions Accounts.connections Accounts.users] in *.
    rewrite Hc, Hfind. split; [now eexists|].
    split; [rewrite Hs, length_app; cbn; lia|].
    split; [intros _; now split|]. intros Hno. destruct Hno. now eexists.
  - apply AccountFacts.sign_up_done in Hbranch. cbn zeta in Hbranch.
    destruct Hbranch as (h & _ & _ & _ & _ & Hs & Hc & Hu & Hfresh).
    cbn [Accounts.exchanged Accounts.sessions Accounts.connections Accounts.users] in *.
    split.
    { rewrite Hc, (FindFacts.find_none_app _ _ _ Hfind). cbn [List.find].
      rewrite (proj2 (StoreFacts.has_true "platform" (Str "discord") _)), 
        (proj2 (StoreFacts.has_true "platform_id" (Str (Accounts.id p)) _)).
      - now eexists.
      - rewrite !lookup_insert_ne by discriminate. apply lookup_insert_eq.
      - rewrite lookup_insert_ne by discriminate. apply lookup_insert_eq. }
    split; [rewrite Hs, length_app; cbn; lia|].
    split; [intros [x Hx]; discriminate|]. intros _.
    split; [rewrite Hc, length_app; cbn; lia|].
    split; [rewrite Hu, length_app; cbn; lia|exact Hfresh].
Qed.

(** X25.  Third revision, POST /oauth/:platform is refused in two cases
    only, both with status 400 and the store left as it was (no request to
    Discord, no write): [invalid_platform] exactly when the platform is not
    ["discord"], and [invalid_state] exactly when it is and the store has no
    [oauth_state/<state>] key. *)
Theorem callback_refusals
    (cfg : Accounts.config) (out : Accounts.outside) (v : Accounts.visit)
    (s s' : Accounts.state) (status : Z) (code : string) :
  Accounts.callback cfg out v s = (s', Accounts.Done (Accounts.Refused status code))
  <-> s' = s /\ status = 400
      /\ (code = "invalid_platform" /\ Accounts.platform v <> "discord"
          \/ code = "invalid_state" /\ Accounts.platform v = "discord"
             /\ Accounts.keydb s !! Accounts.state_key (Accounts.query_state v)
                = None).
Proof.
  assert (Accounts.platform v <> "discord" ->
          Accounts.callback cfg out v s
          = (s, Accounts.Done (Accounts.Refused 400 "invalid_platform"))) as Hother.
  { intros Hp. unfold Accounts.callback.
    now destruct (String.eqb_spec (Accounts.platform v) "discord"). }
  assert (Accounts.platform v = "discord" ->
          Accounts.keydb s !! Accounts.state_key (Accounts.query_state v) = None ->
          Accounts.callback cfg out v s
          = (s, Accounts.Done (Accounts.Refused 400 "invalid_state"))) as Hstate.
  { intros Hp Hk. unfold Accounts.callback. rewrite Hp, String.eqb_refl.
    unfold mbind, Accounts.Act_bind, Accounts.keydb_exists.
    rewrite bool_decide_eq_false_2; [reflexivity|].
    rewrite Hk. intros [? ?]. discriminate. }
  split.
  - intros H.
    destruct (AccountFacts.callback_done cfg out v s s' _ H)
      as [(Hr & -> & Hp)|[(Hr & -> & Hk)|(Hp & Hk & t & p & _ & _ & Hbranch)]].
    + injection Hr as -> ->. split; [reflexivity|]. split; [reflexivity|].
      left. now split.
    + injection Hr as -> ->. split; [reflexivity|]. split; [reflexivity|].
      right. split; [reflexivity|]. split; [|exact Hk].
      destruct (String.eqb_spec (Accounts.platform v) "discord") as [Hp|Hp];
        [exact Hp|].
      rewrite (Hother Hp) in H. discriminate H.
    + destruct (List.find _ (Accounts.connections s)) as [c|].
      * apply AccountFacts.sign_in_known_done in Hbranch
          as (u & u' & h & _ & Hr & _). discriminate Hr.
      * apply AccountFacts.sign_up_done in Hbranch. cbn zeta in Hbranch.
        destruct Hbranch as (h & Hr & _). discriminate Hr.
  - intros (-> & -> & [(-> & Hp)|(-> & Hp & Hk)]); [now apply Hother|].
    now apply Hstate.
Qed.

(** X26.  Third revision, GET /oauth/discord followed by
    POST /oauth/discord.  The first stores the generated state under
    [oauth_state/<state>] with an expiry of 500 seconds and changes no other
    key, no table and makes no request; a POST that brings this state back
    (the key still being there) is not refused, and the first thing it does
    outside is to exchange the code it was given, with the redirect address
    it computes. *)
Theorem issued_state_is_accepted
    (cfg : Accounts.config) (out out' : Accounts.outside)
    (stringify : list (string * string) -> string)
    (v v' : Accounts.visit) (s s1 : Accounts.state) (url : string) :
  Accounts.authorize cfg out stringify v s = (s1, Accounts.Done (Accounts.Url url)) ->
  Accounts.platform v' = "discord" ->
  Accounts.query_state v' = Some (Accounts.gen out "oauth") ->
  Accounts.keydb s1 !! ("oauth_state/" +:+ Accounts.gen out "oauth")
  = Some (Accounts.Text (Accounts.gen out "oauth") (Accounts.EX 500))
  /\ (forall k, k <> "oauth_state/" +:+ Accounts.gen out "oauth" ->
                Accounts.keydb s1 !! k = Accounts.keydb s !! k)
  /\ Accounts.users s1 = Accounts.users s
  /\ Accounts.connections s1 = Accounts.connections s
  /\ Accounts.sessions s1 = Accounts.sessions s
  /\ Accounts.calls s1 = Accounts.calls s
  /\ (forall s2 status code,
        Accounts.callback cfg out' v' s1
        <> (s2, Accounts.Done (Accounts.Refused status code)))
  /\ exists s2 o,
       Accounts.callback cfg out' v' s1 = (s2, o)
       /\ exists rest,
            Accounts.calls s2
            = Accounts.calls s1
              ++ Accounts.ExchangeCode (Accounts.query_code v')
                   (Accounts.redirect_uri cfg v') :: rest.
Proof.
  intros H Hp Hq. unfold Accounts.authorize in H.
  destruct (String.eqb (Accounts.platform v) "discord"); [|discriminate H].
  unfold mbind, Accounts.Act_bind, Accounts.keydb_set, mret, Accounts.Act_ret in H.
  injection H as <- _.
  cbn [Accounts.users Accounts.connections Accounts.sessions Accounts.keydb
         Accounts.calls].
  set (s1 := Accounts.State _ _ _ _ _ _).
  assert (is_Some (Accounts.keydb s1 !! Accounts.state_key (Accounts.query_state v')))
    as Hk.
  { rewrite Hq. unfold Accounts.state_key. cbn. rewrite lookup_insert_eq.
    now eexists. }
  split; [apply lookup_insert_eq|].
  split; [intros k Hne; now apply lookup_insert_ne|].
  do 4 (split; [reflexivity|]). split.
  - intros s2 status code Hrefused.
    destruct (AccountFacts.callback_done cfg out' v' s1 s2 _ Hrefused)
      as [(_ & _ & Hne)|[(_ & _ & Hnone)|(_ & _ & t & p & _ & _ & Hbranch)]].
    + now destruct Hne.
    + rewrite Hnone in Hk. now destruct Hk.
    + destruct (List.find _ (Accounts.connections s1)) as [c|].
      * apply AccountFacts.sign_in_known_done in Hbranch
          as (u & u' & h & _ & Hr & _). discriminate Hr.
      * apply AccountFacts.sign_up_done in Hbranch. cbn zeta in Hbranch.
        destruct Hbranch as (h & Hr & _). discriminate Hr.
  - destruct (Accounts.callback cfg out' v' s1) as [s2 o] eqn:Hcb.
    exists s2, o. split; [reflexivity|].
    now apply (CallFacts.callback_calls cfg out' v' s1 s2 o).
Qed.

Lemma oauth_state_single_use_witness :
  let s' := (Accounts.callback SampleAccounts.cfg SampleAccounts.out
               SampleAccounts.returns SampleAccounts.fresh).1 in
  Accounts.callback SampleAccounts.cfg SampleAccounts.out SampleAccounts.returns s'
  = (s', Accounts.Done (Accounts.Refused 400 "invalid_state")).
Proof.
  intros s'.
  refine (proj2 (proj2 (oauth_state_single_use SampleAccounts.cfg
                          SampleAccounts.out SampleAccounts.returns
                          SampleAccounts.fresh s' SampleAccounts.new_user
                          (of_row SampleAccounts.new_connection) "session_1" _))
            SampleAccounts.out).
  vm_compute. reflexivity.
Defined.

Lemma sign_in_then_hook_witness :
  let s' := (Accounts.callback SampleAccounts.cfg SampleAccounts.out
               SampleAccounts.returns SampleAccounts.known).1 in
  exists u,
    Middleware.req_user
      (Middleware.preParsing (Accounts.hgetall (Accounts.keydb s')) 1
         (Middleware.Options false true) (Some "session_1")
         (Accounts.users s') (Accounts.connections s')) = Some u
    /\ u !! "id" = Some (Str "user_7").
Proof.
  intros s'.
  destruct (sign_in_then_hook SampleAccounts.cfg SampleAccounts.out
              SampleAccounts.returns SampleAccounts.known s' SampleAccounts.user_7'
              (<["users" := Relation (Some SampleAccounts.user_7')]>
                 (of_row SampleAccounts.connection_7))
              "session_1" 1) as (_ & u & Hu & _ & _ & Hsame).
  - vm_compute. reflexivity.
  - discriminate.
  - unfold Accounts.text_user_ids. apply Forall_cons. split; [|constructor].
    now exists "user_7"%string.
  - exists u. split; [exact Hu|]. now rewrite Hsame.
Defined.

Lemma sign_in_creates_at_most_one_account_witness :
  let s' := (Accounts.callback SampleAccounts.cfg SampleAccounts.out
               SampleAccounts.returns SampleAccounts.fresh).1 in
  Accounts.linked "80351110224678912" s'
  /\ List.length (Accounts.users s') = 1%nat.
Proof.
  intros s'.
  destruct (sign_in_creates_at_most_one_account SampleAccounts.cfg
              SampleAccounts.out SampleAccounts.returns SampleAccounts.fresh s'
              SampleAccounts.new_user (of_row SampleAccounts.new_connection)
              "session_1") as (t & p & _ & Hp & Hlinked & _ & _ & Hnew).
  - vm_compute. reflexivity.
  - injection Hp as <-. split; [exact Hlinked|].
    apply Hnew. intros [c Hc]. discriminate Hc.
Defined.

Lemma issued_state_is_accepted_witness :
  let s1 := (Accounts.authorize SampleAccounts.cfg SampleAccounts.out
               SampleAccounts.stringify SampleAccounts.asks
               SampleAccounts.nothing).1 in
  exists s2 o rest,
    Accounts.callback SampleAccounts.cfg SampleAccounts.out SampleAccounts.returns s1
    = (s2, o)
    /\ Accounts.calls s2
       = Accounts.ExchangeCode (Some "code_1") "https://puff.social/callback/discord"
         :: rest.
Proof.
  intros s1.
  destruct (issued_state_is_accepted SampleAccounts.cfg SampleAccounts.out
              SampleAccounts.out SampleAccounts.stringify SampleAccounts.asks
              SampleAccounts.returns SampleAccounts.nothing s1
              ("https://discord.com/oauth2/authorize?"
               +:+ "client_id=1000000000000000000&response_type=code"
               +:+ "&scope=identify&state=oauth_1"
               +:+ "&redirect_uri=https://puff.social/callback/discord"))
    as (_ & _ & _ & _ & _ & _ & _ & s2 & o & Hcb & rest & Hcalls).
  - vm_compute. reflexivity.
  - reflexivity.
  - reflexivity.
  - exists s2, o, rest. split; [exact Hcb|exact Hcalls].
Defined.
